(** * Campus map: follow state, marker rendering, routing and deep links

    A shallow embedding of the interactive-map logic of the [CampusMap]
    component (geolocation following, cluster marker rendering, route
    overlay, travel-time aggregation, shared-location deep link), and the
    properties of it stated by the specification.

    Conventions.
    - React state and refs read by the modelled code are fields of explicit
      state records; an event handler or an effect is a function on them.
    - The Mapbox map object is modelled by [Mapbox.Map]: what is attached to
      it (markers, sources, layers) and the ordered log of the calls made on
      it.
    - [await fetch(..)] is a constructor of the [Async] program type; the
      network is an oracle answering each request.
    - JavaScript numbers are modelled by [number]: NaN, the two infinities,
      or a rational.  The operations of the program that round, the division
      and [parseFloat], round to binary64 here too ([Js.binary64]); the sign
      of zero is not kept.
    - Strings are byte strings; what the language does with characters
      beyond ASCII (letter case, white space) is not modelled, and what
      depends on it is stated for ASCII strings.
    - A renderer call that is handed a position it does not accept throws
      ([Mapbox.accepts]); code in which this matters returns a
      [Mapbox.Attempt]. *)

From Stdlib Require Import ZArith QArith Qround Qabs Qpower Lqa Ascii String List Lia.
From stdpp Require Import base option list strings gmap.
Import ListNotations.

Close Scope Q_scope.
Local Open Scope string_scope.
Local Open Scope list_scope.
Local Open Scope Z_scope.

(** ** JavaScript numbers *)

Module Js.

Inductive number : Type :=
| NaN
| Infinity (negative : bool)
| Finite (q : Q).

Definition ofZ (z : Z) : number := Finite (inject_Z z).

(** [Number.isFinite]. *)
Definition isFinite (n : number) : bool :=
  match n with Finite _ => true | _ => false end.

(** *** Rounding to binary64

    The result of an arithmetic operation is the binary64 value nearest to
    the exact result, the one with the even significand when two are equally
    near, and an infinity from [2^1024 - 2^970] on. *)

Definition pow2 (e : Z) : Q := Qpower (2 # 1) e.

(** The exponent of a positive rational: the [e] with [2^e <= a < 2^(e+1)]. *)
Definition binade (a : Q) : Z :=
  let k := Z.log2 (Qnum a) - Z.log2 (Z.pos (Qden a)) in
  if Qle_bool (pow2 k) a then k else k - 1.

(** The nearest integer, the even one of two equally near. *)
Definition roundHalfEven (q : Q) : Z :=
  let f := Qfloor q in
  match Qcompare (q - inject_Z f) (1 # 2) with
  | Lt => f
  | Gt => f + 1
  | Eq => if Z.even f then f else f + 1
  end.

(** The binary64 value of a rational: 53 significant bits, the least
    exponent -1022 (below it the spacing is [2^-1074] throughout). *)
Definition binary64 (q : Q) : number :=
  match Qcompare q 0 with
  | Eq => Finite 0
  | c =>
      let a := Qabs q in
      let ulp := pow2 (Z.max (binade a) (-1022) - 52) in
      let r := (inject_Z (roundHalfEven (a / ulp)) * ulp)%Q in
      let negative := match c with Lt => true | _ => false end in
      if Qle_bool (pow2 1024) r then Infinity negative
      else Finite (Qred (if negative then - r else r))
  end.

(** The relative error of a rounding is at most [2^-53]. *)
Definition unitRoundoff : Q := pow2 (-53).

(** [Math.round]: nearest integer, ties towards +Infinity.  The integer
    nearest to a binary64 value is one too, so that nothing is rounded. *)
Definition Math_round (n : number) : number :=
  match n with
  | Finite q => Finite (inject_Z (Qfloor (q + (1 # 2))%Q))
  | _ => n
  end.

(** [n / k] for a positive literal [k]. *)
Definition divBy (k : positive) (n : number) : number :=
  match n with
  | Finite q => binary64 (q / inject_Z (Z.pos k))
  | _ => n
  end.

(** [isNaN]. *)
Definition isNaN (n : number) : bool :=
  match n with NaN => true | _ => false end.

(** [a <= b]; false as soon as one side is NaN. *)
Definition leb (a b : number) : bool :=
  match a, b with
  | NaN, _ | _, NaN => false
  | Infinity true, _ => true
  | _, Infinity false => true
  | Infinity false, _ => false
  | _, Infinity true => false
  | Finite x, Finite y => Qle_bool x y
  end.

(** [Math.min] and [Math.max] of two numbers: NaN as soon as one is. *)
Definition min (a b : number) : number :=
  match a, b with
  | NaN, _ | _, NaN => NaN
  | _, _ => if leb a b then a else b
  end.

Definition max (a b : number) : number :=
  match a, b with
  | NaN, _ | _, NaN => NaN
  | _, _ => if leb a b then b else a
  end.

(** Truthiness of a string or of a nullable string. *)
Definition truthy (s : string) : bool :=
  match s with EmptyString => false | String _ _ => true end.

Definition truthyOpt (o : option string) : bool :=
  match o with Some s => truthy s | None => false end.

(** Strings are byte strings.  A string of ASCII characters is the same
    sequence in JavaScript; how the language treats other characters (letter
    case, white space beyond ASCII) is not modelled, and what depends on it is
    stated for ASCII strings. *)
Definition isAsciiChar (c : ascii) : bool := (nat_of_ascii c <? 128)%nat.

Fixpoint isAscii (s : string) : bool :=
  match s with
  | EmptyString => true
  | String c r => isAsciiChar c && isAscii r
  end.

(** *** [parseFloat]

    ECMAScript [parseFloat]: leading white space is skipped, then the
    longest prefix that is a [StrDecimalLiteral] is read; the result is NaN
    when there is none, and otherwise the binary64 value of the literal.  Strings are byte strings, so only the ASCII white
    space and line terminator characters are recognised. *)

Definition isWhiteSpace (c : ascii) : bool :=
  let n := nat_of_ascii c in
  ((n =? 9) || (n =? 10) || (n =? 11) || (n =? 12) || (n =? 13) || (n =? 32))%nat.

Fixpoint trimStart (s : string) : string :=
  match s with
  | String c r => if isWhiteSpace c then trimStart r else s
  | EmptyString => s
  end.

Definition digitValue (c : ascii) : option Z :=
  let n := nat_of_ascii c in
  if ((48 <=? n) && (n <=? 57))%nat then Some (Z.of_nat (n - 48)) else None.

(** The longest run of decimal digits at the head of [s], and what follows. *)
Fixpoint takeDigits (s : string) : list Z * string :=
  match s with
  | String c r =>
      match digitValue c with
      | Some d => let '(ds, rest) := takeDigits r in (d :: ds, rest)
      | None => ([], s)
      end
  | EmptyString => ([], s)
  end.

Definition digitsValue (ds : list Z) : Z :=
  fold_left (fun acc d => 10 * acc + d) ds 0.

Definition startsWith (p s : string) : bool := String.prefix p s.

Definition dropSign (s : string) : bool * string :=
  match s with
  | String "-" r => (true, r)
  | String "+" r => (false, r)
  | _ => (false, s)
  end.

(** The value of an [ExponentPart] at the head of [s], 0 when there is none
    (an [e] that no digit follows is not part of the literal). *)
Definition exponentPart (s : string) : Z :=
  match s with
  | String c r =>
      if (Ascii.eqb c "e" || Ascii.eqb c "E")%bool then
        let '(neg, r') := dropSign r in
        match fst (takeDigits r') with
        | [] => 0
        | ds => if neg then - digitsValue ds else digitsValue ds
        end
      else 0
  | EmptyString => 0
  end.

Definition decimalValue (m e : Z) : Q :=
  if 0 <=? e then inject_Z (m * 10 ^ e)
  else Qmake m (Z.to_pos (10 ^ (- e))).

Definition parseFloat (input : string) : number :=
  let '(neg, s) := dropSign (trimStart input) in
  if startsWith "Infinity" s then Infinity neg
  else
    let '(ints, r1) := takeDigits s in
    let '(fracs, r2) :=
      match r1 with
      | String "." r => takeDigits r
      | _ => ([], r1)
      end in
    match ints ++ fracs with
    | [] => NaN
    | ds =>
        let m := digitsValue ds in
        let e := exponentPart r2 - Z.of_nat (length fracs) in
        binary64 (if neg then Qopp (decimalValue m e) else decimalValue m e)
    end.

End Js.

(** ** The renderer: the part of the Mapbox GL API the component uses *)

Module Mapbox.

(** A position, written [[lng, lat]] in the source. *)
Record LngLat := { lng : Js.number; lat : Js.number }.

(** The DOM element a marker is built around. *)
Inductive Element : Type :=
| UserBlip
| SharedBlip
| ClusterBadge (cluster_id : Z) (point_count : Z) (mobile : bool)
| LocationBlip (locationId : string) (name : string) (category : string) (mobile : bool).

(** A [mapboxgl.Marker] object; [handle] is its identity. *)
Record Marker := {
  handle : nat;
  lngLat : LngLat;
  element : Element;
  popup : option string
}.

(** [LngLat.convert], through which every call that is given a position
    goes ([setLngLat], [flyTo], [new LngLatBounds], [extend]): it throws on a
    NaN coordinate and on a latitude outside [-90, 90], and accepts every
    other position, whatever its longitude. *)
Definition accepts (p : LngLat) : bool :=
  negb (Js.isNaN (lng p)) && negb (Js.isNaN (lat p))
  && Js.leb (Js.ofZ (-90)) (lat p) && Js.leb (lat p) (Js.ofZ 90).

(** How component code that calls the renderer ends: it runs to its end, or
    a call throws and the exception leaves it. *)
Inductive Attempt (A : Type) : Type :=
| Completed (a : A)
| Refused.
Arguments Completed {A} a.
Arguments Refused {A}.

(** A [mapboxgl.LngLatBounds] value, kept as the calls that built it. *)
Inductive Bounds : Type :=
| LngLatBounds (sw ne : option LngLat)
| extend (b : Bounds) (c : LngLat).

(** The corners of a [LngLatBounds] value, south-west then north-east.
    [extend] gives empty bounds both corners at the position, and otherwise
    moves the south-west corner to the smaller and the north-east corner to
    the larger longitude and latitude. *)
Fixpoint corners (b : Bounds) : option (LngLat * LngLat) :=
  match b with
  | LngLatBounds (Some sw) (Some ne) => Some (sw, ne)
  | LngLatBounds _ _ => None
  | extend b' c =>
      match corners b' with
      | Some (sw, ne) =>
          Some ({| lng := Js.min (lng c) (lng sw); lat := Js.min (lat c) (lat sw) |},
                {| lng := Js.max (lng c) (lng ne); lat := Js.max (lat c) (lat ne) |})
      | None => Some (c, c)
      end
  end.

(** A GeoJSON line geometry. *)
Record Geometry := { coordinates : list LngLat }.

Record Layer := {
  layer_id : string;
  layer_type : string;
  layer_source : string;
  line_join : string;
  line_cap : string;
  line_color : string;
  line_width : Z;
  line_opacity : Js.number
}.

Inductive Call : Type :=
| MarkerAddTo (h : nat)
| MarkerRemove (h : nat)
| MarkerSetLngLat (h : nat) (p : LngLat)
| FlyTo (center : LngLat) (zoom : Z)
| FitBounds (b : Bounds) (padding : Z)
| AddSource (id : string) (g : Geometry)
| AddLayer (l : Layer)
| RemoveLayer (id : string)
| RemoveSource (id : string).

(** The visible region, as [getBounds] reports it. *)
Record Bbox := { west : Js.number; south : Js.number; east : Js.number; north : Js.number }.

Record Map := {
  markers : list Marker;            (* markers attached to the map *)
  sources : gmap string Geometry;
  layers : gmap string Layer;
  calls : list Call;                (* every call made, oldest first *)
  nextHandle : nat;                 (* identity of the next object created *)
  viewBounds : Bbox;
  viewZoom : Js.number
}.

Definition log (c : Call) (m : Map) : Map :=
  {| markers := markers m; sources := sources m; layers := layers m;
     calls := calls m ++ [c]; nextHandle := nextHandle m;
     viewBounds := viewBounds m; viewZoom := viewZoom m |}.

Definition withMarkers (ms : list Marker) (m : Map) : Map :=
  {| markers := ms; sources := sources m; layers := layers m;
     calls := calls m; nextHandle := nextHandle m;
     viewBounds := viewBounds m; viewZoom := viewZoom m |}.

Definition withSources (ss : gmap string Geometry) (m : Map) : Map :=
  {| markers := markers m; sources := ss; layers := layers m;
     calls := calls m; nextHandle := nextHandle m;
     viewBounds := viewBounds m; viewZoom := viewZoom m |}.

Definition withLayers (ls : gmap string Layer) (m : Map) : Map :=
  {| markers := markers m; sources := sources m; layers := ls;
     calls := calls m; nextHandle := nextHandle m;
     viewBounds := viewBounds m; viewZoom := viewZoom m |}.

Definition withCamera (b : Bbox) (z : Js.number) (m : Map) : Map :=
  {| markers := markers m; sources := sources m; layers := layers m;
     calls := calls m; nextHandle := nextHandle m;
     viewBounds := b; viewZoom := z |}.

(** [new mapboxgl.Marker(el).setLngLat(p).addTo(map)], with an optional
    [setPopup]: a new object, attached to the map. *)
Definition addMarker (el : Element) (p : LngLat) (pop : option string) (m : Map) : nat * Map :=
  let h := nextHandle m in
  (h, log (MarkerAddTo h)
        {| markers := markers m ++ [{| handle := h; lngLat := p; element := el; popup := pop |}];
           sources := sources m; layers := layers m; calls := calls m;
           nextHandle := S h; viewBounds := viewBounds m; viewZoom := viewZoom m |}).

(** [marker.remove()]. *)
Definition removeMarker (h : nat) (m : Map) : Map :=
  log (MarkerRemove h)
    (withMarkers (List.filter (fun k => negb (Nat.eqb (handle k) h)) (markers m)) m).

(** [marker.setLngLat(p)] on an existing marker. *)
Definition setLngLat (h : nat) (p : LngLat) (m : Map) : Map :=
  log (MarkerSetLngLat h p)
    (withMarkers
       (List.map (fun k => if Nat.eqb (handle k) h
                           then {| handle := h; lngLat := p; element := element k; popup := popup k |}
                           else k) (markers m)) m).

Definition flyTo (center : LngLat) (zoom : Z) (m : Map) : Map := log (FlyTo center zoom) m.
Definition fitBounds (b : Bounds) (padding : Z) (m : Map) : Map := log (FitBounds b padding) m.

Definition getLayer (id : string) (m : Map) : option Layer := layers m !! id.
Definition getSource (id : string) (m : Map) : option Geometry := sources m !! id.

Definition removeLayer (id : string) (m : Map) : Map :=
  log (RemoveLayer id) (withLayers (delete id (layers m)) m).
Definition removeSource (id : string) (m : Map) : Map :=
  log (RemoveSource id) (withSources (delete id (sources m)) m).
Definition addSource (id : string) (g : Geometry) (m : Map) : Map :=
  log (AddSource id g) (withSources (<[id := g]> (sources m)) m).
Definition addLayer (l : Layer) (m : Map) : Map :=
  log (AddLayer l) (withLayers (<[layer_id l := l]> (layers m)) m).

Definition getZoom (m : Map) : Js.number := viewZoom m.
Definition getBounds (m : Map) : Bbox := viewBounds m.

(** A freshly constructed map showing the region [b] at zoom [z]. *)
Definition newMap (b : Bbox) (z : Js.number) : Map :=
  {| markers := []; sources := ∅; layers := ∅; calls := []; nextHandle := 0%nat;
     viewBounds := b; viewZoom := z |}.

Definition isFlyTo (c : Call) : bool :=
  match c with FlyTo _ _ => true | _ => false end.

(** The recenter instructions among the calls made so far. *)
Definition flyTos (m : Map) : list Call := List.filter isFlyTo (calls m).

End Mapbox.

(** ** Following the user's position *)

Module Follow.

(** [userLocation]: [{ lat, lng }]. *)
Record LatLng := { lat : Js.number; lng : Js.number }.

Definition toLngLat (p : LatLng) : Mapbox.LngLat :=
  {| Mapbox.lng := lng p; Mapbox.lat := lat p |}.

Record State := {
  mapCurrent : option Mapbox.Map;      (* map.current *)
  userLocation : option LatLng;
  userMarkerRef : option nat;          (* userMarkerRef.current *)
  followUser : bool;
  followRef : bool                     (* followRef.current *)
}.

(** The state on mount; [m] is the map once [initializeMap] has run. *)
Definition initial (m : option Mapbox.Map) : State :=
  {| mapCurrent := m; userLocation := None; userMarkerRef := None;
     followUser := true; followRef := true |}.

Inductive FollowState := Following | Manual.

Definition followState (s : State) : FollowState :=
  if followUser s then Following else Manual.

Definition setFollowUser (b : bool) (s : State) : State :=
  {| mapCurrent := mapCurrent s; userLocation := userLocation s;
     userMarkerRef := userMarkerRef s; followUser := b; followRef := followRef s |}.

Definition setUserLocation (p : LatLng) (s : State) : State :=
  {| mapCurrent := mapCurrent s; userLocation := Some p;
     userMarkerRef := userMarkerRef s; followUser := followUser s; followRef := followRef s |}.

Definition setMap (m : Mapbox.Map) (s : State) : State :=
  {| mapCurrent := Some m; userLocation := userLocation s;
     userMarkerRef := userMarkerRef s; followUser := followUser s; followRef := followRef s |}.

Definition setUserMarker (h : nat) (s : State) : State :=
  {| mapCurrent := mapCurrent s; userLocation := userLocation s;
     userMarkerRef := Some h; followUser := followUser s; followRef := followRef s |}.

(** [useEffect(() => { followRef.current = followUser; }, [followUser])] *)
Definition followRefEffect (s : State) : State :=
  {| mapCurrent := mapCurrent s; userLocation := userLocation s;
     userMarkerRef := userMarkerRef s; followUser := followUser s; followRef := followUser s |}.

(** The map events [initializeMap] listens to. *)
Inductive Interaction := dragstart | zoomstart | rotatestart | touchstart.

(** The four listeners [initializeMap] registers on the map. *)
Definition onInteraction (k : Interaction) (s : State) : State :=
  match k with
  | dragstart => setFollowUser false s
  | zoomstart => setFollowUser false s
  | rotatestart => setFollowUser false s
  | touchstart => setFollowUser false s
  end.

(** [map.current.flyTo(..)] as the component calls it.  The renderer starts
    the flight before the call returns, and fires [movestart] and [zoomstart]
    on the map as it does; the component listens to the second, so its own
    listener runs inside the call. *)
Definition flyTo (center : Mapbox.LngLat) (zoom : Z) (m : Mapbox.Map) (s : State) : State :=
  onInteraction zoomstart (setMap (Mapbox.flyTo center zoom m) s).

(** The effect on [[userLocation]]: place or move the user's marker, then
    recenter when following. *)
Definition userLocationEffect (s : State) : State :=
  match mapCurrent s, userLocation s with
  | Some m, Some p =>
      let s1 :=
        match userMarkerRef s with
        | Some h => setMap (Mapbox.setLngLat h (toLngLat p) m) s
        | None =>
            let '(h, m') := Mapbox.addMarker Mapbox.UserBlip (toLngLat p) None m in
            setUserMarker h (setMap m' s)
        end in
      if followRef s1 then
        match mapCurrent s1 with
        | Some m1 => flyTo (toLngLat p) 17 m1 s1
        | None => s1
        end
      else s1
  | _, _ => s
  end.

(** The click handler of the Locate Me button. *)
Definition onLocateMe (s : State) : State :=
  match userLocation s, mapCurrent s with
  | Some p, Some m => flyTo (toLngLat p) 17 m (setFollowUser true s)
  | _, _ => s
  end.

Inductive Event :=
| Position (p : LatLng)            (* a sample from watchPosition *)
| MapInteraction (k : Interaction)
| LocateMe.

(** The effects of the render that follows a handler: the one on
    [[followUser]] runs when [followUser] changed. *)
Definition commitFollow (before after : State) : State :=
  if Bool.eqb (followUser before) (followUser after) then after
  else followRefEffect after.

(** One event: its handler, then the effects whose dependencies changed.
    A new [userLocation] object is set at every sample, so the effect on it
    runs at every sample; when that effect has changed [followUser], through
    the listener its [flyTo] triggers, another render follows. *)
Definition step (s : State) (e : Event) : State :=
  match e with
  | Position p =>
      let s1 := setUserLocation p s in
      commitFollow s1 (userLocationEffect s1)
  | MapInteraction k => commitFollow s (onInteraction k s)
  | LocateMe => commitFollow s (onLocateMe s)
  end.

Definition run (es : list Event) (s : State) : State := fold_left step es s.

(** The recenter instructions issued so far. *)
Definition recenters (s : State) : list Mapbox.Call :=
  match mapCurrent s with Some m => Mapbox.flyTos m | None => [] end.

End Follow.

(** ** Clustering the catalogue and rendering the clusters *)

Module Clusters.

Record CampusLocation := {
  id : string;
  name : string;
  category : string;
  latitude : Js.number;
  longitude : Js.number;
  description : option string
}.

(** A GeoJSON point feature: a catalogue entry as the clustering effect
    builds it ([properties.cluster] false), or a cluster as the index
    returns it ([properties.cluster] true). *)
Inductive Feature : Type :=
| LocationPoint (coordinates : Mapbox.LngLat) (locationId category name : string)
| ClusterPoint (coordinates : Mapbox.LngLat) (cluster_id point_count : Z).

Definition coordinatesOf (f : Feature) : Mapbox.LngLat :=
  match f with
  | LocationPoint c _ _ _ => c
  | ClusterPoint c _ _ => c
  end.

(** The stable key of a rendered feature: the location id, or the cluster id. *)
Inductive Key := LocationKey (locationId : string) | ClusterKey (cluster_id : Z).

Definition keyOf (f : Feature) : Key :=
  match f with
  | LocationPoint _ i _ _ => LocationKey i
  | ClusterPoint _ i _ => ClusterKey i
  end.

Definition keyOfElement (e : Mapbox.Element) : option Key :=
  match e with
  | Mapbox.LocationBlip i _ _ _ => Some (LocationKey i)
  | Mapbox.ClusterBadge i _ _ => Some (ClusterKey i)
  | _ => None
  end.

(** A [Supercluster] instance after [load]: its options and the points it
    was given.  The library itself is not part of the repository. *)
Record Supercluster := {
  radius : Z;
  maxZoom : Z;
  points : list Feature
}.

Record State := {
  mapCurrent : option Mapbox.Map;
  markersRef : list nat;               (* markersRef.current, by identity *)
  locations : list CampusLocation;
  supercluster : option Supercluster;
  mapBounds : list Js.number;
  clusters : list Feature;
  isMobile : bool
}.

Definition setSupercluster (c : Supercluster) (s : State) : State :=
  {| mapCurrent := mapCurrent s; markersRef := markersRef s; locations := locations s;
     supercluster := Some c; mapBounds := mapBounds s; clusters := clusters s;
     isMobile := isMobile s |}.

Definition setMapBounds (b : list Js.number) (s : State) : State :=
  {| mapCurrent := mapCurrent s; markersRef := markersRef s; locations := locations s;
     supercluster := supercluster s; mapBounds := b; clusters := clusters s;
     isMobile := isMobile s |}.

Definition setMap (m : Mapbox.Map) (s : State) : State :=
  {| mapCurrent := Some m; markersRef := markersRef s; locations := locations s;
     supercluster := supercluster s; mapBounds := mapBounds s; clusters := clusters s;
     isMobile := isMobile s |}.

(** The point feature the clustering effect builds for a catalogue entry. *)
Definition toPoint (location : CampusLocation) : Feature :=
  LocationPoint {| Mapbox.lng := longitude location; Mapbox.lat := latitude location |}
                (id location) (category location) (name location).

(** The clustering effect: build the index from the catalogue. *)
Definition clusteringEffect (s : State) : State :=
  match locations s with
  | [] => s
  | _ :: _ =>
      let points := List.map toPoint (locations s) in
      let cluster :=
        {| radius := if isMobile s then 20 else 40; maxZoom := 18; points := points |} in
      setSupercluster cluster s
  end.

(** The element built for a feature in the cluster update effect. *)
Definition elementOf (mobile : bool) (f : Feature) : Mapbox.Element :=
  match f with
  | ClusterPoint _ cid count => Mapbox.ClusterBadge cid count mobile
  | LocationPoint _ lid cat nm => Mapbox.LocationBlip lid nm cat mobile
  end.

(** [clusters.forEach(cluster => { ... markersRef.current.push(marker) })] *)
Definition addClusterMarker (mobile : bool) (acc : Mapbox.Map * list nat) (f : Feature)
  : Mapbox.Map * list nat :=
  let '(h, m') := Mapbox.addMarker (elementOf mobile f) (coordinatesOf f) None (fst acc) in
  (m', snd acc ++ [h]).

(** The markers created for the features [cs], the first one with
    identity [n]. *)
Definition created (mobile : bool) (n : nat) (cs : list Feature) : list Mapbox.Marker :=
  List.map (fun hc => {| Mapbox.handle := fst hc; Mapbox.lngLat := coordinatesOf (snd hc);
                         Mapbox.element := elementOf mobile (snd hc); Mapbox.popup := None |})
           (combine (seq n (length cs)) cs).

(** [markersRef.current.forEach(marker => marker.remove())] *)
Definition removeAll (hs : list nat) (m : Mapbox.Map) : Mapbox.Map :=
  fold_left (fun m h => Mapbox.removeMarker h m) hs m.

Definition bboxArray (b : Mapbox.Bbox) : list Js.number :=
  [Mapbox.west b; Mapbox.south b; Mapbox.east b; Mapbox.north b].

Section WithIndex.

(** [supercluster.getClusters(bbox, zoom)], a function of the library. *)
Variable getClusters : Supercluster -> list Js.number -> Js.number -> list Feature.

(** The cluster update effect. *)
Definition updateClustersEffect (s : State) : State :=
  match mapCurrent s, supercluster s, mapBounds s with
  | Some m, Some sc, _ :: _ =>
      let m1 := removeAll (markersRef s) m in
      let zoom := Mapbox.getZoom m1 in
      let cs := getClusters sc (mapBounds s) (Js.Math_round zoom) in
      let '(m2, hs) := fold_left (addClusterMarker (isMobile s)) cs (m1, []) in
      {| mapCurrent := Some m2; markersRef := hs; locations := locations s;
         supercluster := supercluster s; mapBounds := mapBounds s; clusters := cs;
         isMobile := isMobile s |}
  | _, _, _ => s
  end.

(** The commits that follow [setSupercluster].  In the first, the effect
    on [[supercluster]] registers the [moveend] listener and asks for the
    bounds of the map to be stored, if the map and the index exist, and the
    cluster update effect runs with the bounds known so far; in the second,
    the cluster update effect runs with the bounds just stored.  The flag
    tells whether the listener was registered. *)
Definition superclusterCommits (s : State) : State * bool :=
  let registered :=
    match mapCurrent s, supercluster s with
    | Some m, Some _ => Some (bboxArray (Mapbox.getBounds m))
    | _, _ => None
    end in
  let u := updateClustersEffect s in
  match registered with
  | Some bounds => (updateClustersEffect (setMapBounds bounds u), true)
  | None => (u, false)
  end.

(** The camera came to rest showing [b] at zoom [z].  When the [moveend]
    listener has been registered ([listening]), it stores the bounds, and the
    cluster update effect runs; otherwise no code of the component runs. *)
Definition moveend (listening : bool) (s : State) (v : Mapbox.Bbox * Js.number) : State :=
  let s1 :=
    match mapCurrent s with
    | Some m => setMap (Mapbox.withCamera (fst v) (snd v) m) s
    | None => s
    end in
  if listening then
    match mapCurrent s1 with
    | Some m => updateClustersEffect (setMapBounds (bboxArray (Mapbox.getBounds m)) s1)
    | None => s1
    end
  else s1.

Definition moves (listening : bool) (vs : list (Mapbox.Bbox * Js.number)) (s : State) : State :=
  fold_left (moveend listening) vs s.

End WithIndex.

(** The marker with identity [h], if it is attached to [m]. *)
Definition markerOf (m : Mapbox.Map) (h : nat) : option Mapbox.Marker :=
  List.find (fun k => Nat.eqb (Mapbox.handle k) h) (Mapbox.markers m).

(** The keys of the markers of [markersRef] that are on the map. *)
Definition renderedKeys (s : State) : list Key :=
  match mapCurrent s with
  | Some m =>
      omap (fun h => match markerOf m h with
                    | Some k => keyOfElement (Mapbox.element k)
                    | None => None
                    end) (markersRef s)
  | None => []
  end.


End Clusters.

(** ** Routes and travel times *)

Module Routing.

Import Follow.

(** One route of a Directions response. *)
Record Route := { route_duration : Js.number; route_geometry : Mapbox.Geometry }.

(** The parsed body of a Directions response ([data]); [routes] is absent
    in an error body. *)
Record Directions := { routes : option (list Route) }.

(** [data.routes && data.routes[0]] *)
Definition firstRoute (data : Directions) : option Route :=
  match routes data with
  | Some (r :: _) => Some r
  | _ => None
  end.

(** The Directions URL of a profile, kept as its parts. *)
Record Request := {
  req_profile : string;
  req_from : LatLng;
  req_to : LatLng;
  req_token : string
}.

(** How [fetch(url)] followed by [res.json()] settles. *)
Inductive Outcome := Throws | Responds (data : Directions).

(** Programs that await network requests. *)
Inductive Async (A : Type) : Type :=
| Return (a : A)
| Await (r : Request) (k : Outcome -> Async A).
Arguments Return {A} a.
Arguments Await {A} r k.

Fixpoint bind {A B} (p : Async A) (f : A -> Async B) : Async B :=
  match p with
  | Return a => f a
  | Await r k => Await r (fun o => bind (k o) f)
  end.

Notation "'let*' x ':=' p 'in' q" := (bind p (fun x => q))
  (at level 10, x name, p at level 100, q at level 200).

Inductive NetEvent := Issued (r : Request) | Settled (r : Request) (o : Outcome).

(** Run [p] as far as the network allows: [net r = None] is a request
    that has not settled.  The result is [None] while [p] is still waiting. *)
Fixpoint exec {A} (net : Request -> option Outcome) (p : Async A) : option A * list NetEvent :=
  match p with
  | Return a => (Some a, [])
  | Await r k =>
      match net r with
      | Some o => let '(a, t) := exec net (k o) in (a, Issued r :: Settled r o :: t)
      | None => (None, [Issued r])
      end
  end.

(** Run [p] on a network where every request settles. *)
Fixpoint run {A} (net : Request -> Outcome) (p : Async A) : A * list NetEvent :=
  match p with
  | Return a => (a, [])
  | Await r k => let '(a, t) := run net (k (net r)) in (a, Issued r :: Settled r (net r) :: t)
  end.

(** The largest number of requests in flight at once along a trace. *)
Fixpoint maxInFlight (cur : nat) (t : list NetEvent) : nat :=
  match t with
  | [] => cur
  | Issued _ :: t' => Nat.max cur (maxInFlight (S cur) t')
  | Settled _ _ :: t' => Nat.max cur (maxInFlight (pred cur) t')
  end.

Record Mode := { profile : string; mode_label : string }.

Definition modes : list Mode :=
  [ {| profile := "walking"; mode_label := "Walk" |};
    {| profile := "cycling"; mode_label := "Cycle" |};
    {| profile := "driving"; mode_label := "Drive" |} ].

Record TravelTime := { label : string; duration : option Js.number }.

Definition directionsUrl (prof : string) (from to : LatLng) (token : string) : Request :=
  {| req_profile := prof; req_from := from; req_to := to; req_token := token |}.

(** The [for (const mode of modes)] loop of [getTravelTimes]. *)
Fixpoint travelTimesLoop (token : string) (from to : LatLng)
    (todo : list Mode) (results : list TravelTime) : Async (list TravelTime) :=
  match todo with
  | [] => Return results
  | mode :: rest =>
      Await (directionsUrl (profile mode) from to token) (fun settled =>
        match settled with
        | Responds data =>
            match firstRoute data with
            | Some route =>
                travelTimesLoop token from to rest
                  (results ++ [{| label := mode_label mode;
                                  duration := Some (Js.Math_round (Js.divBy 60 (route_duration route))) |}])
            | None =>
                travelTimesLoop token from to rest
                  (results ++ [{| label := mode_label mode; duration := None |}])
            end
        | Throws =>
            travelTimesLoop token from to rest
              (results ++ [{| label := mode_label mode; duration := None |}])
        end)
  end.

Definition getTravelTimes (mapboxToken : string) (from to : LatLng)
  : Async (option (list TravelTime)) :=
  if negb (Js.truthy mapboxToken) then Return None
  else
    let* results := travelTimesLoop mapboxToken from to modes [] in
    Return (Some results).

(** The entry [getTravelTimes] pushes for [mode] once its request has
    settled with [settled]. *)
Definition settledEntry (mode : Mode) (settled : Outcome) : TravelTime :=
  {| label := mode_label mode;
     duration :=
       match settled with
       | Responds data =>
           match firstRoute data with
           | Some route => Some (Js.Math_round (Js.divBy 60 (route_duration route)))
           | None => None
           end
       | Throws => None
       end |}.

(** The events of one request after the other, each settled before the
    next is issued. *)
Definition sequential (net : Request -> Outcome) (rs : list Request) : list NetEvent :=
  flat_map (fun r => [Issued r; Settled r (net r)]) rs.

(** *** [drawRoute] *)

Definition routeLayer : Mapbox.Layer :=
  {| Mapbox.layer_id := "route"; Mapbox.layer_type := "line"; Mapbox.layer_source := "route";
     Mapbox.line_join := "round"; Mapbox.line_cap := "round";
     Mapbox.line_color := "#3b82f6"; Mapbox.line_width := 6;
     Mapbox.line_opacity := Js.Finite (8 # 10) |}.

(** [coordinates.reduce((b, c) => b.extend(c),
      new LngLatBounds(coordinates[0], coordinates[0]))] *)
Definition routeBounds (coordinates : list Mapbox.LngLat) : Mapbox.Bounds :=
  fold_left Mapbox.extend coordinates
    (Mapbox.LngLatBounds (head coordinates) (head coordinates)).

(** A position of a route geometry as a Directions body can hold it: two
    finite numbers (JSON has no others) that the renderer accepts. *)
Definition validCoordinate (c : Mapbox.LngLat) : bool :=
  Js.isFinite (Mapbox.lng c) && Js.isFinite (Mapbox.lat c) && Mapbox.accepts c.

(** The request [drawRoute] starts, if any; it is not awaited. *)
Definition drawRoute (mapReady : bool) (mapboxToken : string) (from to : LatLng)
  : option Request :=
  if negb mapReady || negb (Js.truthy mapboxToken) then None
  else Some (directionsUrl "driving" from to mapboxToken).

(** The [.then] callback of [drawRoute], on the map as it then is. *)
Definition drawRouteThen (data : Directions) (m : Mapbox.Map) : Mapbox.Map :=
  match firstRoute data with
  | Some route =>
      let m1 := match Mapbox.getLayer "route" m with
                | Some _ => Mapbox.removeLayer "route" m
                | None => m
                end in
      let m2 := match Mapbox.getSource "route" m1 with
                | Some _ => Mapbox.removeSource "route" m1
                | None => m1
                end in
      let m3 := Mapbox.addSource "route" (route_geometry route) m2 in
      let m4 := Mapbox.addLayer routeLayer m3 in
      let coordinates := Mapbox.coordinates (route_geometry route) in
      Mapbox.fitBounds (routeBounds coordinates) 50 m4
  | None => m
  end.

(** The request of [drawRoute] settles; [.catch] only logs the error. *)
Definition drawRouteSettled (o : Outcome) (m : Mapbox.Map) : Mapbox.Map :=
  match o with
  | Responds data => drawRouteThen data m
  | Throws => m
  end.

(** *** [handleGetDirections] *)

Inductive Description :=
| Text (s : string)
| TravelTimesText (times : list TravelTime).   (* "Walk: 5 min | Cycle: N/A | ..." *)

Record Toast := { title : string; description : Description; toast_duration : Z }.

(** [window.open] of the Google Maps directions URL to a destination. *)
Record Opened := { destination_lat : Js.number; destination_lng : Js.number; target : string }.

(** What the handler does outside the map: toasts shown, windows opened,
    and the requests started without being awaited. *)
Record Shell := {
  toasts : list Toast;
  opened : list Opened;
  detached : list Request
}.

Definition toast (t : Toast) (u : Shell) : Shell :=
  {| toasts := toasts u ++ [t]; opened := opened u; detached := detached u |}.

Definition windowOpen (w : Opened) (u : Shell) : Shell :=
  {| toasts := toasts u; opened := opened u ++ [w]; detached := detached u |}.

Definition detach (r : option Request) (u : Shell) : Shell :=
  match r with
  | Some q => {| toasts := toasts u; opened := opened u; detached := detached u ++ [q] |}
  | None => u
  end.

Definition handleGetDirections (userLocation : option LatLng) (mapReady : bool)
    (mapboxToken : string) (location : Clusters.CampusLocation) (u : Shell) : Async Shell :=
  let dest := {| lat := Clusters.latitude location; lng := Clusters.longitude location |} in
  match userLocation, mapReady with
  | Some me, true =>
      let u1 := detach (drawRoute mapReady mapboxToken me dest) u in
      let* times := getTravelTimes mapboxToken me dest in
      match times with
      | Some ts =>
          Return (toast {| title := "Estimated Travel Times";
                           description := TravelTimesText ts;
                           toast_duration := 7000 |} u1)
      | None => Return u1
      end
  | _, _ =>
      let u1 := windowOpen {| destination_lat := Clusters.latitude location;
                              destination_lng := Clusters.longitude location;
                              target := "_blank" |} u in
      Return (toast {| title := "Directions";
                       description := Text "Opening directions in Google Maps";
                       toast_duration := 3000 |} u1)
  end.

Definition isTravelTimesToast (t : Toast) : bool :=
  String.eqb (title t) "Estimated Travel Times".

End Routing.

(** ** The shared-location deep link *)

Module DeepLink.

(** [new URLSearchParams(window.location.search)]: the decoded
    name/value pairs, in order. *)
Definition URLSearchParams := list (string * string).

(** [params.get(name)]: the first value of [name], or null. *)
Fixpoint get (name : string) (params : URLSearchParams) : option string :=
  match params with
  | [] => None
  | (k, v) :: rest => if String.eqb k name then Some v else get name rest
  end.

(** The effect run on mount: the new value of [sharedLocation], if set. *)
Definition sharedLocationFromUrl (params : URLSearchParams) : option Follow.LatLng :=
  let lat := get "sharedLat" params in
  let lng := get "sharedLng" params in
  match lat, lng with
  | Some a, Some b =>
      if Js.truthy a && Js.truthy b
      then Some {| Follow.lat := Js.parseFloat a; Follow.lng := Js.parseFloat b |}
      else None
  | _, _ => None
  end.

(** The body of the effect that shows the shared location on the map, for
    positions the renderer accepts. *)
Definition showSharedLocation (sharedLocation userLocation : option Follow.LatLng)
    (mapCurrent : option Mapbox.Map) : option Mapbox.Map :=
  match mapCurrent, sharedLocation with
  | Some m, Some shared =>
      let '(_, m1) := Mapbox.addMarker Mapbox.SharedBlip (Follow.toLngLat shared)
                        (Some "Friend's Location") m in
      match userLocation with
      | Some me =>
          Some (Mapbox.fitBounds
                  (Mapbox.LngLatBounds (Some (Follow.toLngLat me)) (Some (Follow.toLngLat shared)))
                  80 m1)
      | None => Some (Mapbox.flyTo (Follow.toLngLat shared) 17 m1)
      end
  | _, _ => mapCurrent
  end.

(** The effect that shows the shared location, with what the renderer
    refuses: [setLngLat] throws when it is handed a shared position the
    renderer does not accept, before the marker is attached, and
    [new LngLatBounds] does for a user position; the exception leaves the
    effect. *)
Definition sharedLocationEffect (sharedLocation userLocation : option Follow.LatLng)
    (mapCurrent : option Mapbox.Map) : Mapbox.Attempt (option Mapbox.Map) :=
  match mapCurrent, sharedLocation with
  | Some _, Some shared =>
      if Mapbox.accepts (Follow.toLngLat shared)
         && match userLocation with
            | Some me => Mapbox.accepts (Follow.toLngLat me)
            | None => true
            end
      then Mapbox.Completed (showSharedLocation sharedLocation userLocation mapCurrent)
      else Mapbox.Refused
  | _, _ => Mapbox.Completed mapCurrent
  end.

Definition isSharedMarker (k : Mapbox.Marker) : bool :=
  match Mapbox.element k with Mapbox.SharedBlip => true | _ => false end.

Definition sharedMarkers (mapCurrent : option Mapbox.Map) : list Mapbox.Marker :=
  match mapCurrent with
  | Some m => List.filter isSharedMarker (Mapbox.markers m)
  | None => []
  end.


End DeepLink.

(** ** Sample data: entries of the seeded catalogue and a map on the campus *)

Module Samples.

Definition decimal (n : Z) (scale : positive) : Js.number := Js.Finite (n # scale).

Definition campus : Mapbox.Bbox :=
  {| Mapbox.west := decimal (-739900) 10000; Mapbox.south := decimal 407500 10000;
     Mapbox.east := decimal (-739800) 10000; Mapbox.north := decimal 407600 10000 |}.

Definition emptyMap : Mapbox.Map := Mapbox.newMap campus (Js.ofZ 16).

Definition library : Clusters.CampusLocation :=
  {| Clusters.id := "main-library"; Clusters.name := "Main Library";
     Clusters.category := "academic";
     Clusters.latitude := decimal 407589 10000; Clusters.longitude := decimal (-739851) 10000;
     Clusters.description := Some "Central library with study spaces and research resources" |}.

Definition union : Clusters.CampusLocation :=
  {| Clusters.id := "student-union"; Clusters.name := "Student Union Building";
     Clusters.category := "student-services";
     Clusters.latitude := decimal 407585 10000; Clusters.longitude := decimal (-739847) 10000;
     Clusters.description := Some "Hub for student activities and services" |}.

(** An entry whose latitude is out of range. *)
Definition misplaced : Clusters.CampusLocation :=
  {| Clusters.id := "misplaced"; Clusters.name := "Misplaced";
     Clusters.category := "services";
     Clusters.latitude := Js.ofZ 91; Clusters.longitude := Js.ofZ 0;
     Clusters.description := None |}.

Definition inside (bbox : list Js.number) (p : Mapbox.LngLat) : bool :=
  match bbox with
  | [w; s; e; n] =>
      Js.leb w (Mapbox.lng p) && Js.leb (Mapbox.lng p) e
      && Js.leb s (Mapbox.lat p) && Js.leb (Mapbox.lat p) n
  | _ => false
  end.

(** An index that never merges: the loaded points inside the bounding box
    come back as they are, at every zoom. *)
Definition leavesOnly (index : Clusters.Supercluster) (bbox : list Js.number) (zoom : Js.number)
  : list Clusters.Feature :=
  List.filter (fun f => inside bbox (Clusters.coordinatesOf f)) (Clusters.points index).

(** The component once the map exists and [catalogue] has been fetched. *)
Definition loaded (catalogue : list Clusters.CampusLocation) : Clusters.State :=
  Clusters.clusteringEffect
    {| Clusters.mapCurrent := Some emptyMap; Clusters.markersRef := [];
       Clusters.locations := catalogue; Clusters.supercluster := None;
       Clusters.mapBounds := []; Clusters.clusters := []; Clusters.isMobile := false |}.

(** The same component after the commits that follow the building of the
    index: the campus is shown, clustered. *)
Definition rendered (catalogue : list Clusters.CampusLocation) : Clusters.State :=
  fst (Clusters.superclusterCommits leavesOnly (loaded catalogue)).

Definition mapOf (s : Clusters.State) : Mapbox.Map :=
  match Clusters.mapCurrent s with Some m => m | None => emptyMap end.

Definition indexOf (s : Clusters.State) : Clusters.Supercluster :=
  match Clusters.supercluster s with
  | Some index => index
  | None => {| Clusters.radius := 40; Clusters.maxZoom := 18; Clusters.points := [] |}
  end.

Definition downtown : Mapbox.Bbox :=
  {| Mapbox.west := decimal (-740100) 10000; Mapbox.south := decimal 407000 10000;
     Mapbox.east := decimal (-739900) 10000; Mapbox.north := decimal 407200 10000 |}.

(** A route of [seconds] seconds, and a Directions body holding it. *)
Definition route (seconds : Z) : Routing.Route :=
  {| Routing.route_duration := Js.ofZ seconds;
     Routing.route_geometry :=
       {| Mapbox.coordinates :=
            [ {| Mapbox.lng := decimal (-739845) 10000; Mapbox.lat := decimal 407580 10000 |};
              {| Mapbox.lng := decimal (-739851) 10000; Mapbox.lat := decimal 407589 10000 |} ] |} |}.

Definition oneRoute (seconds : Z) : Routing.Directions :=
  {| Routing.routes := Some [route seconds] |}.

(** The map after a first route has been drawn on it. *)
Definition routed : Mapbox.Map :=
  Routing.drawRouteSettled (Routing.Responds (oneRoute 95)) emptyMap.

Definition sharedLink : DeepLink.URLSearchParams :=
  [("sharedLat", "40.7589"); ("sharedLng", "-73.9851")].

Definition brokenLink : DeepLink.URLSearchParams :=
  [("sharedLat", "abc"); ("sharedLng", "def")].

(** A network on which the cycling request throws and the others succeed. *)
Definition cyclingDown (r : Routing.Request) : Routing.Outcome :=
  if String.eqb (Routing.req_profile r) "cycling" then Routing.Throws
  else if String.eqb (Routing.req_profile r) "walking" then Routing.Responds (oneRoute 290)
  else Routing.Responds (oneRoute 95).

(** A network on which the walking request has not settled, while the
    others would succeed at once. *)
Definition walkingPending (r : Routing.Request) : option Routing.Outcome :=
  if String.eqb (Routing.req_profile r) "walking" then None
  else Some (Routing.Responds (oneRoute 95)).

Definition here : Follow.LatLng :=
  {| Follow.lat := decimal 407580 10000; Follow.lng := decimal (-739845) 10000 |}.

Definition there : Follow.LatLng :=
  {| Follow.lat := decimal 407595 10000; Follow.lng := decimal (-739853) 10000 |}.

End Samples.

(** ** The user's marker over a run of events *)

Module Tracking.


(** The marker built for the user ("Me") at [p], with identity [h]. *)
Definition userMarker (h : nat) (p : Follow.LatLng) : Mapbox.Marker :=
  {| Mapbox.handle := h; Mapbox.lngLat := Follow.toLngLat p;
     Mapbox.element := Mapbox.UserBlip; Mapbox.popup := None |}.


Definition isLocateMe (e : Follow.Event) : bool :=
  match e with Follow.LocateMe => true | _ => false end.

Definition mapExists (s : Follow.State) : bool :=
  match Follow.mapCurrent s with Some _ => true | None => false end.

End Tracking.

(** ** Which markers the cluster update effect owns *)

Module Tracked.

(** A marker built for a catalogue entry or for a cluster. *)
Definition keyed (k : Mapbox.Marker) : bool :=
  match Clusters.keyOfElement (Mapbox.element k) with Some _ => true | None => false end.

Definition unkeyed (k : Mapbox.Marker) : bool := negb (keyed k).

(** The map and [markersRef] agree: identities on the map are distinct and
    were given out by the map, and the markers [markersRef] holds are the
    keyed markers on the map, in the order they were added. *)
Record consistent (s : Clusters.State) (m : Mapbox.Map) : Prop := {
  identities_given :
    List.Forall (fun h => (h < Mapbox.nextHandle m)%nat) (List.map Mapbox.handle (Mapbox.markers m));
  identities_distinct : List.NoDup (List.map Mapbox.handle (Mapbox.markers m));
  tracked_are_keyed :
    List.map Mapbox.handle (List.filter keyed (Mapbox.markers m)) = Clusters.markersRef s
}.

(** The map and [markersRef] agree, and the markers [markersRef] holds are
    those of the clusters last computed. *)
Definition shown (s : Clusters.State) (m : Mapbox.Map) : Prop :=
  consistent s m
  /\ exists n,
       List.filter keyed (Mapbox.markers m)
       = Clusters.created (Clusters.isMobile s) n (Clusters.clusters s).

(** The click handler of the marker of a single location: the entry it
    selects ([locations.find(l => l.id === locationId)]) and the map after
    its [flyTo]. *)
Definition onLocationMarkerClick (f : Clusters.Feature) (s : Clusters.State)
  : option Clusters.CampusLocation * option Mapbox.Map :=
  match f with
  | Clusters.LocationPoint c locationId _ _ =>
      (List.find (fun l => String.eqb (Clusters.id l) locationId) (Clusters.locations s),
       match Clusters.mapCurrent s with
       | Some m => Some (Mapbox.flyTo c 18 m)
       | None => None
       end)
  | Clusters.ClusterPoint _ _ _ => (None, Clusters.mapCurrent s)
  end.

End Tracked.

(** ** Replies to the routing requests *)

Module Replies.

(** A request that gave no route: it threw, or its body has no first route. *)
Definition gaveNoRoute (o : Routing.Outcome) : bool :=
  match o with
  | Routing.Throws => true
  | Routing.Responds data =>
      match Routing.firstRoute data with Some _ => false | None => true end
  end.

(** The replies to successive [drawRoute] requests, applied in the order
    they arrive. *)
Definition settleAll (os : list Routing.Outcome) (m : Mapbox.Map) : Mapbox.Map :=
  fold_left (fun m o => Routing.drawRouteSettled o m) os m.

(** The route of the last reply that has one. *)
Definition lastRoute (os : list Routing.Outcome) : option Routing.Route :=
  fold_left (fun acc o =>
               match o with
               | Routing.Responds data =>
                   match Routing.firstRoute data with Some r => Some r | None => acc end
               | Routing.Throws => acc
               end) os None.

End Replies.

(** ** The shared location while the user moves *)

Module SharedView.

(** The effect that shows the shared location depends on
    [[sharedLocation, userLocation]]: it runs again at every position
    sample, with the new position. *)
Definition showOnEachPosition (shared : option Follow.LatLng) (positions : list Follow.LatLng)
    (mapCurrent : option Mapbox.Map) : option Mapbox.Map :=
  fold_left (fun mo me => DeepLink.showSharedLocation shared (Some me) mo) positions mapCurrent.



End SharedView.

(** ** Searching the catalogue *)

Module Search.

(** What [String.prototype.toLowerCase] does to a string of ASCII
    characters: the letters A to Z are lowered, each on its own. *)
Definition lowerChar (c : ascii) : ascii :=
  let n := nat_of_ascii c in
  if ((65 <=? n) && (n <=? 90))%nat then ascii_of_nat (n + 32) else c.

Fixpoint asciiLowerCase (s : string) : string :=
  match s with
  | EmptyString => EmptyString
  | String c r => String (lowerChar c) (asciiLowerCase r)
  end.

(** [s.includes(sub)]: [sub] occurs in [s]. *)
Fixpoint includes (s sub : string) : bool :=
  String.prefix sub s
  || match s with
     | String _ r => includes r sub
     | EmptyString => false
     end.

Section WithCaseMapping.

(** [String.prototype.toLowerCase], a function of the language.  Outside
    ASCII it follows the Unicode case mappings, some of which depend on the
    characters around; these are not modelled. *)
Variable toLowerCase : string -> string.

(** The predicate of the filter effect. *)
Definition matches (searchQuery : string) (activeCategory : option string)
    (location : Clusters.CampusLocation) : bool :=
  includes (toLowerCase (Clusters.name location)) (toLowerCase searchQuery)
  && (negb (Js.truthyOpt activeCategory)
      || match activeCategory with
         | Some c => String.eqb (Clusters.category location) c
         | None => false
         end).

(** The value the filter effect gives [filteredLocations]. *)
Definition filteredLocations (searchQuery : string) (activeCategory : option string)
    (locations : list Clusters.CampusLocation) : list Clusters.CampusLocation :=
  List.filter (matches searchQuery activeCategory) locations.

End WithCaseMapping.

(** What is assumed of [toLowerCase]: its result on ASCII strings. *)
Definition lowersAscii (toLowerCase : string -> string) : Prop :=
  forall s, Js.isAscii s = true -> toLowerCase s = asciiLowerCase s.

(** Every name of the catalogue is an ASCII string. *)
Definition asciiNames (locations : list Clusters.CampusLocation) : bool :=
  forallb (fun l => Js.isAscii (Clusters.name l)) locations.

End Search.

(** ** Start-up: fetching the token and the catalogue, creating the map *)

Module Startup.

(** What [supabase.functions.invoke('get-mapbox-token')] resolves to:
    [{ error }] or [{ data: { token } }]. *)
Inductive TokenResponse := TokenError | TokenData (token : string).

(** What the catalogue query resolves to: [{ error }] or [{ data }], where
    [data] may be null. *)
Inductive Catalogue := QueryError | QueryData (data : option (list Clusters.CampusLocation)).

(** An awaited call throws or returns. *)
Inductive Settled (A : Type) : Type := Threw | Returned (a : A).
Arguments Threw {A}.
Arguments Returned {A} a.

Record State := {
  loading : bool;
  showTokenInput : bool;
  mapboxToken : string;
  mapContainer : bool;                   (* mapContainer.current is not null *)
  userLocation : option Follow.LatLng;   (* the position known while the map is set up *)
  view : Clusters.State                  (* map.current, markersRef, locations, isMobile *)
}.

Definition setLoading (b : bool) (s : State) : State :=
  {| loading := b; showTokenInput := showTokenInput s; mapboxToken := mapboxToken s;
     mapContainer := mapContainer s; userLocation := userLocation s; view := view s |}.

Definition setShowTokenInput (b : bool) (s : State) : State :=
  {| loading := loading s; showTokenInput := b; mapboxToken := mapboxToken s;
     mapContainer := mapContainer s; userLocation := userLocation s; view := view s |}.

Definition setMapboxToken (t : string) (s : State) : State :=
  {| loading := loading s; showTokenInput := showTokenInput s; mapboxToken := t;
     mapContainer := mapContainer s; userLocation := userLocation s; view := view s |}.

Definition setMapContainer (b : bool) (s : State) : State :=
  {| loading := loading s; showTokenInput := showTokenInput s; mapboxToken := mapboxToken s;
     mapContainer := b; userLocation := userLocation s; view := view s |}.

Definition setView (v : Clusters.State) (s : State) : State :=
  {| loading := loading s; showTokenInput := showTokenInput s; mapboxToken := mapboxToken s;
     mapContainer := mapContainer s; userLocation := userLocation s; view := v |}.

Definition setLocations (ls : list Clusters.CampusLocation) (s : State) : State :=
  setView {| Clusters.mapCurrent := Clusters.mapCurrent (view s);
             Clusters.markersRef := Clusters.markersRef (view s);
             Clusters.locations := ls;
             Clusters.supercluster := Clusters.supercluster (view s);
             Clusters.mapBounds := Clusters.mapBounds (view s);
             Clusters.clusters := Clusters.clusters (view s);
             Clusters.isMobile := Clusters.isMobile (view s) |} s.

Definition setMapAndMarkers (m : Mapbox.Map) (hs : list nat) (s : State) : State :=
  setView {| Clusters.mapCurrent := Some m;
             Clusters.markersRef := hs;
             Clusters.locations := Clusters.locations (view s);
             Clusters.supercluster := Clusters.supercluster (view s);
             Clusters.mapBounds := Clusters.mapBounds (view s);
             Clusters.clusters := Clusters.clusters (view s);
             Clusters.isMobile := Clusters.isMobile (view s) |} s.

(** The component when it mounts: no token, no catalogue, no map, the map
    container rendered. *)
Definition initial (mobile : bool) (position : option Follow.LatLng) : State :=
  {| loading := true; showTokenInput := false; mapboxToken := ""; mapContainer := true;
     userLocation := position;
     view := {| Clusters.mapCurrent := None; Clusters.markersRef := [];
                Clusters.locations := []; Clusters.supercluster := None;
                Clusters.mapBounds := []; Clusters.clusters := [];
                Clusters.isMobile := mobile |} |}.

(** [fetchData], given how its two awaited calls settle; the catalogue
    query is not reached when the token call throws. *)
Definition fetchData (invoked : Settled TokenResponse) (selected : Settled Catalogue)
    (s : State) : State :=
  let s0 := setLoading true s in
  let s2 :=
    match invoked with
    | Threw => setShowTokenInput true s0
    | Returned tokenResponse =>
        let s1 :=
          match tokenResponse with
          | TokenError => setShowTokenInput true s0
          | TokenData token => setMapboxToken token s0
          end in
        match selected with
        | Threw => setShowTokenInput true s1
        | Returned QueryError => setShowTokenInput true s1
        | Returned (QueryData (Some data)) => setLocations data s1
        | Returned (QueryData None) => setLocations [] s1
        end
    end in
  setLoading false s2.

(** [fetchData] reached [setLocations]: the catalogue state is a new array. *)
Definition replacesLocations (invoked : Settled TokenResponse) (selected : Settled Catalogue)
  : bool :=
  match invoked, selected with
  | Returned _, Returned (QueryData _) => true
  | _, _ => false
  end.

(** [String.prototype.trim] on strings of ASCII characters: of the white
    space the language strips, the ASCII characters are recognised. *)
Fixpoint trimEnd (s : string) : string :=
  match s with
  | EmptyString => EmptyString
  | String c r =>
      match trimEnd r with
      | EmptyString => if Js.isWhiteSpace c then EmptyString else String c EmptyString
      | r' => String c r'
      end
  end.

Definition trim (s : string) : string := trimEnd (Js.trimStart s).

Definition defaultCenter : Mapbox.LngLat :=
  {| Mapbox.lng := Js.Finite (Qopp (739857 # 10000)); Mapbox.lat := Js.Finite (407484 # 10000) |}.

Definition mapCenter (position : option Follow.LatLng) : Mapbox.LngLat :=
  match position with
  | Some me => Follow.toLngLat me
  | None => defaultCenter
  end.

Definition mapZoom (position : option Follow.LatLng) : Z :=
  match position with Some _ => 14 | None => 16 end.

(** The marker built for a catalogue entry by [initializeMap] and by the
    effect that follows the catalogue. *)
Definition addLocationMarker (mobile : bool) (acc : Mapbox.Map * list nat)
    (location : Clusters.CampusLocation) : Mapbox.Map * list nat :=
  let '(h, m') :=
    Mapbox.addMarker
      (Mapbox.LocationBlip (Clusters.id location) (Clusters.name location)
                           (Clusters.category location) mobile)
      {| Mapbox.lng := Clusters.longitude location; Mapbox.lat := Clusters.latitude location |}
      None (fst acc) in
  (m', snd acc ++ [h]).

(** The markers of the catalogue entries [ls], the first with identity [n]. *)
Definition locationMarkers (mobile : bool) (n : nat) (ls : list Clusters.CampusLocation)
  : list Mapbox.Marker :=
  List.map (fun hl =>
              {| Mapbox.handle := fst hl;
                 Mapbox.lngLat := {| Mapbox.lng := Clusters.longitude (snd hl);
                                     Mapbox.lat := Clusters.latitude (snd hl) |};
                 Mapbox.element := Mapbox.LocationBlip (Clusters.id (snd hl)) (Clusters.name (snd hl))
                                     (Clusters.category (snd hl)) mobile;
                 Mapbox.popup := None |})
           (combine (seq n (length ls)) ls).

Section WithRenderer.

(** The region a new map shows for a centre and a zoom; it depends on the
    size of the container, known to the renderer only. *)
Variable visibleRegion : Mapbox.LngLat -> Z -> Mapbox.Bbox.

(** [initializeMap(token)].  The navigation control and the listeners it
    adds are not part of the map model; the listeners are the events of
    [Follow]. *)
Definition initializeMap (token : string) (s : State) : State :=
  if negb (mapContainer s) || negb (Js.truthy token) then s
  else
    let center := mapCenter (userLocation s) in
    let zoom := mapZoom (userLocation s) in
    let m := Mapbox.newMap (visibleRegion center zoom) (Js.ofZ zoom) in
    let '(m', hs) :=
      fold_left (addLocationMarker (Clusters.isMobile (view s)))
                (Clusters.locations (view s)) (m, Clusters.markersRef (view s)) in
    setMapAndMarkers m' hs s.

(** The effect on [[loading, locations, showTokenInput, mapboxToken]]. *)
Definition initializeEffect (s : State) : State :=
  if negb (loading s) && negb (showTokenInput s) && Js.truthy (mapboxToken s)
     && (0 <? length (Clusters.locations (view s)))%nat
  then
    match Clusters.mapCurrent (view s) with
    | None => initializeMap (mapboxToken s) s
    | Some m =>
        let m1 := Clusters.removeAll (Clusters.markersRef (view s)) m in
        let '(m2, hs) :=
          fold_left (addLocationMarker (Clusters.isMobile (view s)))
                    (Clusters.locations (view s)) (m1, []) in
        setMapAndMarkers m2 hs s
    end
  else s.

(** [handleTokenSubmit]. *)
Definition handleTokenSubmit (s : State) : State :=
  if Js.truthy (trim (mapboxToken s))
  then setShowTokenInput false (initializeMap (mapboxToken s) s)
  else s.

Inductive Event :=
| Fetched (invoked : Settled TokenResponse) (selected : Settled Catalogue)
| TokenTyped (text : string)     (* onChange of the token field *)
| TokenSubmitted.                (* click on Initialize Campus Map *)

(** The token field and its button are rendered on the prompt only, and
    the button is disabled while the token is blank. *)
Definition enabled (s : State) (e : Event) : bool :=
  match e with
  | Fetched _ _ => true
  | TokenTyped _ => showTokenInput s
  | TokenSubmitted => showTokenInput s && Js.truthy (trim (mapboxToken s))
  end.

(** The render that follows a handler: the map container is rendered
    exactly when the prompt is not, and the effect runs when one of its
    dependencies changed. *)
Definition commit (before after : State) (newLocations : bool) : State :=
  let rendered := setMapContainer (negb (showTokenInput after)) after in
  if Bool.eqb (loading before) (loading after)
     && Bool.eqb (showTokenInput before) (showTokenInput after)
     && String.eqb (mapboxToken before) (mapboxToken after)
     && negb newLocations
  then rendered
  else initializeEffect rendered.

Definition step (s : State) (e : Event) : State :=
  if enabled s e then
    match e with
    | Fetched invoked selected =>
        commit s (fetchData invoked selected s) (replacesLocations invoked selected)
    | TokenTyped text => commit s (setMapboxToken text s) false
    | TokenSubmitted => commit s (handleTokenSubmit s) false
    end
  else s.

Definition run (es : list Event) (s : State) : State := fold_left step es s.

End WithRenderer.

Section Reached.

Variable visibleRegion : Mapbox.LngLat -> Z -> Mapbox.Bbox.

(** What holds of every state that start-up can reach. *)
Definition settled (s : State) : Prop :=
  loading s = false
  /\ mapContainer s = negb (showTokenInput s)
  /\ match Clusters.mapCurrent (view s) with
     | None => Clusters.markersRef (view s) = []
     | Some m =>
         showTokenInput s = false
         /\ Js.truthy (mapboxToken s) = true
         /\ Clusters.locations (view s) <> []
         /\ Mapbox.markers m
            = locationMarkers (Clusters.isMobile (view s)) 0 (Clusters.locations (view s))
         /\ Clusters.markersRef (view s) = seq 0 (length (Clusters.locations (view s)))
         /\ Mapbox.calls m
            = List.map Mapbox.MarkerAddTo (seq 0 (length (Clusters.locations (view s))))
         /\ Mapbox.viewZoom m = Js.ofZ (mapZoom (userLocation s))
         /\ Mapbox.viewBounds m
            = visibleRegion (mapCenter (userLocation s)) (mapZoom (userLocation s))
         /\ Mapbox.nextHandle m = length (Clusters.locations (view s))
     end.

End Reached.

Definition isFetched (e : Event) : bool :=
  match e with Fetched _ _ => true | _ => false end.

(** The catalogue [fetchData] stores, if it gets that far, and the token. *)
Definition fetchedCatalogue (invoked : Settled TokenResponse) (selected : Settled Catalogue)
  : list Clusters.CampusLocation :=
  match invoked, selected with
  | Returned _, Returned (QueryData (Some data)) => data
  | _, _ => []
  end.

Definition fetchedToken (invoked : Settled TokenResponse) : string :=
  match invoked with
  | Returned (TokenData token) => token
  | _ => ""
  end.

(** Both fetches succeeded. *)
Definition fetchedWell (invoked : Settled TokenResponse) (selected : Settled Catalogue) : bool :=
  match invoked, selected with
  | Returned (TokenData _), Returned (QueryData _) => true
  | _, _ => false
  end.

End Startup.

(** ** More sample data *)

Module Cases.

(** A renderer that shows the campus wherever the map is centred. *)
Definition campusRegion (center : Mapbox.LngLat) (zoom : Z) : Mapbox.Bbox := Samples.campus.

Definition catalogue : list Clusters.CampusLocation := [Samples.library; Samples.union].

(** An entry whose longitude is out of range. *)
Definition offTheMap : Clusters.CampusLocation :=
  {| Clusters.id := "off-the-map"; Clusters.name := "Off the map";
     Clusters.category := "services";
     Clusters.latitude := Samples.decimal 407589 10000; Clusters.longitude := Js.ofZ 200;
     Clusters.description := None |}.

End Cases.

(** ** The tutorial *)

Module Tutorial.

Record Step := { title : string; description : string }.

Definition tutorialSteps : list Step :=
  [ {| title := "Search locations";
       description := "Use the search box to find campus locations by name. Tap a result to center the map on it and open details." |};
    {| title := "Map styles";
       description := "Switch between Street, Satellite and Dark map styles using the buttons in the top-right control card." |};
    {| title := "Legend";
       description := "Toggle the legend to see category colors and icons. On mobile it appears near the top to avoid action buttons." |};
    {| title := "Locate & follow";
       description := "Tap the Locate button (FAB) to re-center the map on your position and enable following. Pan or zoom to disable following." |};
    {| title := "Share & feedback";
       description := "Use the FAB to share your location or send feedback via the feedback form." |};
    {| title := "Directions & routing";
       description := "Open a location and tap Get Directions to draw a route from your location, or open directions in an external maps app." |};
    {| title := "Clusters & markers";
       description := "Markers are clustered at certain zoom levels; tap a cluster to zoom in and expand it." |} ].

Record State := { showTutorial : bool; tutorialStep : Z }.

Definition initial : State := {| showTutorial := false; tutorialStep := 0 |}.

Inductive Event := Help | Close | Previous | Next.

(** The click handlers of the Help button and of the buttons of the modal.
    The modal, and so its three buttons, is rendered only while
    [showTutorial] holds. *)
Definition step (s : State) (e : Event) : State :=
  match e with
  | Help => {| showTutorial := true; tutorialStep := 0 |}
  | Close =>
      if showTutorial s then {| showTutorial := false; tutorialStep := tutorialStep s |} else s
  | Previous =>
      if showTutorial s
      then {| showTutorial := showTutorial s; tutorialStep := Z.max 0 (tutorialStep s - 1) |}
      else s
  | Next =>
      if showTutorial s then
        if tutorialStep s <? Z.of_nat (length tutorialSteps) - 1
        then {| showTutorial := showTutorial s; tutorialStep := tutorialStep s + 1 |}
        else {| showTutorial := false; tutorialStep := tutorialStep s |}
      else s
  end.

Definition run (es : list Event) (s : State) : State := fold_left step es s.

(** [tutorialSteps[tutorialStep]], as the modal reads it. *)
Definition current (s : State) : option Step :=
  if tutorialStep s <? 0 then None else nth_error tutorialSteps (Z.to_nat (tutorialStep s)).

End Tutorial.

(** ** Start-up together with the clustering effects *)

Module Session.

Section WithLibraries.

Variable visibleRegion : Mapbox.LngLat -> Z -> Mapbox.Bbox.
Variable getClusters :
  Clusters.Supercluster -> list Js.number -> Js.number -> list Clusters.Feature.

Record State := {
  app : Startup.State;
  moveendListener : bool      (* the effect on [[supercluster]] has registered its listener *)
}.

Definition initial (mobile : bool) (position : option Follow.LatLng) : State :=
  {| app := Startup.initial mobile position; moveendListener := false |}.

Definition withSupercluster (index : option Clusters.Supercluster) (v : Clusters.State)
  : Clusters.State :=
  {| Clusters.mapCurrent := Clusters.mapCurrent v; Clusters.markersRef := Clusters.markersRef v;
     Clusters.locations := Clusters.locations v; Clusters.supercluster := index;
     Clusters.mapBounds := Clusters.mapBounds v; Clusters.clusters := Clusters.clusters v;
     Clusters.isMobile := Clusters.isMobile v |}.

(** The commits that follow a new catalogue, for the effects on
    [[locations]], [[supercluster]] and [[supercluster, mapBounds, locations]],
    which are declared after the effect that creates the map.  [v] is the
    state once that effect has run.  An effect reads the state of its render:
    what an earlier effect of the same commit has set is seen from the next
    render on; the refs ([map.current], [markersRef.current]) are read as
    they are.  The state updates of one tick make one render. *)
Definition indexCommits (v : Clusters.State) : Clusters.State * bool :=
  (* this commit: the clustering effect sets the index; the cluster update
     effect runs on the state of this render *)
  let u1 := Clusters.updateClustersEffect getClusters v in
  match Clusters.locations v with
  | [] => (u1, false)
  | _ :: _ =>
      let c2 := withSupercluster (Clusters.supercluster (Clusters.clusteringEffect v)) u1 in
      (* next commit, [supercluster] changed: the bounds effect, then the
         cluster update effect on the state of this render *)
      let u2 := Clusters.updateClustersEffect getClusters c2 in
      match Clusters.mapCurrent c2, Clusters.supercluster c2 with
      | Some m, Some _ =>
          let c3 := Clusters.setMapBounds (Clusters.bboxArray (Mapbox.getBounds m)) u2 in
          (* next commit, [mapBounds] changed: the cluster update effect *)
          (Clusters.updateClustersEffect getClusters c3, true)
      | _, _ => (u2, false)
      end
  end.

Inductive Event :=
| Ui (e : Startup.Event)                           (* the fetches settle, or the token prompt is used *)
| CameraMoved (v : Mapbox.Bbox * Js.number).       (* the camera comes to rest *)

Definition step (s : State) (e : Event) : State :=
  match e with
  | Ui (Startup.Fetched invoked selected) =>
      let a := Startup.step visibleRegion (app s) (Startup.Fetched invoked selected) in
      if Startup.replacesLocations invoked selected then
        let '(v, listening) := indexCommits (Startup.view a) in
        {| app := Startup.setView v a; moveendListener := moveendListener s || listening |}
      else {| app := a; moveendListener := moveendListener s |}
  | Ui e' =>
      {| app := Startup.step visibleRegion (app s) e'; moveendListener := moveendListener s |}
  | CameraMoved v =>
      match Clusters.mapCurrent (Startup.view (app s)) with
      | Some _ =>
          let moved := Clusters.moveend getClusters (moveendListener s) (Startup.view (app s)) v in
          {| app := Startup.setView moved (app s); moveendListener := moveendListener s |}
      | None => s
      end
  end.

Definition run (es : list Event) (s : State) : State := fold_left step es s.

(** The map, if any, shows the catalogue [catalogue] as one marker per
    entry, and nothing of the clustering has taken place: no listener, no
    bounds, no clusters. *)
Definition unclustered (catalogue : list Clusters.CampusLocation) (mobile : bool) (s : State)
  : Prop :=
  moveendListener s = false
  /\ Clusters.mapBounds (Startup.view (app s)) = []
  /\ Clusters.clusters (Startup.view (app s)) = []
  /\ Clusters.locations (Startup.view (app s)) = catalogue
  /\ Clusters.isMobile (Startup.view (app s)) = mobile
  /\ match Clusters.mapCurrent (Startup.view (app s)) with
     | None => Startup.settled visibleRegion (app s)
     | Some m =>
         Startup.showTokenInput (app s) = false
         /\ Mapbox.markers m = Startup.locationMarkers mobile 0 catalogue
         /\ Mapbox.calls m = List.map Mapbox.MarkerAddTo (seq 0 (length catalogue))
     end.

(** What holds from the fetch on: the catalogue is [catalogue], and the
    map exists only with the prompt hidden, a token and a catalogue that are
    not empty. *)
Definition started (catalogue : list Clusters.CampusLocation) (s : State) : Prop :=
  Clusters.locations (Startup.view (app s)) = catalogue
  /\ match Clusters.mapCurrent (Startup.view (app s)) with
     | None => Startup.settled visibleRegion (app s)
     | Some _ =>
         Startup.showTokenInput (app s) = false
         /\ Js.truthy (Startup.mapboxToken (app s)) = true
         /\ catalogue <> []
     end.

End WithLibraries.

Definition isFetched (e : Event) : bool :=
  match e with Ui e' => Startup.isFetched e' | CameraMoved _ => false end.

(** What is typed into the token field is an ASCII string. *)
Definition typesAscii (e : Event) : bool :=
  match e with Ui (Startup.TokenTyped text) => Js.isAscii text | _ => true end.

End Session.

(** ** Positions the renderer refuses *)

Module Refusals.

(** The position [initializeMap] gives the marker of a catalogue entry. *)
Definition markerPosition (location : Clusters.CampusLocation) : Mapbox.LngLat :=
  {| Mapbox.lng := Clusters.longitude location; Mapbox.lat := Clusters.latitude location |}.

Section WithLibraries.

Variable visibleRegion : Mapbox.LngLat -> Z -> Mapbox.Bbox.
Variable getClusters :
  Clusters.Supercluster -> list Js.number -> Js.number -> list Clusters.Feature.

(** The commits that follow the fetch, with what the renderer refuses.
    When the first of them creates the map, [initializeMap] hands the
    renderer the centre of the map and then, in catalogue order, the position
    of every entry; at the first position the renderer refuses the call
    throws.  The exception leaves the effect that creates the map: the
    effects declared after it, the clustering effect among them, are not
    run, and the component is unmounted. *)
Definition fetchCommits (mobile : bool) (position : option Follow.LatLng)
    (invoked : Startup.Settled Startup.TokenResponse)
    (selected : Startup.Settled Startup.Catalogue) : Mapbox.Attempt Session.State :=
  let a := Startup.step visibleRegion (Startup.initial mobile position)
             (Startup.Fetched invoked selected) in
  let committed :=
    Session.step visibleRegion getClusters (Session.initial mobile position)
      (Session.Ui (Startup.Fetched invoked selected)) in
  match Clusters.mapCurrent (Startup.view a) with
  | Some _ =>
      if Mapbox.accepts (Startup.mapCenter position)
         && forallb (fun l => Mapbox.accepts (markerPosition l))
                    (Clusters.locations (Startup.view a))
      then Mapbox.Completed committed
      else Mapbox.Refused
  | None => Mapbox.Completed committed
  end.

End WithLibraries.

End Refusals.

(** * Properties *)

(** ** The follow state machine *)

Section FollowFacts.

Import Follow.

Lemma followUser_commit (s s' : State) :
  followUser (commitFollow s s') = followUser s'.
Proof. unfold commitFollow. destruct (Bool.eqb _ _); reflexivity. Qed.

Lemma recenters_commit (s s' : State) : recenters (commitFollow s s') = recenters s'.
Proof. unfold commitFollow. destruct (Bool.eqb _ _); reflexivity. Qed.

(** A render keeps the ref equal to the state variable, when the handler
    and the effects before it left the ref alone. *)
Lemma followRef_commit (s s' : State) :
  followRef s = followUser s -> followRef s' = followRef s ->
  followRef (commitFollow s s') = followUser (commitFollow s s').
Proof.
  intros H H'. unfold commitFollow.
  destruct (Bool.eqb (followUser s) (followUser s')) eqn:E; [|reflexivity].
  apply Bool.eqb_prop in E. congruence.
Qed.

Lemma followRef_userLocationEffect (s : State) :
  followRef (userLocationEffect s) = followRef s.
Proof.
  unfold userLocationEffect.
  destruct (mapCurrent s) as [m|]; [|reflexivity].
  destruct (userLocation s) as [p|]; [|reflexivity].
  destruct (userMarkerRef s) as [h|]; simpl; destruct (followRef s) eqn:E;
    unfold flyTo; simpl; congruence.
Qed.

(** A position sample leaves Following exactly when it recenters: the
    flight it starts fires [zoomstart]. *)
Lemma followUser_position (s : State) (p : LatLng) :
  followUser (step s (Position p))
  = if followRef s && Tracking.mapExists s then false else followUser s.
Proof.
  unfold step. rewrite followUser_commit.
  unfold userLocationEffect, Tracking.mapExists. simpl.
  destruct (mapCurrent s) as [m|]; [|now rewrite Bool.andb_false_r].
  rewrite Bool.andb_true_r.
  destruct (userMarkerRef s) as [h|]; simpl; destruct (followRef s); reflexivity.
Qed.

Lemma followUser_interaction (s : State) (k : Interaction) :
  followUser (step s (MapInteraction k)) = false.
Proof. simpl. rewrite followUser_commit. destruct k; reflexivity. Qed.

(** Locate Me sets [followUser], and the flight it then starts resets it. *)
Lemma followUser_locateMe (s : State) :
  followUser (step s LocateMe)
  = match userLocation s, mapCurrent s with
    | Some _, Some _ => false
    | _, _ => followUser s
    end.
Proof.
  simpl. rewrite followUser_commit. unfold onLocateMe.
  destruct (userLocation s), (mapCurrent s); reflexivity.
Qed.

(** On every reachable state the ref read by the position effect agrees
    with the state variable. *)
Lemma followRef_step (s : State) (e : Event) :
  followRef s = followUser s -> followRef (step s e) = followUser (step s e).
Proof.
  intros H. destruct e as [p|k|]; simpl.
  - apply followRef_commit; [exact H|]. now rewrite followRef_userLocationEffect.
  - apply followRef_commit; [exact H|]. now destruct k.
  - apply followRef_commit; [exact H|]. unfold onLocateMe.
    destruct (userLocation s), (mapCurrent s); reflexivity.
Qed.

Lemma followRef_run (es : list Event) (s : State) :
  followRef s = followUser s -> followRef (run es s) = followUser (run es s).
Proof.
  revert s. induction es as [|e es IH]; intros s H; [exact H|].
  simpl. apply IH, followRef_step, H.
Qed.

Lemma flyTos_log (c : Mapbox.Call) (m : Mapbox.Map) :
  Mapbox.flyTos (Mapbox.log c m)
  = Mapbox.flyTos m ++ (if Mapbox.isFlyTo c then [c] else []).
Proof.
  unfold Mapbox.flyTos, Mapbox.log. simpl. rewrite List.filter_app. simpl.
  now destruct (Mapbox.isFlyTo c).
Qed.

(** What one position sample adds to the recenter instructions, in terms
    of the ref the effect reads. *)
Lemma recenters_position (s : State) (p : LatLng) :
  recenters (step s (Position p))
  = recenters s
    ++ (if followRef s && Tracking.mapExists s then [Mapbox.FlyTo (toLngLat p) 17] else []).
Proof.
  unfold step. rewrite recenters_commit.
  unfold userLocationEffect, recenters, Tracking.mapExists. simpl.
  destruct (mapCurrent s) as [m|] eqn:Em; simpl;
    [|rewrite Em, Bool.andb_false_r; reflexivity].
  rewrite Bool.andb_true_r.
  destruct (userMarkerRef s) as [h|]; simpl; destruct (followRef s); simpl;
    unfold Mapbox.flyTo, Mapbox.setLngLat; rewrite ?flyTos_log; simpl;
    unfold Mapbox.flyTos; simpl; rewrite ?List.filter_app; simpl;
    rewrite ?app_nil_r; reflexivity.
Qed.

Lemma recenters_interaction (s : State) (k : Interaction) :
  recenters (step s (MapInteraction k)) = recenters s.
Proof. simpl. rewrite recenters_commit. destruct k; reflexivity. Qed.

Lemma recenters_locateMe (s : State) :
  recenters (step s LocateMe)
  = recenters s
    ++ match userLocation s, mapCurrent s with
       | Some me, Some _ => [Mapbox.FlyTo (toLngLat me) 17]
       | _, _ => []
       end.
Proof.
  simpl. rewrite recenters_commit. unfold onLocateMe, recenters.
  destruct (userLocation s) as [me|] eqn:Eu, (mapCurrent s) as [m|] eqn:Em; simpl;
    rewrite ?Em; unfold Mapbox.flyTo; rewrite ?flyTos_log, ?app_nil_r; reflexivity.
Qed.

End FollowFacts.

(** C1 (as amended).  The follow state starts as Following.  After any
    sequence of events: every map interaction (drag, zoom, rotate or touch
    start) leaves the state Manual; a position update never moves the state
    from Manual to Following, and changes the state only if it recenters the
    map; and Locate Me changes nothing when no user position is known or the
    map does not exist. *)
Theorem follow_transitions (m : option Mapbox.Map) (es : list Follow.Event) :
  let s := Follow.run es (Follow.initial m) in
  Follow.followState (Follow.initial m) = Follow.Following
  /\ (forall k, Follow.followState (Follow.step s (Follow.MapInteraction k)) = Follow.Manual)
  /\ (forall p, Follow.followState s = Follow.Manual ->
                Follow.followState (Follow.step s (Follow.Position p)) = Follow.Manual)
  /\ (forall p, Follow.recenters (Follow.step s (Follow.Position p)) = Follow.recenters s ->
                Follow.followState (Follow.step s (Follow.Position p)) = Follow.followState s)
  /\ (match Follow.userLocation s, Follow.mapCurrent s with
      | Some _, Some _ => True
      | _, _ => Follow.step s Follow.LocateMe = s
      end).
Proof.
  intros s. unfold Follow.followState.
  split; [reflexivity|]. split; [|split; [|split]].
  - intros k. now rewrite followUser_interaction.
  - intros p. rewrite followUser_position.
    destruct (Follow.followUser s); [discriminate|].
    now destruct (Follow.followRef s && Tracking.mapExists s).
  - intros p. rewrite recenters_position, followUser_position.
    destruct (Follow.followRef s && Tracking.mapExists s); [|reflexivity].
    intros H. exfalso.
    apply (f_equal (@length Mapbox.Call)) in H. rewrite length_app in H. simpl in H. lia.
  - simpl. unfold Follow.onLocateMe, Follow.commitFollow.
    destruct (Follow.userLocation s), (Follow.mapCurrent s); try exact I;
      now rewrite Bool.eqb_reflx.
Qed.

(** C1, counterexample.  The user drags the map before any position fix
    arrives and then presses Locate Me: the state is still Manual. *)
Lemma locate_me_without_position_stays_manual :
  Follow.followState
    (Follow.run [Follow.MapInteraction Follow.dragstart; Follow.LocateMe]
                (Follow.initial (Some Samples.emptyMap)))
  <> Follow.Following.
Proof. vm_compute. discriminate. Qed.

(** Locate Me with a position known and the map in place: the handler
    issues its recenter instruction and the state is Manual afterwards,
    whatever it was.  The handler sets [followUser], and the [zoomstart]
    listener, run by the flight the handler starts, resets it. *)
Lemma locate_me_recenters_and_ends_manual (s : Follow.State) (me : Follow.LatLng)
    (m : Mapbox.Map) :
  Follow.userLocation s = Some me -> Follow.mapCurrent s = Some m ->
  Follow.recenters (Follow.step s Follow.LocateMe)
  = Follow.recenters s ++ [Mapbox.FlyTo (Follow.toLngLat me) 17]
  /\ Follow.followState (Follow.step s Follow.LocateMe) = Follow.Manual.
Proof.
  intros Hu Hm. unfold Follow.followState.
  rewrite recenters_locateMe, followUser_locateMe, Hu, Hm. auto.
Qed.

(** C2.  From the initial state with the map in place, the events
    position, position, interaction, position issue exactly one recenter
    instruction, caused by the first position (to that position at zoom 17),
    and leave the state Manual. *)
Theorem follow_sequence_recenters (m : Mapbox.Map) (p1 p2 p3 : Follow.LatLng)
    (k : Follow.Interaction) :
  let s := Follow.run [Follow.Position p1; Follow.Position p2;
                       Follow.MapInteraction k; Follow.Position p3]
                      (Follow.initial (Some m)) in
  Follow.recenters s = Mapbox.flyTos m ++ [Mapbox.FlyTo (Follow.toLngLat p1) 17]
  /\ Follow.followState s = Follow.Manual.
Proof.
  destruct k; cbn; unfold Mapbox.flyTos; cbn;
    rewrite ?List.filter_app; cbn; rewrite <- ?app_assoc, ?app_nil_r; cbn; split; reflexivity.
Qed.

Example follow_sequence_on_a_fresh_map :
  Follow.recenters
    (Follow.run [Follow.Position Samples.here; Follow.Position Samples.there;
                 Follow.MapInteraction Follow.dragstart; Follow.Position Samples.here]
                (Follow.initial (Some Samples.emptyMap)))
  = [Mapbox.FlyTo (Follow.toLngLat Samples.here) 17].
Proof. reflexivity. Qed.

(** ** Cluster markers *)

Section ClusterFacts.

Import Clusters.

Variable getClusters : Supercluster -> list Js.number -> Js.number -> list Feature.

Lemma removeAll_calls (hs : list nat) (m : Mapbox.Map) :
  Mapbox.calls (removeAll hs m) = Mapbox.calls m ++ List.map Mapbox.MarkerRemove hs.
Proof.
  revert m. induction hs as [|h hs IH]; intros m; simpl.
  - now rewrite app_nil_r.
  - rewrite IH. simpl. now rewrite <- app_assoc.
Qed.

Lemma removeAll_markers (hs : list nat) (m : Mapbox.Map) :
  Mapbox.markers (removeAll hs m)
  = List.filter (fun k => negb (existsb (Nat.eqb (Mapbox.handle k)) hs)) (Mapbox.markers m).
Proof.
  revert m. induction hs as [|h hs IH]; intros m; simpl.
  - induction (Mapbox.markers m) as [|k ks IHk]; simpl; congruence.
  - rewrite IH. simpl. clear IH.
    induction (Mapbox.markers m) as [|k ks IHk]; simpl; [reflexivity|].
    destruct (Nat.eqb (Mapbox.handle k) h); simpl; [exact IHk|].
    destruct (existsb _ hs); simpl; congruence.
Qed.

Lemma removeAll_frame (hs : list nat) (m : Mapbox.Map) :
  Mapbox.nextHandle (removeAll hs m) = Mapbox.nextHandle m
  /\ Mapbox.viewZoom (removeAll hs m) = Mapbox.viewZoom m
  /\ Mapbox.sources (removeAll hs m) = Mapbox.sources m
  /\ Mapbox.layers (removeAll hs m) = Mapbox.layers m.
Proof.
  revert m. induction hs as [|h hs IH]; intros m; simpl; [auto|].
  destruct (IH (Mapbox.removeMarker h m)) as (-> & -> & -> & ->). auto.
Qed.

Lemma addClusterMarkers_spec (mobile : bool) (cs : list Feature) (m : Mapbox.Map) (hs : list nat) :
  snd (fold_left (addClusterMarker mobile) cs (m, hs))
  = hs ++ seq (Mapbox.nextHandle m) (length cs)
  /\ Mapbox.calls (fst (fold_left (addClusterMarker mobile) cs (m, hs)))
     = Mapbox.calls m ++ List.map Mapbox.MarkerAddTo (seq (Mapbox.nextHandle m) (length cs))
  /\ Mapbox.markers (fst (fold_left (addClusterMarker mobile) cs (m, hs)))
     = Mapbox.markers m ++ created mobile (Mapbox.nextHandle m) cs.
Proof.
  revert m hs. induction cs as [|c cs IH]; intros m hs.
  - simpl. now rewrite !app_nil_r.
  - cbn [fold_left length seq].
    destruct (IH (snd (Mapbox.addMarker (elementOf mobile c) (coordinatesOf c) None m))
                 (hs ++ [Mapbox.nextHandle m])) as (E1 & E2 & E3).
    change (addClusterMarker mobile (m, hs) c)
      with (snd (Mapbox.addMarker (elementOf mobile c) (coordinatesOf c) None m),
            hs ++ [Mapbox.nextHandle m]).
    rewrite E1, E2, E3. unfold created. simpl.
    rewrite <- !app_assoc. simpl. auto.
Qed.

Lemma moveend_supercluster (s : State) (v : Mapbox.Bbox * Js.number) :
  supercluster (moveend getClusters true s v) = supercluster s.
Proof.
  unfold moveend. destruct (mapCurrent s) as [m|] eqn:E; simpl; [|now rewrite E].
  unfold updateClustersEffect; simpl.
  destruct (supercluster s) as [sc|] eqn:Es; simpl; [|exact Es].
  destruct (fold_left _ _ _); simpl; congruence.
Qed.

Lemma moveend_map (s : State) (v : Mapbox.Bbox * Js.number) :
  mapCurrent s <> None -> mapCurrent (moveend getClusters true s v) <> None.
Proof.
  unfold moveend. destruct (mapCurrent s) as [m|] eqn:E; simpl; [|congruence]. intros _.
  unfold updateClustersEffect; simpl.
  destruct (supercluster s) as [sc|] eqn:Es; simpl; [|congruence].
  destruct (fold_left _ _ _); simpl; congruence.
Qed.

Lemma moves_invariant (vs : list (Mapbox.Bbox * Js.number)) (s : State) :
  mapCurrent s <> None ->
  supercluster (moves getClusters true vs s) = supercluster s
  /\ mapCurrent (moves getClusters true vs s) <> None.
Proof.
  revert s. induction vs as [|v vs IH]; intros s H; [auto|].
  change (moves getClusters true (v :: vs) s)
    with (moves getClusters true vs (moveend getClusters true s v)).
  destruct (IH (moveend getClusters true s v) (moveend_map s v H)) as [E1 E2].
  rewrite E1, moveend_supercluster. auto.
Qed.

Lemma moveend_clusters (s : State) (sc : Supercluster) (b : Mapbox.Bbox) (z : Js.number) :
  mapCurrent s <> None -> supercluster s = Some sc ->
  clusters (moveend getClusters true s (b, z)) = getClusters sc (bboxArray b) (Js.Math_round z).
Proof.
  intros Hm Hs. unfold moveend. destruct (mapCurrent s) as [m|]; [|congruence]. simpl.
  unfold updateClustersEffect; simpl. rewrite Hs.
  destruct (removeAll_frame (markersRef s) (Mapbox.withCamera b z m)) as (_ & Ez & _).
  unfold Mapbox.getZoom. rewrite Ez. simpl.
  destruct (fold_left _ _ _); reflexivity.
Qed.

End ClusterFacts.

(** C3 (as amended).  Whenever the cluster update effect runs (map, index
    and bounds present), it removes every previously rendered marker, whether
    or not its key is in the newly computed set, and then creates a new
    marker, with a new identity, for every entry of the new set, whether or
    not its key was rendered before; no marker is moved in place. *)
Theorem update_recreates_every_marker
    (getClusters : Clusters.Supercluster -> list Js.number -> Js.number -> list Clusters.Feature)
    (s : Clusters.State) (m : Mapbox.Map) (index : Clusters.Supercluster) :
  Clusters.mapCurrent s = Some m ->
  Clusters.supercluster s = Some index ->
  Clusters.mapBounds s <> [] ->
  let next := getClusters index (Clusters.mapBounds s) (Js.Math_round (Mapbox.getZoom m)) in
  let fresh := seq (Mapbox.nextHandle m) (length next) in
  exists m',
    Clusters.mapCurrent (Clusters.updateClustersEffect getClusters s) = Some m'
    /\ Mapbox.calls m'
       = Mapbox.calls m ++ List.map Mapbox.MarkerRemove (Clusters.markersRef s)
                        ++ List.map Mapbox.MarkerAddTo fresh
    /\ Clusters.markersRef (Clusters.updateClustersEffect getClusters s) = fresh
    /\ Mapbox.markers m'
       = List.filter (fun k => negb (existsb (Nat.eqb (Mapbox.handle k)) (Clusters.markersRef s)))
                     (Mapbox.markers m)
         ++ Clusters.created (Clusters.isMobile s) (Mapbox.nextHandle m) next
    /\ (Forall (fun h => (h < Mapbox.nextHandle m)%nat) (Clusters.markersRef s) ->
        forall h, In h (Clusters.markersRef s) -> ~ In h fresh).
Proof.
  intros Hm Hi Hb next fresh.
  unfold Clusters.updateClustersEffect. rewrite Hm, Hi.
  destruct (Clusters.mapBounds s) as [|b0 bs] eqn:Eb; [congruence|].
  destruct (removeAll_frame (Clusters.markersRef s) m) as (En & Ez & _).
  pose proof (addClusterMarkers_spec (Clusters.isMobile s)
                (getClusters index (b0 :: bs)
                   (Js.Math_round (Mapbox.getZoom (Clusters.removeAll (Clusters.markersRef s) m))))
                (Clusters.removeAll (Clusters.markersRef s) m) []) as (E1 & E2 & E3).
  simpl in E1, E2, E3.
  destruct (fold_left _ _ _) as [m2 hs]. simpl in *.
  unfold Mapbox.getZoom in *. rewrite Ez, En in *.
  exists m2. split; [reflexivity|].
  rewrite E2, E3, removeAll_calls, removeAll_markers, <- app_assoc.
  repeat split; try assumption.
  intros Hall h Hin Hfresh.
  rewrite List.Forall_forall in Hall. apply Hall in Hin.
  apply List.in_seq in Hfresh. lia.
Qed.

Lemma update_recreates_every_marker_witness :
  let s := Samples.rendered [Samples.library; Samples.union] in
  Clusters.markersRef s = [0; 1]%nat
  /\ Clusters.markersRef (Clusters.updateClustersEffect Samples.leavesOnly s) = [2; 3]%nat.
Proof.
  split; [reflexivity|].
  destruct (update_recreates_every_marker Samples.leavesOnly
              (Samples.rendered [Samples.library; Samples.union])
              (Samples.mapOf (Samples.rendered [Samples.library; Samples.union]))
              (Samples.indexOf (Samples.rendered [Samples.library; Samples.union]))
              eq_refl eq_refl ltac:(discriminate)) as (m' & _ & _ & E & _).
  exact E.
Defined.

(** C3, counterexample.  The single catalogue entry is rendered, and the
    effect runs again with the same entry in the new set: its key is in both
    sets, yet its marker (identity 0) is removed and another one (identity 1)
    is created for it. *)
Lemma same_key_marker_is_removed_and_recreated :
  let s := Samples.rendered [Samples.library] in
  let s' := Clusters.updateClustersEffect Samples.leavesOnly s in
  Clusters.renderedKeys s = [Clusters.LocationKey "main-library"]
  /\ Clusters.renderedKeys s' = [Clusters.LocationKey "main-library"]
  /\ Clusters.markersRef s = [0%nat]
  /\ Clusters.markersRef s' = [1%nat]
  /\ Mapbox.calls (Samples.mapOf s')
     = Mapbox.calls (Samples.mapOf s) ++ [Mapbox.MarkerRemove 0; Mapbox.MarkerAddTo 1].
Proof. vm_compute. repeat split; reflexivity. Qed.

Example clusters_follow_the_viewport :
  List.map Clusters.keyOf
    (Clusters.clusters (Clusters.moves Samples.leavesOnly true [(Samples.downtown, Js.ofZ 12)]
                          (Samples.loaded [Samples.library; Samples.union]))) = []
  /\ List.map Clusters.keyOf
       (Clusters.clusters (Samples.rendered [Samples.library; Samples.union]))
     = [Clusters.LocationKey "main-library"; Clusters.LocationKey "student-union"].
Proof. vm_compute. split; reflexivity. Qed.

(** ** Travel times *)

Lemma truthy_nonempty (s : string) : s <> "" -> Js.truthy s = true.
Proof. destruct s; [congruence|reflexivity]. Qed.

Lemma truthy_iff (s : string) : Js.truthy s = true <-> s <> "".
Proof. destruct s; simpl; split; congruence. Qed.

Section RoutingFacts.

Import Routing.

Lemma exec_bind {A B} (net : Request -> option Outcome) (p : Async A) (f : A -> Async B) :
  exec net (bind p f)
  = match exec net p with
    | (Some a, t) => (fst (exec net (f a)), t ++ snd (exec net (f a)))
    | (None, t) => (None, t)
    end.
Proof.
  induction p as [a|r k IH]; simpl.
  - now destruct (exec net (f a)).
  - destruct (net r) as [o|]; [|reflexivity].
    rewrite IH. destruct (exec net (k o)) as [[a|] t]; reflexivity.
Qed.

Lemma run_bind {A B} (net : Request -> Outcome) (p : Async A) (f : A -> Async B) :
  run net (bind p f)
  = (fst (run net (f (fst (run net p)))),
     snd (run net p) ++ snd (run net (f (fst (run net p))))).
Proof.
  induction p as [a|r k IH]; simpl.
  - now destruct (run net (f a)).
  - rewrite IH. destruct (run net (k (net r))) as [a t]; reflexivity.
Qed.

(** On a network where every request settles, [exec] and [run] agree. *)
Lemma exec_total {A} (net : Request -> Outcome) (p : Async A) :
  exec (fun r => Some (net r)) p = (Some (fst (run net p)), snd (run net p)).
Proof.
  induction p as [a|r k IH]; simpl; [reflexivity|].
  rewrite IH. destruct (run net (k (net r))); reflexivity.
Qed.

Variables (token : string) (from to : Follow.LatLng).

Lemma drawRoute_request :
  token <> "" -> drawRoute true token from to = Some (directionsUrl "driving" from to token).
Proof. intros H. unfold drawRoute. now rewrite (truthy_nonempty token H). Qed.

Lemma run_loop (net : Request -> Outcome) (todo : list Mode) (results : list TravelTime) :
  run net (travelTimesLoop token from to todo results)
  = (results ++ List.map (fun m => settledEntry m (net (directionsUrl (profile m) from to token))) todo,
     sequential net (List.map (fun m => directionsUrl (profile m) from to token) todo)).
Proof.
  revert results. induction todo as [|mode rest IH]; intros results; simpl.
  - now rewrite app_nil_r.
  - unfold settledEntry at 1.
    destruct (net (directionsUrl (profile mode) from to token)) as [|data];
      [|destruct (firstRoute data)]; rewrite IH, <- app_assoc; reflexivity.
Qed.

Lemma exec_loop_cons (net : Request -> option Outcome) (mode : Mode) (rest : list Mode)
    (results : list TravelTime) :
  exec net (travelTimesLoop token from to (mode :: rest) results)
  = match net (directionsUrl (profile mode) from to token) with
    | Some o =>
        (fst (exec net (travelTimesLoop token from to rest (results ++ [settledEntry mode o]))),
         Issued (directionsUrl (profile mode) from to token)
         :: Settled (directionsUrl (profile mode) from to token) o
         :: snd (exec net (travelTimesLoop token from to rest (results ++ [settledEntry mode o]))))
    | None => (None, [Issued (directionsUrl (profile mode) from to token)])
    end.
Proof.
  simpl. unfold settledEntry.
  destruct (net (directionsUrl (profile mode) from to token)) as [[|data]|];
    [| destruct (firstRoute data) |]; simpl;
    try match goal with |- context [exec net ?p] => destruct (exec net p) end; reflexivity.
Qed.

(** The loop returns exactly when every request has settled. *)
Lemma exec_loop_returns (net : Request -> option Outcome) (todo : list Mode)
    (results : list TravelTime) :
  fst (exec net (travelTimesLoop token from to todo results)) <> None
  <-> (forall m, In m todo -> net (directionsUrl (profile m) from to token) <> None).
Proof.
  revert results. induction todo as [|mode rest IH]; intros results.
  - simpl. split; [intros _ m []|discriminate].
  - rewrite exec_loop_cons.
    destruct (net (directionsUrl (profile mode) from to token)) as [o|] eqn:E; simpl.
    + rewrite IH. split.
      * intros H m [<-|Hin]; [congruence|now apply H].
      * intros H m Hin. apply H. now right.
    + split; [congruence|]. intros H. exfalso. apply (H mode); [now left|exact E].
Qed.

(** Whatever has settled, at most one request is ever in flight. *)
Lemma exec_loop_in_flight (net : Request -> option Outcome) (todo : list Mode)
    (results : list TravelTime) :
  (maxInFlight 0 (snd (exec net (travelTimesLoop token from to todo results))) <= 1)%nat.
Proof.
  revert results. induction todo as [|mode rest IH]; intros results.
  - simpl. lia.
  - rewrite exec_loop_cons.
    destruct (net (directionsUrl (profile mode) from to token)) as [o|]; simpl.
    + specialize (IH (results ++ [settledEntry mode o])). lia.
    + lia.
Qed.

End RoutingFacts.

(** C4.  With a token, when the request of one profile throws and the
    requests of the other two return a route, [getTravelTimes] returns three
    entries, labelled Walk, Cycle and Drive in this order; the entry of the
    failing profile has a null duration, and the entry of each other profile
    has the rounded minutes of its own route. *)
Theorem travel_times_partial_failure (net : Routing.Request -> Routing.Outcome)
    (token : string) (from to : Follow.LatLng) (failing : Routing.Mode) :
  token <> "" ->
  In failing Routing.modes ->
  net (Routing.directionsUrl (Routing.profile failing) from to token) = Routing.Throws ->
  (forall m, In m Routing.modes -> m <> failing ->
     exists data route,
       net (Routing.directionsUrl (Routing.profile m) from to token) = Routing.Responds data
       /\ Routing.firstRoute data = Some route) ->
  exists times,
    fst (Routing.run net (Routing.getTravelTimes token from to)) = Some times
    /\ length times = 3%nat
    /\ List.map Routing.label times = ["Walk"; "Cycle"; "Drive"]
    /\ (forall t, In t times -> Routing.label t = Routing.mode_label failing ->
        Routing.duration t = None)
    /\ (forall m data route, In m Routing.modes -> m <> failing ->
        net (Routing.directionsUrl (Routing.profile m) from to token) = Routing.Responds data ->
        Routing.firstRoute data = Some route ->
        In {| Routing.label := Routing.mode_label m;
              Routing.duration :=
                Some (Js.Math_round (Js.divBy 60 (Routing.route_duration route))) |} times).
Proof.
  intros Htok Hin Hfail Hothers.
  unfold Routing.getTravelTimes.
  rewrite (truthy_nonempty token Htok). cbn [negb].
  rewrite run_bind, run_loop. simpl fst.
  eexists. split; [reflexivity|]. split; [reflexivity|]. split; [reflexivity|].
  split.
  - intros t Ht Hl. simpl in Ht, Hin.
    destruct Hin as [<-|[<-|[<-|[]]]];
      destruct Ht as [<-|[<-|[<-|[]]]]; simpl in Hl; try discriminate;
      unfold Routing.settledEntry; simpl; simpl in Hfail; now rewrite Hfail.
  - intros m data route Hm Hne Hnet Hroute. simpl in Hm.
    destruct Hm as [<-|[<-|[<-|[]]]]; simpl in *;
      unfold Routing.settledEntry; simpl; rewrite Hnet, Hroute; auto.
Qed.

Lemma travel_times_partial_failure_witness :
  exists times,
    fst (Routing.run Samples.cyclingDown
           (Routing.getTravelTimes "pk.token" Samples.here Samples.there)) = Some times
    /\ List.map Routing.duration times = [Some (Js.ofZ 5); None; Some (Js.ofZ 2)].
Proof.
  destruct (travel_times_partial_failure Samples.cyclingDown "pk.token" Samples.here Samples.there
              {| Routing.profile := "cycling"; Routing.mode_label := "Cycle" |})
    as (times & E & _).
  - discriminate.
  - right. left. reflexivity.
  - reflexivity.
  - intros m [<-|[<-|[<-|[]]]] Hne; [| congruence |]; do 2 eexists; split; reflexivity.
  - exists times. split; [exact E|].
    vm_compute in E. injection E as <-. reflexivity.
Defined.

(** C7 (as amended).  With a token, [getTravelTimes] issues its three
    requests one after the other, walking, cycling, then driving, each only
    after the one before has settled, so that at most one request is in
    flight at any time; the call returns exactly when all three have settled,
    never earlier; and a request that throws does not keep the later ones from
    being issued. *)
Theorem travel_times_are_sequential (token : string) (from to : Follow.LatLng) :
  token <> "" ->
  let walking := Routing.directionsUrl "walking" from to token in
  let cycling := Routing.directionsUrl "cycling" from to token in
  let driving := Routing.directionsUrl "driving" from to token in
  (forall net : Routing.Request -> Routing.Outcome,
     snd (Routing.run net (Routing.getTravelTimes token from to))
     = Routing.sequential net [walking; cycling; driving])
  /\ (forall net : Routing.Request -> option Routing.Outcome,
        (Routing.maxInFlight 0 (snd (Routing.exec net (Routing.getTravelTimes token from to)))
         <= 1)%nat
        /\ (fst (Routing.exec net (Routing.getTravelTimes token from to)) <> None
            <-> net walking <> None /\ net cycling <> None /\ net driving <> None)).
Proof.
  intros Htok walking cycling driving. unfold Routing.getTravelTimes.
  rewrite (truthy_nonempty token Htok). cbn [negb]. split.
  - intros net. rewrite run_bind, run_loop. reflexivity.
  - intros net. rewrite exec_bind.
    pose proof (exec_loop_in_flight token from to net Routing.modes []) as Hmax.
    pose proof (exec_loop_returns token from to net Routing.modes []) as Hret.
    destruct (Routing.exec net (Routing.travelTimesLoop token from to Routing.modes []))
      as [[results|] t]; simpl in *.
    + rewrite app_nil_r. split; [exact Hmax|]. split.
      * intros _. assert (Hall := proj1 Hret ltac:(discriminate)).
        split; [|split].
        -- apply (Hall {| Routing.profile := "walking"; Routing.mode_label := "Walk" |}); auto.
        -- apply (Hall {| Routing.profile := "cycling"; Routing.mode_label := "Cycle" |}); auto.
        -- apply (Hall {| Routing.profile := "driving"; Routing.mode_label := "Drive" |}); auto.
      * discriminate.
    + split; [exact Hmax|]. split; [congruence|].
      intros (Hw & Hc & Hd). exfalso. apply (proj2 Hret); [|reflexivity].
      intros m [<-|[<-|[<-|[]]]]; assumption.
Qed.

Lemma travel_times_are_sequential_witness :
  Routing.maxInFlight 0
    (snd (Routing.run Samples.cyclingDown
            (Routing.getTravelTimes "pk.token" Samples.here Samples.there)))
  = 1%nat.
Proof.
  destruct (travel_times_are_sequential "pk.token" Samples.here Samples.there
              ltac:(discriminate)) as [Hseq _].
  rewrite (Hseq Samples.cyclingDown). reflexivity.
Defined.

(** C7, counterexample.  While the walking request has not settled, the
    call has issued nothing else and has not returned, although the cycling
    and driving requests would succeed at once; and when every request
    settles, no two of them are ever in flight together. *)
Lemma slow_walking_request_blocks_the_others :
  Routing.exec Samples.walkingPending
    (Routing.getTravelTimes "pk.token" Samples.here Samples.there)
  = (None, [Routing.Issued (Routing.directionsUrl "walking" Samples.here Samples.there "pk.token")])
  /\ Routing.maxInFlight 0
       (snd (Routing.run Samples.cyclingDown
               (Routing.getTravelTimes "pk.token" Samples.here Samples.there)))
     = 1%nat.
Proof. split; reflexivity. Qed.

Example travel_times_trace :
  let url profile := Routing.directionsUrl profile Samples.here Samples.there "pk.token" in
  snd (Routing.run Samples.cyclingDown
         (Routing.getTravelTimes "pk.token" Samples.here Samples.there))
  = [ Routing.Issued (url "walking");
      Routing.Settled (url "walking") (Routing.Responds (Samples.oneRoute 290));
      Routing.Issued (url "cycling");
      Routing.Settled (url "cycling") Routing.Throws;
      Routing.Issued (url "driving");
      Routing.Settled (url "driving") (Routing.Responds (Samples.oneRoute 95)) ].
Proof. reflexivity. Qed.

(** C10.  With an empty token, [getTravelTimes] returns null without
    issuing any request, and [handleGetDirections] issues no request, starts
    none through [drawRoute], and shows no travel-times toast. *)
Theorem no_token_no_travel_times (net : Routing.Request -> option Routing.Outcome)
    (from to : Follow.LatLng) (userLocation : option Follow.LatLng) (mapReady : bool)
    (location : Clusters.CampusLocation) (u : Routing.Shell) :
  Routing.exec net (Routing.getTravelTimes "" from to) = (Some None, [])
  /\ exists u',
       Routing.exec net (Routing.handleGetDirections userLocation mapReady "" location u)
       = (Some u', [])
       /\ List.filter Routing.isTravelTimesToast (Routing.toasts u')
          = List.filter Routing.isTravelTimesToast (Routing.toasts u)
       /\ Routing.detached u' = Routing.detached u.
Proof.
  split; [reflexivity|].
  unfold Routing.handleGetDirections.
  destruct userLocation as [me|], mapReady; simpl; eexists; (split; [reflexivity|]); simpl;
    rewrite ?List.filter_app, ?app_nil_r; auto.
Qed.

Example token_makes_the_toast :
  exists u,
    fst (Routing.exec (fun r => Some (Samples.cyclingDown r))
           (Routing.handleGetDirections (Some Samples.here) true "pk.token" Samples.library
              {| Routing.toasts := []; Routing.opened := []; Routing.detached := [] |}))
    = Some u
    /\ List.map Routing.title (Routing.toasts u) = ["Estimated Travel Times"]
    /\ List.map Routing.req_profile (Routing.detached u) = ["driving"].
Proof. eexists. vm_compute. repeat split; reflexivity. Qed.

(** ** The route overlay *)

Section BoundsFacts.

Lemma leb_finite_refl (a : Js.number) : Js.isFinite a = true -> Js.leb a a = true.
Proof. destruct a; try discriminate. intros _. simpl. apply Qle_bool_iff, Qle_refl. Qed.

Lemma leb_finite_trans (a b c : Js.number) :
  Js.isFinite a = true -> Js.isFinite b = true -> Js.isFinite c = true ->
  Js.leb a b = true -> Js.leb b c = true -> Js.leb a c = true.
Proof.
  destruct a, b, c; try discriminate. intros _ _ _. simpl.
  rewrite !Qle_bool_iff. apply Qle_trans.
Qed.

Lemma min_finite (a b : Js.number) :
  Js.isFinite a = true -> Js.isFinite b = true ->
  Js.isFinite (Js.min a b) = true
  /\ Js.leb (Js.min a b) a = true /\ Js.leb (Js.min a b) b = true
  /\ (Js.min a b = a \/ Js.min a b = b).
Proof.
  destruct a as [| |x], b as [| |y]; try discriminate. intros _ _.
  unfold Js.min. simpl. destruct (Qle_bool x y) eqn:E; simpl.
  - rewrite E. repeat split; auto. apply Qle_bool_iff, Qle_refl.
  - assert (Qle_bool y x = true) as E'.
    { apply Qle_bool_iff. apply Qlt_le_weak, Qnot_le_lt. intros H.
      apply Qle_bool_iff in H. congruence. }
    rewrite E'. repeat split; auto. apply Qle_bool_iff, Qle_refl.
Qed.

Lemma max_finite (a b : Js.number) :
  Js.isFinite a = true -> Js.isFinite b = true ->
  Js.isFinite (Js.max a b) = true
  /\ Js.leb a (Js.max a b) = true /\ Js.leb b (Js.max a b) = true
  /\ (Js.max a b = a \/ Js.max a b = b).
Proof.
  destruct a as [| |x], b as [| |y]; try discriminate. intros _ _.
  unfold Js.max. simpl. destruct (Qle_bool x y) eqn:E; simpl.
  - rewrite E. repeat split; auto. apply Qle_bool_iff, Qle_refl.
  - assert (Qle_bool y x = true) as E'.
    { apply Qle_bool_iff. apply Qlt_le_weak, Qnot_le_lt. intros H.
      apply Qle_bool_iff in H. congruence. }
    rewrite E'. repeat split; auto. apply Qle_bool_iff, Qle_refl.
Qed.

(** The smallest of finitely many finite numbers, computed from the left. *)
Lemma running_min (xs : list Js.number) (a : Js.number) :
  Js.isFinite a = true -> List.Forall (fun x => Js.isFinite x = true) xs ->
  let r := fold_left (fun acc x => Js.min x acc) xs a in
  Js.isFinite r = true /\ Js.leb r a = true
  /\ List.Forall (fun x => Js.leb r x = true) xs /\ (r = a \/ In r xs).
Proof.
  intros Ha Hxs. revert a Ha. induction Hxs as [|x xs Hx _ IH]; intros a Ha; simpl.
  - repeat split; auto. now apply leb_finite_refl.
  - destruct (min_finite x a Hx Ha) as (M1 & M2 & M3 & M4).
    destruct (IH (Js.min x a) M1) as (R1 & R2 & R3 & R4).
    split; [exact R1|]. split; [|split].
    + now apply (leb_finite_trans _ (Js.min x a)).
    + constructor; [|exact R3]. now apply (leb_finite_trans _ (Js.min x a)).
    + destruct R4 as [R4|R4]; [|auto]. rewrite R4. destruct M4 as [->| ->]; auto.
Qed.

Lemma running_max (xs : list Js.number) (a : Js.number) :
  Js.isFinite a = true -> List.Forall (fun x => Js.isFinite x = true) xs ->
  let r := fold_left (fun acc x => Js.max x acc) xs a in
  Js.isFinite r = true /\ Js.leb a r = true
  /\ List.Forall (fun x => Js.leb x r = true) xs /\ (r = a \/ In r xs).
Proof.
  intros Ha Hxs. revert a Ha. induction Hxs as [|x xs Hx _ IH]; intros a Ha; simpl.
  - repeat split; auto. now apply leb_finite_refl.
  - destruct (max_finite x a Hx Ha) as (M1 & M2 & M3 & M4).
    destruct (IH (Js.max x a) M1) as (R1 & R2 & R3 & R4).
    split; [exact R1|]. split; [|split].
    + now apply (leb_finite_trans _ (Js.max x a)).
    + constructor; [|exact R3]. now apply (leb_finite_trans _ (Js.max x a)).
    + destruct R4 as [R4|R4]; [|auto]. rewrite R4. destruct M4 as [->| ->]; auto.
Qed.

(** The corners after extending by a list of positions. *)
Lemma corners_extended (cs : list Mapbox.LngLat) (b : Mapbox.Bounds) (sw ne : Mapbox.LngLat) :
  Mapbox.corners b = Some (sw, ne) ->
  Mapbox.corners (fold_left Mapbox.extend cs b)
  = Some ({| Mapbox.lng := fold_left (fun acc x => Js.min x acc) (List.map Mapbox.lng cs)
                                     (Mapbox.lng sw);
             Mapbox.lat := fold_left (fun acc x => Js.min x acc) (List.map Mapbox.lat cs)
                                     (Mapbox.lat sw) |},
          {| Mapbox.lng := fold_left (fun acc x => Js.max x acc) (List.map Mapbox.lng cs)
                                     (Mapbox.lng ne);
             Mapbox.lat := fold_left (fun acc x => Js.max x acc) (List.map Mapbox.lat cs)
                                     (Mapbox.lat ne) |}).
Proof.
  revert b sw ne. induction cs as [|c cs IH]; intros b sw ne H; simpl.
  - rewrite H. now destruct sw, ne.
  - rewrite (IH (Mapbox.extend b c)
                {| Mapbox.lng := Js.min (Mapbox.lng c) (Mapbox.lng sw);
                   Mapbox.lat := Js.min (Mapbox.lat c) (Mapbox.lat sw) |}
                {| Mapbox.lng := Js.max (Mapbox.lng c) (Mapbox.lng ne);
                   Mapbox.lat := Js.max (Mapbox.lat c) (Mapbox.lat ne) |});
      [reflexivity|]. simpl. now rewrite H.
Qed.

(** The bounds [drawRoute] builds are the bounding box of the route. *)
Lemma routeBounds_box (cs : list Mapbox.LngLat) :
  cs <> [] -> forallb Routing.validCoordinate cs = true ->
  exists sw ne,
    Mapbox.corners (Routing.routeBounds cs) = Some (sw, ne)
    /\ List.Forall (fun c => Js.leb (Mapbox.lng sw) (Mapbox.lng c) = true
                             /\ Js.leb (Mapbox.lng c) (Mapbox.lng ne) = true
                             /\ Js.leb (Mapbox.lat sw) (Mapbox.lat c) = true
                             /\ Js.leb (Mapbox.lat c) (Mapbox.lat ne) = true) cs
    /\ In (Mapbox.lng sw) (List.map Mapbox.lng cs)
    /\ In (Mapbox.lat sw) (List.map Mapbox.lat cs)
    /\ In (Mapbox.lng ne) (List.map Mapbox.lng cs)
    /\ In (Mapbox.lat ne) (List.map Mapbox.lat cs).
Proof.
  intros Hne Hv. destruct cs as [|c0 cs]; [congruence|]. clear Hne.
  assert (List.Forall (fun x => Js.isFinite x = true) (List.map Mapbox.lng (c0 :: cs))
          /\ List.Forall (fun x => Js.isFinite x = true) (List.map Mapbox.lat (c0 :: cs)))
    as [Hlng Hlat].
  { rewrite forallb_forall in Hv. split; apply List.Forall_forall; intros x Hx;
      apply List.in_map_iff in Hx as (c & <- & Hc); apply Hv in Hc;
      unfold Routing.validCoordinate in Hc;
      apply andb_prop in Hc as [Hc _]; apply andb_prop in Hc as [H1 H2]; assumption. }
  change (Routing.routeBounds (c0 :: cs))
    with (fold_left Mapbox.extend (c0 :: cs) (Mapbox.LngLatBounds (Some c0) (Some c0))).
  rewrite (corners_extended (c0 :: cs) (Mapbox.LngLatBounds (Some c0) (Some c0)) c0 c0 eq_refl).
  pose proof (List.Forall_inv Hlng) as F0. pose proof (List.Forall_inv Hlat) as G0.
  cbn [List.map] in F0, G0.
  destruct (running_min _ _ F0 Hlng) as (_ & _ & A3 & A4).
  destruct (running_min _ _ G0 Hlat) as (_ & _ & B3 & B4).
  destruct (running_max _ _ F0 Hlng) as (_ & _ & C3 & C4).
  destruct (running_max _ _ G0 Hlat) as (_ & _ & D3 & D4).
  eexists. eexists. split; [reflexivity|]. cbn [Mapbox.lng Mapbox.lat].
  split.
  - apply List.Forall_forall. intros c Hc.
    rewrite List.Forall_forall in A3, B3, C3, D3.
    repeat split; [apply A3|apply C3|apply B3|apply D3]; now apply List.in_map.
  - repeat split.
    + destruct A4 as [->|A4]; [now left|exact A4].
    + destruct B4 as [->|B4]; [now left|exact B4].
    + destruct C4 as [->|C4]; [now left|exact C4].
    + destruct D4 as [->|D4]; [now left|exact D4].
Qed.

End BoundsFacts.

(** C8.  When the request of [drawRoute] returns a route, the callback
    removes the layer and the source named route if they exist, then adds the
    source and the layer of the new route, each once, and then fits the
    viewport, with padding 50, to the bounding box of the new route: the
    bounds whose sides are the smallest and the largest longitude and
    latitude among the route's coordinates.  Afterwards the source named
    route holds the new geometry, and the markers, and every other source and
    layer, are unchanged. *)
Theorem draw_route_replaces_overlay (m : Mapbox.Map) (data : Routing.Directions)
    (route : Routing.Route) :
  Routing.firstRoute data = Some route ->
  Mapbox.coordinates (Routing.route_geometry route) <> [] ->
  forallb Routing.validCoordinate (Mapbox.coordinates (Routing.route_geometry route)) = true ->
  let m' := Routing.drawRouteSettled (Routing.Responds data) m in
  let geometry := Routing.route_geometry route in
  exists bounds sw ne,
    Mapbox.calls m'
    = Mapbox.calls m
      ++ (match Mapbox.getLayer "route" m with Some _ => [Mapbox.RemoveLayer "route"] | None => [] end)
      ++ (match Mapbox.getSource "route" m with Some _ => [Mapbox.RemoveSource "route"] | None => [] end)
      ++ [ Mapbox.AddSource "route" geometry;
           Mapbox.AddLayer Routing.routeLayer;
           Mapbox.FitBounds bounds 50 ]
    /\ Mapbox.corners bounds = Some (sw, ne)
    /\ List.Forall (fun c => Js.leb (Mapbox.lng sw) (Mapbox.lng c) = true
                             /\ Js.leb (Mapbox.lng c) (Mapbox.lng ne) = true
                             /\ Js.leb (Mapbox.lat sw) (Mapbox.lat c) = true
                             /\ Js.leb (Mapbox.lat c) (Mapbox.lat ne) = true)
                    (Mapbox.coordinates geometry)
    /\ In (Mapbox.lng sw) (List.map Mapbox.lng (Mapbox.coordinates geometry))
    /\ In (Mapbox.lat sw) (List.map Mapbox.lat (Mapbox.coordinates geometry))
    /\ In (Mapbox.lng ne) (List.map Mapbox.lng (Mapbox.coordinates geometry))
    /\ In (Mapbox.lat ne) (List.map Mapbox.lat (Mapbox.coordinates geometry))
    /\ Mapbox.sources m' = <["route" := geometry]> (Mapbox.sources m)
    /\ Mapbox.layers m' = <["route" := Routing.routeLayer]> (Mapbox.layers m)
    /\ Mapbox.markers m' = Mapbox.markers m
    /\ Mapbox.nextHandle m' = Mapbox.nextHandle m.
Proof.
  intros Hroute Hne Hvalid m' geometry.
  destruct (routeBounds_box _ Hne Hvalid) as (sw & ne & B1 & B2 & B3 & B4 & B5 & B6).
  exists (Routing.routeBounds (Mapbox.coordinates geometry)), sw, ne.
  assert (Mapbox.calls m'
          = Mapbox.calls m
            ++ (match Mapbox.getLayer "route" m with
                | Some _ => [Mapbox.RemoveLayer "route"] | None => [] end)
            ++ (match Mapbox.getSource "route" m with
                | Some _ => [Mapbox.RemoveSource "route"] | None => [] end)
            ++ [ Mapbox.AddSource "route" geometry;
                 Mapbox.AddLayer Routing.routeLayer;
                 Mapbox.FitBounds (Routing.routeBounds (Mapbox.coordinates geometry)) 50 ]
          /\ Mapbox.sources m' = <["route" := geometry]> (Mapbox.sources m)
          /\ Mapbox.layers m' = <["route" := Routing.routeLayer]> (Mapbox.layers m)
          /\ Mapbox.markers m' = Mapbox.markers m
          /\ Mapbox.nextHandle m' = Mapbox.nextHandle m) as (C1 & C2 & C3 & C4 & C5).
  { subst m' geometry.
    unfold Routing.drawRouteSettled, Routing.drawRouteThen. rewrite Hroute.
    unfold Mapbox.getLayer, Mapbox.getSource.
    destruct (Mapbox.layers m !! "route") as [l|] eqn:El; simpl;
      destruct (Mapbox.sources m !! "route") as [g|] eqn:Es; simpl;
      rewrite ?El, ?Es; simpl;
      rewrite <- ?app_assoc, ?insert_delete_eq; simpl; auto. }
  split; [exact C1|]. split; [exact B1|]. split; [exact B2|]. split; [exact B3|].
  split; [exact B4|]. split; [exact B5|]. split; [exact B6|]. auto.
Qed.

Lemma draw_route_replaces_overlay_witness :
  exists bounds sw ne,
    Mapbox.calls (Routing.drawRouteSettled (Routing.Responds (Samples.oneRoute 290)) Samples.routed)
    = Mapbox.calls Samples.routed
      ++ [ Mapbox.RemoveLayer "route"; Mapbox.RemoveSource "route";
           Mapbox.AddSource "route" (Routing.route_geometry (Samples.route 290));
           Mapbox.AddLayer Routing.routeLayer;
           Mapbox.FitBounds bounds 50 ]
    /\ Mapbox.corners bounds = Some (sw, ne)
    /\ In (Mapbox.lng sw) [Samples.decimal (-739845) 10000; Samples.decimal (-739851) 10000]
    /\ In (Mapbox.lat ne) [Samples.decimal 407580 10000; Samples.decimal 407589 10000].
Proof.
  destruct (draw_route_replaces_overlay Samples.routed (Samples.oneRoute 290) (Samples.route 290)
              eq_refl ltac:(discriminate) eq_refl)
    as (bounds & sw & ne & E & C & _ & H1 & _ & _ & H4 & _).
  exists bounds, sw, ne. split; [exact E|]. split; [exact C|]. split; [exact H1|exact H4].
Defined.

Example route_bounds_of_a_sample_route :
  Mapbox.corners
    (Routing.routeBounds (Mapbox.coordinates (Routing.route_geometry (Samples.route 290))))
  = Some ({| Mapbox.lng := Samples.decimal (-739851) 10000;
             Mapbox.lat := Samples.decimal 407580 10000 |},
          {| Mapbox.lng := Samples.decimal (-739845) 10000;
             Mapbox.lat := Samples.decimal 407589 10000 |}).
Proof. reflexivity. Qed.

(** ** The shared-location deep link *)


Example parseFloat_decimal : Js.parseFloat "40.7589" = Js.binary64 (407589 # 10000).
Proof. reflexivity. Qed.

Example parseFloat_prefix : Js.parseFloat "  -73.9851abc" = Js.binary64 (Qopp (739851 # 10000)).
Proof. reflexivity. Qed.

Example parseFloat_exact : Js.parseFloat "28.5" = Js.Finite (57 # 2).
Proof. vm_compute. reflexivity. Qed.

(** A literal just above 90 is read as 90. *)
Example parseFloat_rounds : Js.parseFloat "90.000000000000001" = Js.ofZ 90.
Proof. vm_compute. reflexivity. Qed.

Example parseFloat_exponent : Js.parseFloat "1.5e3x" = Js.Finite (inject_Z 1500).
Proof. vm_compute. reflexivity. Qed.

Example parseFloat_not_a_number :
  Js.parseFloat "abc" = Js.NaN /\ Js.parseFloat "." = Js.NaN /\ Js.parseFloat "-" = Js.NaN.
Proof. vm_compute. auto. Qed.

Example parseFloat_infinite :
  Js.parseFloat "-Infinity" = Js.Infinity true /\ Js.parseFloat "1e400" = Js.Infinity false.
Proof. vm_compute. auto. Qed.




Example shared_link_decodes :
  DeepLink.sharedLocationFromUrl Samples.sharedLink
  = Some {| Follow.lat := Js.binary64 (407589 # 10000);
            Follow.lng := Js.binary64 (Qopp (739851 # 10000)) |}.
Proof. reflexivity. Qed.


(** The display effect, run for that link once the map exists and a
    position sample arrives, throws. *)
Example unparsable_link_is_refused_by_the_renderer :
  DeepLink.sharedLocationEffect (DeepLink.sharedLocationFromUrl Samples.brokenLink)
    (Some Samples.here) (Some Samples.emptyMap)
  = Mapbox.Refused.
Proof. reflexivity. Qed.

(** * Further properties of the component *)

(** ** The user's marker and the recenter decision over whole runs *)

Section TrackingFacts.

Import Follow.


Lemma run_app (es es' : list Event) (s : State) :
  run (es ++ es') s = run es' (run es s).
Proof. unfold run. now rewrite fold_left_app. Qed.







End TrackingFacts.



(** With the map in place before the first sample, the marker is created
    at the first sample. *)
Example user_marker_from_the_first_sample :
  option_map Mapbox.markers
    (Follow.mapCurrent
       (Follow.run [Follow.Position Samples.here] (Follow.initial (Some Samples.emptyMap))))
  = Some [Tracking.userMarker 0 Samples.here].
Proof. reflexivity. Qed.

Section RecenterFacts.

Import Follow.

(** While the state and the ref say Manual, events other than Locate Me
    add no recenter instruction and keep both as they are. *)
Lemma manual_run (es : list Event) (s : State) :
  followUser s = false -> followRef s = false ->
  forallb (fun e => negb (Tracking.isLocateMe e)) es = true ->
  recenters (run es s) = recenters s
  /\ followUser (run es s) = false /\ followRef (run es s) = false.
Proof.
  revert s. induction es as [|e es IH]; intros s Hu Hr Hes; simpl; [auto|].
  simpl in Hes. apply andb_prop in Hes as [He Hes].
  assert (recenters (step s e) = recenters s
          /\ followUser (step s e) = false /\ followRef (step s e) = false) as (E1 & E2 & E3).
  { destruct e as [p|k|]; [| |discriminate].
    - rewrite recenters_position, followUser_position, Hr. cbn [andb]. rewrite app_nil_r.
      split; [reflexivity|]. split; [exact Hu|].
      rewrite (followRef_step s (Position p)); [|congruence].
      rewrite followUser_position, Hr. exact Hu.
    - rewrite recenters_interaction, followUser_interaction. split; [reflexivity|].
      split; [reflexivity|].
      rewrite (followRef_step s (MapInteraction k)), followUser_interaction; congruence. }
  destruct (IH (step s e) E2 E3 Hes) as (F1 & F2 & F3).
  rewrite F1, E1. auto.
Qed.

End RecenterFacts.

(** X2.  In every state the component can reach, a position sample issues
    a recenter instruction, to that position at zoom 17, exactly when the
    state is Following and the map exists; a map interaction issues none; and
    Locate Me issues one, to the last known position, exactly when a position
    is known and the map exists. *)
Theorem recenter_exactly_when_following (m : option Mapbox.Map) (es : list Follow.Event)
    (p : Follow.LatLng) (k : Follow.Interaction) :
  let s := Follow.run es (Follow.initial m) in
  Follow.recenters (Follow.step s (Follow.Position p))
  = Follow.recenters s
    ++ (if Follow.followUser s && Tracking.mapExists s
        then [Mapbox.FlyTo (Follow.toLngLat p) 17] else [])
  /\ Follow.recenters (Follow.step s (Follow.MapInteraction k)) = Follow.recenters s
  /\ Follow.recenters (Follow.step s Follow.LocateMe)
     = Follow.recenters s
       ++ match Follow.userLocation s, Follow.mapCurrent s with
          | Some me, Some _ => [Mapbox.FlyTo (Follow.toLngLat me) 17]
          | _, _ => []
          end.
Proof.
  intros s. split; [|split].
  - rewrite recenters_position. subst s.
    now rewrite (followRef_run es (Follow.initial m) eq_refl).
  - apply recenters_interaction.
  - apply recenters_locateMe.
Qed.

(** X3.  Once the component is in Manual, no sequence of position samples
    and map interactions recenters the map or leaves Manual: only Locate Me
    recenters it again. *)
Theorem manual_until_locate_me (m : option Mapbox.Map) (es later : list Follow.Event) :
  Follow.followState (Follow.run es (Follow.initial m)) = Follow.Manual ->
  forallb (fun e => negb (Tracking.isLocateMe e)) later = true ->
  Follow.recenters (Follow.run (es ++ later) (Follow.initial m))
  = Follow.recenters (Follow.run es (Follow.initial m))
  /\ Follow.followState (Follow.run (es ++ later) (Follow.initial m)) = Follow.Manual.
Proof.
  intros Hmanual Hlater. rewrite run_app.
  assert (Follow.followUser (Follow.run es (Follow.initial m)) = false) as Hu.
  { unfold Follow.followState in Hmanual.
    destruct (Follow.followUser _); [discriminate|reflexivity]. }
  assert (Follow.followRef (Follow.run es (Follow.initial m)) = false) as Hr.
  { now rewrite (followRef_run es (Follow.initial m) eq_refl). }
  destruct (manual_run later _ Hu Hr Hlater) as (E1 & E2 & _).
  split; [exact E1|]. unfold Follow.followState. now rewrite E2.
Qed.

Lemma manual_until_locate_me_witness :
  Follow.recenters
    (Follow.run ([Follow.Position Samples.here; Follow.MapInteraction Follow.touchstart]
                 ++ [Follow.Position Samples.there; Follow.MapInteraction Follow.zoomstart;
                     Follow.Position Samples.here])
                (Follow.initial (Some Samples.emptyMap)))
  = [Mapbox.FlyTo (Follow.toLngLat Samples.here) 17].
Proof.
  destruct (manual_until_locate_me (Some Samples.emptyMap)
              [Follow.Position Samples.here; Follow.MapInteraction Follow.touchstart]
              [Follow.Position Samples.there; Follow.MapInteraction Follow.zoomstart;
               Follow.Position Samples.here] eq_refl eq_refl) as [E _].
  rewrite E. reflexivity.
Defined.

(** ** The markers of the clusters over whole camera histories *)

Section TrackedFacts.

Import Clusters.

Variable getClusters : Supercluster -> list Js.number -> Js.number -> list Feature.

Lemma addClusterMarkers_nextHandle (mobile : bool) (cs : list Feature) (m : Mapbox.Map)
    (hs : list nat) :
  Mapbox.nextHandle (fst (fold_left (addClusterMarker mobile) cs (m, hs)))
  = (Mapbox.nextHandle m + length cs)%nat.
Proof.
  revert m hs. induction cs as [|c cs IH]; intros m hs; simpl; [lia|].
  unfold addClusterMarker at 2. simpl. rewrite IH. simpl. lia.
Qed.

Lemma created_handles (mobile : bool) (n : nat) (cs : list Feature) :
  List.map Mapbox.handle (created mobile n cs) = seq n (length cs).
Proof.
  unfold created. rewrite List.map_map. simpl.
  revert n. induction cs as [|c cs IH]; intros n; simpl; [reflexivity|].
  now rewrite IH.
Qed.

Lemma created_keyed (mobile : bool) (n : nat) (cs : list Feature) :
  List.filter Tracked.keyed (created mobile n cs) = created mobile n cs
  /\ List.filter Tracked.unkeyed (created mobile n cs) = [].
Proof.
  unfold created. revert n. induction cs as [|c cs IH]; intros n; simpl; [auto|].
  destruct (IH (S n)) as [E1 E2].
  unfold Tracked.unkeyed, Tracked.keyed at 1 3. simpl.
  destruct c; simpl; rewrite ?E1; auto.
Qed.

Lemma created_describes (mobile : bool) (n : nat) (cs : list Feature) :
  List.map (fun k => Clusters.keyOfElement (Mapbox.element k)) (created mobile n cs)
  = List.map (fun c => Some (keyOf c)) cs
  /\ List.map Mapbox.lngLat (created mobile n cs) = List.map coordinatesOf cs.
Proof.
  unfold created. revert n. induction cs as [|c cs IH]; intros n; simpl; [auto|].
  destruct (IH (S n)) as [E1 E2]. rewrite E1, E2. destruct c; auto.
Qed.

Lemma filter_keyed_unkeyed (ks : list Mapbox.Marker) :
  List.filter Tracked.keyed (List.filter Tracked.unkeyed ks) = [].
Proof.
  induction ks as [|k ks IH]; simpl; [reflexivity|].
  unfold Tracked.unkeyed at 1. destruct (Tracked.keyed k) eqn:E; simpl; [exact IH|].
  now rewrite E.
Qed.

Lemma filter_unkeyed_idem (ks : list Mapbox.Marker) :
  List.filter Tracked.unkeyed (List.filter Tracked.unkeyed ks) = List.filter Tracked.unkeyed ks.
Proof.
  induction ks as [|k ks IH]; simpl; [reflexivity|].
  destruct (Tracked.unkeyed k) eqn:E; simpl; [now rewrite E, IH|exact IH].
Qed.

(** With distinct identities, an identity found among the keyed markers
    belongs to a keyed marker. *)
Lemma tracked_iff_keyed (ks : list Mapbox.Marker) (k : Mapbox.Marker) :
  List.NoDup (List.map Mapbox.handle ks) -> In k ks ->
  existsb (Nat.eqb (Mapbox.handle k)) (List.map Mapbox.handle (List.filter Tracked.keyed ks))
  = Tracked.keyed k.
Proof.
  induction ks as [|k0 ks IH]; intros Hnd Hin; [destruct Hin|].
  simpl in Hnd. apply List.NoDup_cons_iff in Hnd as [Hfresh Hnd].
  destruct Hin as [->|Hin].
  - simpl. destruct (Tracked.keyed k) eqn:E; simpl.
    + now rewrite Nat.eqb_refl.
    + apply Bool.not_true_is_false. intros Hex.
      apply List.existsb_exists in Hex as (h & Hh & Heq).
      apply Nat.eqb_eq in Heq. subst h. apply Hfresh.
      apply List.in_map_iff in Hh as (k' & Hk' & Hin').
      apply List.in_map_iff. exists k'. split; [exact Hk'|].
      apply List.filter_In in Hin'. tauto.
  - simpl. destruct (Tracked.keyed k0) eqn:E; simpl; [|now apply IH].
    destruct (Nat.eqb_spec (Mapbox.handle k) (Mapbox.handle k0)) as [Heq|_]; [|now apply IH].
    exfalso. apply Hfresh. rewrite <- Heq. now apply List.in_map.
Qed.

Lemma filter_ext_in' {A} (f g : A -> bool) (l : list A) :
  (forall x, In x l -> f x = g x) -> List.filter f l = List.filter g l.
Proof.
  induction l as [|x l IH]; intros H; simpl; [reflexivity|].
  rewrite (H x (or_introl eq_refl)), IH; [reflexivity|].
  intros y Hy. apply H. now right.
Qed.

Lemma addClusterMarkers_camera (mobile : bool) (cs : list Feature) (m : Mapbox.Map)
    (hs : list nat) :
  Mapbox.viewZoom (fst (fold_left (addClusterMarker mobile) cs (m, hs))) = Mapbox.viewZoom m
  /\ Mapbox.viewBounds (fst (fold_left (addClusterMarker mobile) cs (m, hs)))
     = Mapbox.viewBounds m.
Proof.
  revert m hs. induction cs as [|c cs IH]; intros m hs; simpl; [auto|].
  unfold addClusterMarker at 2 4. simpl.
  match goal with |- context [fold_left _ cs (?m1, ?h1)] =>
    destruct (IH m1 h1) as [F1 F2] end.
  rewrite F1, F2. auto.
Qed.

Lemma removeAll_viewBounds (hs : list nat) (m : Mapbox.Map) :
  Mapbox.viewBounds (removeAll hs m) = Mapbox.viewBounds m.
Proof.
  revert m. induction hs as [|h hs IH]; intros m; simpl; [reflexivity|]. now rewrite IH.
Qed.

(** One run of the cluster update effect on a consistent state. *)
Lemma update_keeps_consistent (s : State) (m : Mapbox.Map) (index : Supercluster) :
  mapCurrent s = Some m -> supercluster s = Some index -> mapBounds s <> [] ->
  Tracked.consistent s m ->
  exists m',
    mapCurrent (updateClustersEffect getClusters s) = Some m'
    /\ Tracked.consistent (updateClustersEffect getClusters s) m'
    /\ List.filter Tracked.unkeyed (Mapbox.markers m')
       = List.filter Tracked.unkeyed (Mapbox.markers m)
    /\ List.filter Tracked.keyed (Mapbox.markers m')
       = created (isMobile s) (Mapbox.nextHandle m) (clusters (updateClustersEffect getClusters s))
    /\ Mapbox.viewZoom m' = Mapbox.viewZoom m
    /\ Mapbox.viewBounds m' = Mapbox.viewBounds m.
Proof.
  intros Hm Hi Hb [Hgiven Hdistinct Htracked].
  unfold updateClustersEffect. rewrite Hm, Hi.
  destruct (mapBounds s) as [|b0 bs] eqn:Eb; [congruence|].
  destruct (removeAll_frame (markersRef s) m) as (En & Ez & _).
  set (m1 := removeAll (markersRef s) m) in *.
  set (cs := getClusters index (b0 :: bs) (Js.Math_round (Mapbox.getZoom m1))).
  destruct (addClusterMarkers_spec (isMobile s) cs m1 []) as (E1 & E2 & E3).
  pose proof (addClusterMarkers_nextHandle (isMobile s) cs m1 []) as E4.
  destruct (addClusterMarkers_camera (isMobile s) cs m1 []) as [E5 E6].
  pose proof (removeAll_viewBounds (markersRef s) m) as Evb. fold m1 in Evb.
  assert (Mapbox.markers m1 = List.filter Tracked.unkeyed (Mapbox.markers m)) as Ekeep.
  { subst m1. rewrite removeAll_markers, <- Htracked.
    apply filter_ext_in'. intros k Hk. unfold Tracked.unkeyed.
    now rewrite (tracked_iff_keyed _ k Hdistinct Hk). }
  destruct (fold_left (addClusterMarker (isMobile s)) cs (m1, [])) as [m2 hs] eqn:Ef.
  simpl in E1, E2, E3, E4, E5, E6. simpl.
  exists m2. split; [reflexivity|].
  destruct (created_keyed (isMobile s) (Mapbox.nextHandle m1) cs) as [Ck Cu].
  rewrite En in *.
  split; [|split; [|split; [|split]]].
  - constructor; simpl.
    + rewrite E3, E4, List.map_app, created_handles, Ekeep.
      apply List.Forall_app. split.
      * rewrite List.Forall_forall in Hgiven |- *. intros h Hh.
        apply List.in_map_iff in Hh as (k & <- & Hk). apply List.filter_In in Hk as [Hk _].
        assert (Mapbox.handle k < Mapbox.nextHandle m)%nat; [|lia].
        apply Hgiven. now apply List.in_map.
      * rewrite List.Forall_forall. intros h Hh. apply List.in_seq in Hh. lia.
    + rewrite E3, List.map_app, created_handles, Ekeep.
      apply List.NoDup_app.
      * clear -Hdistinct. induction (Mapbox.markers m) as [|k ks IH]; simpl; [constructor|].
        simpl in Hdistinct. apply List.NoDup_cons_iff in Hdistinct as [Hf Hnd].
        destruct (Tracked.unkeyed k); simpl; [|now apply IH].
        constructor; [|now apply IH].
        intros Hin. apply Hf. apply List.in_map_iff in Hin as (k' & <- & Hk').
        apply List.filter_In in Hk' as [Hk' _]. now apply List.in_map.
      * apply List.seq_NoDup.
      * intros h Hh Hseq. apply List.in_seq in Hseq.
        rewrite List.Forall_forall in Hgiven.
        apply List.in_map_iff in Hh as (k & <- & Hk). apply List.filter_In in Hk as [Hk _].
        assert (Mapbox.handle k < Mapbox.nextHandle m)%nat; [|lia].
        apply Hgiven. now apply List.in_map.
    + rewrite E3, List.filter_app, Ekeep, filter_keyed_unkeyed, Ck, app_nil_l, created_handles.
      simpl in E1. now rewrite E1.
  - now rewrite E3, List.filter_app, Ekeep, filter_unkeyed_idem, Cu, app_nil_r.
  - now rewrite E3, List.filter_app, Ekeep, filter_keyed_unkeyed, Ck.
  - unfold Mapbox.getZoom in *. congruence.
  - congruence.
Qed.

End TrackedFacts.

Section TrackedRuns.

Import Clusters.

Variable getClusters : Supercluster -> list Js.number -> Js.number -> list Feature.

(** The cluster update effect leaves the index, the catalogue and the
    screen size alone. *)
Lemma update_frame (s : State) :
  supercluster (updateClustersEffect getClusters s) = supercluster s
  /\ isMobile (updateClustersEffect getClusters s) = isMobile s
  /\ locations (updateClustersEffect getClusters s) = locations s.
Proof.
  unfold updateClustersEffect.
  destruct (mapCurrent s); [|auto]. destruct (supercluster s) eqn:E; [|auto].
  destruct (mapBounds s); [auto|]. destruct (fold_left _ _ _); simpl; auto.
Qed.

Lemma update_idle (s : State) :
  mapBounds s = [] -> updateClustersEffect getClusters s = s.
Proof.
  intros H. unfold updateClustersEffect. rewrite H.
  destruct (mapCurrent s); [|reflexivity]. now destruct (supercluster s).
Qed.

Lemma update_shows (s : State) (m : Mapbox.Map) (index : Supercluster) :
  mapCurrent s = Some m -> supercluster s = Some index -> mapBounds s <> [] ->
  Tracked.consistent s m ->
  exists m',
    mapCurrent (updateClustersEffect getClusters s) = Some m'
    /\ Tracked.shown (updateClustersEffect getClusters s) m'
    /\ List.filter Tracked.unkeyed (Mapbox.markers m')
       = List.filter Tracked.unkeyed (Mapbox.markers m)
    /\ Mapbox.viewBounds m' = Mapbox.viewBounds m.
Proof.
  intros Hm Hi Hb Hc.
  destruct (update_keeps_consistent getClusters s m index Hm Hi Hb Hc)
    as (m' & E1 & E2 & E3 & E4 & _ & E6).
  destruct (update_frame s) as (_ & F & _).
  exists m'. split; [exact E1|]. split; [|split; [exact E3|exact E6]].
  split; [exact E2|]. exists (Mapbox.nextHandle m). now rewrite F.
Qed.

Lemma superclusterCommits_show (s : State) (m : Mapbox.Map) (index : Supercluster) :
  mapCurrent s = Some m -> supercluster s = Some index -> Tracked.consistent s m ->
  snd (superclusterCommits getClusters s) = true
  /\ supercluster (fst (superclusterCommits getClusters s)) = Some index
  /\ exists m',
       mapCurrent (fst (superclusterCommits getClusters s)) = Some m'
       /\ Tracked.shown (fst (superclusterCommits getClusters s)) m'
       /\ List.filter Tracked.unkeyed (Mapbox.markers m')
          = List.filter Tracked.unkeyed (Mapbox.markers m).
Proof.
  intros Hm Hi Hc. unfold superclusterCommits. rewrite Hm, Hi. cbn [fst snd].
  split; [reflexivity|].
  set (u := updateClustersEffect getClusters s).
  assert (exists mu, mapCurrent u = Some mu /\ Tracked.consistent u mu
                     /\ List.filter Tracked.unkeyed (Mapbox.markers mu)
                        = List.filter Tracked.unkeyed (Mapbox.markers m)) as (mu & U1 & U2 & U3).
  { destruct (mapBounds s) as [|b bs] eqn:Eb.
    - exists m. subst u. rewrite (update_idle s Eb). auto.
    - destruct (update_keeps_consistent getClusters s m index Hm Hi) as (mu & E1 & E2 & E3 & _);
        [congruence|exact Hc|]. exists mu. auto. }
  assert (supercluster u = Some index) as Ui.
  { subst u. destruct (update_frame s) as (-> & _). exact Hi. }
  set (s2 := setMapBounds (bboxArray (Mapbox.getBounds m)) u).
  destruct (update_frame s2) as (F & _). split; [now rewrite F|].
  destruct (update_shows s2 mu index) as (m' & E1 & E2 & E3 & _); try assumption.
  - discriminate.
  - destruct U2 as [A B C]. constructor; assumption.
  - exists m'. split; [exact E1|]. split; [exact E2|]. congruence.
Qed.

Lemma moveend_shows (s : State) (m : Mapbox.Map) (index : Supercluster)
    (v : Mapbox.Bbox * Js.number) :
  mapCurrent s = Some m -> supercluster s = Some index -> Tracked.consistent s m ->
  exists m',
    mapCurrent (moveend getClusters true s v) = Some m'
    /\ Tracked.shown (moveend getClusters true s v) m'
    /\ List.filter Tracked.unkeyed (Mapbox.markers m')
       = List.filter Tracked.unkeyed (Mapbox.markers m).
Proof.
  intros Hm Hi [H1 H2 H3]. unfold moveend. rewrite Hm. simpl.
  set (s1 := setMapBounds (bboxArray (fst v)) (setMap (Mapbox.withCamera (fst v) (snd v) m) s)).
  destruct (update_shows s1 (Mapbox.withCamera (fst v) (snd v) m) index)
    as (m' & E1 & E2 & E3 & _); try reflexivity.
  - exact Hi.
  - discriminate.
  - constructor; assumption.
  - exists m'. auto.
Qed.

Lemma moves_show (vs : list (Mapbox.Bbox * Js.number)) (s : State) (m : Mapbox.Map)
    (index : Supercluster) :
  mapCurrent s = Some m -> supercluster s = Some index -> Tracked.shown s m ->
  exists m',
    mapCurrent (moves getClusters true vs s) = Some m'
    /\ Tracked.shown (moves getClusters true vs s) m'
    /\ List.filter Tracked.unkeyed (Mapbox.markers m')
       = List.filter Tracked.unkeyed (Mapbox.markers m).
Proof.
  revert s m. induction vs as [|v vs IH]; intros s m Hm Hi Hc.
  - exists m. auto.
  - change (moves getClusters true (v :: vs) s)
      with (moves getClusters true vs (moveend getClusters true s v)).
    destruct (moveend_shows s m index v Hm Hi (proj1 Hc)) as (m1 & E1 & E2 & E3).
    destruct (IH (moveend getClusters true s v) m1 E1) as (m' & F1 & F2 & F3); [|exact E2|].
    + now rewrite moveend_supercluster.
    + exists m'. split; [exact F1|]. split; [exact F2|]. congruence.
Qed.

(** Without the listener, a camera history changes the camera only. *)
Lemma moves_unregistered (vs : list (Mapbox.Bbox * Js.number)) (s : State) (m : Mapbox.Map) :
  mapCurrent s = Some m ->
  markersRef (moves getClusters false vs s) = markersRef s
  /\ clusters (moves getClusters false vs s) = clusters s
  /\ mapBounds (moves getClusters false vs s) = mapBounds s
  /\ exists m',
       mapCurrent (moves getClusters false vs s) = Some m'
       /\ Mapbox.markers m' = Mapbox.markers m /\ Mapbox.calls m' = Mapbox.calls m.
Proof.
  revert s m. induction vs as [|v vs IH]; intros s m Hm.
  - repeat split; try reflexivity. exists m. auto.
  - change (moves getClusters false (v :: vs) s)
      with (moves getClusters false vs (moveend getClusters false s v)).
    assert (moveend getClusters false s v
            = setMap (Mapbox.withCamera (fst v) (snd v) m) s) as ->.
    { unfold moveend. now rewrite Hm. }
    destruct (IH (setMap (Mapbox.withCamera (fst v) (snd v) m) s)
                 (Mapbox.withCamera (fst v) (snd v) m) eq_refl)
      as (E1 & E2 & E3 & m' & E4 & E5 & E6).
    rewrite E1, E2, E3. repeat split; try reflexivity. exists m'. auto.
Qed.

End TrackedRuns.

(** X4.  The effect on [[supercluster]] registers the [moveend] listener
    when it runs with the map and the index in place.  Starting there from a
    state where [markersRef] holds exactly the location and cluster markers
    on the map, then and after any camera history the map carries one
    location or cluster marker per cluster last computed, with that cluster's
    key and coordinates and in the same order, [markersRef] holds exactly
    these markers, and the other markers of the map (the user's, a shared
    location's) are as they were: no marker leaks and none is duplicated.
    Where the listener was not registered, the same camera history leaves
    the markers, [markersRef] and the clusters as they were. *)
Theorem cluster_markers_match_clusters
    (getClusters : Clusters.Supercluster -> list Js.number -> Js.number -> list Clusters.Feature)
    (s : Clusters.State) (m : Mapbox.Map) (index : Clusters.Supercluster)
    (history : list (Mapbox.Bbox * Js.number)) :
  Clusters.mapCurrent s = Some m ->
  Clusters.supercluster s = Some index ->
  Tracked.consistent s m ->
  let started := Clusters.superclusterCommits getClusters s in
  let s' := Clusters.moves getClusters (snd started) history (fst started) in
  let idle := Clusters.moves getClusters false history s in
  snd started = true
  /\ (exists m',
        Clusters.mapCurrent s' = Some m'
        /\ Tracked.consistent s' m'
        /\ List.filter Tracked.unkeyed (Mapbox.markers m')
           = List.filter Tracked.unkeyed (Mapbox.markers m)
        /\ List.map (fun k => Clusters.keyOfElement (Mapbox.element k))
                    (List.filter Tracked.keyed (Mapbox.markers m'))
           = List.map (fun c => Some (Clusters.keyOf c)) (Clusters.clusters s')
        /\ List.map Mapbox.lngLat (List.filter Tracked.keyed (Mapbox.markers m'))
           = List.map Clusters.coordinatesOf (Clusters.clusters s'))
  /\ Clusters.markersRef idle = Clusters.markersRef s
  /\ Clusters.clusters idle = Clusters.clusters s
  /\ option_map Mapbox.markers (Clusters.mapCurrent idle) = Some (Mapbox.markers m).
Proof.
  intros Hm Hi Hc started s' idle. subst s' idle started.
  destruct (superclusterCommits_show getClusters s m index Hm Hi Hc)
    as (L & I1 & m1 & M1 & S1 & U1).
  rewrite L. split; [reflexivity|]. split.
  - destruct (moves_show getClusters history _ m1 index M1 I1 S1) as (m' & F1 & (F2 & n & F3) & F4).
    exists m'. split; [exact F1|]. split; [exact F2|]. split; [congruence|].
    rewrite F3. apply created_describes.
  - destruct (moves_unregistered getClusters history s m Hm) as (E1 & E2 & _ & m' & E4 & E5 & _).
    rewrite E4. simpl. rewrite E5. auto.
Qed.

Lemma cluster_markers_match_clusters_witness :
  exists m',
    Clusters.mapCurrent
      (Clusters.moves Samples.leavesOnly true
         [(Samples.downtown, Js.ofZ 12); (Samples.campus, Js.ofZ 16); (Samples.campus, Js.ofZ 17)]
         (Samples.rendered [Samples.library; Samples.union])) = Some m'
    /\ List.map (fun k => Clusters.keyOfElement (Mapbox.element k))
                (List.filter Tracked.keyed (Mapbox.markers m'))
       = [Some (Clusters.LocationKey "main-library"); Some (Clusters.LocationKey "student-union")].
Proof.
  destruct (cluster_markers_match_clusters Samples.leavesOnly
              (Samples.loaded [Samples.library; Samples.union]) Samples.emptyMap
              (Samples.indexOf (Samples.loaded [Samples.library; Samples.union]))
              [(Samples.downtown, Js.ofZ 12); (Samples.campus, Js.ofZ 16);
               (Samples.campus, Js.ofZ 17)] eq_refl eq_refl)
    as (_ & (m' & H1 & _ & _ & H4 & _) & _).
  - constructor; simpl; constructor.
  - exists m'. split; [exact H1|]. rewrite H4. reflexivity.
Defined.

(** ** Selecting a location from its marker *)

(** X5.  When the identifiers of the catalogue are distinct, clicking the
    marker of a catalogue entry selects that very entry, and flies to the
    marker's position at zoom 18. *)
Theorem location_marker_click_selects_its_entry (s : Clusters.State) (l : Clusters.CampusLocation) :
  List.NoDup (List.map Clusters.id (Clusters.locations s)) ->
  In l (Clusters.locations s) ->
  fst (Tracked.onLocationMarkerClick (Clusters.toPoint l) s) = Some l
  /\ snd (Tracked.onLocationMarkerClick (Clusters.toPoint l) s)
     = match Clusters.mapCurrent s with
       | Some m =>
           Some (Mapbox.flyTo {| Mapbox.lng := Clusters.longitude l;
                                 Mapbox.lat := Clusters.latitude l |} 18 m)
       | None => None
       end.
Proof.
  intros Hnd Hin. split; [|reflexivity]. simpl.
  induction (Clusters.locations s) as [|l0 ls IH]; [destruct Hin|].
  simpl in Hnd. apply List.NoDup_cons_iff in Hnd as [Hfresh Hnd]. simpl.
  destruct Hin as [->|Hin].
  - now rewrite String.eqb_refl.
  - destruct (String.eqb_spec (Clusters.id l0) (Clusters.id l)) as [Heq|_]; [|now apply IH].
    exfalso. apply Hfresh. rewrite Heq. now apply List.in_map.
Qed.

Lemma location_marker_click_selects_its_entry_witness :
  fst (Tracked.onLocationMarkerClick (Clusters.toPoint Samples.union)
         (Samples.loaded [Samples.library; Samples.union]))
  = Some Samples.union.
Proof.
  destruct (location_marker_click_selects_its_entry
              (Samples.loaded [Samples.library; Samples.union]) Samples.union) as [E _].
  - repeat constructor; simpl; intuition discriminate.
  - right. left. reflexivity.
  - exact E.
Defined.

(** ** Travel times for every network *)

(** X6.  With a token, whatever the three requests do, [getTravelTimes]
    returns one entry per profile, labelled Walk, Cycle and Drive in this
    order; the entry of a profile is computed from the reply to that
    profile's request alone, and its duration is null exactly when that
    request threw or returned no route. *)
Theorem travel_times_one_entry_per_profile (net : Routing.Request -> Routing.Outcome)
    (token : string) (from to : Follow.LatLng) :
  token <> "" ->
  let reply profile := net (Routing.directionsUrl profile from to token) in
  fst (Routing.run net (Routing.getTravelTimes token from to))
  = Some [ Routing.settledEntry {| Routing.profile := "walking"; Routing.mode_label := "Walk" |}
             (reply "walking");
           Routing.settledEntry {| Routing.profile := "cycling"; Routing.mode_label := "Cycle" |}
             (reply "cycling");
           Routing.settledEntry {| Routing.profile := "driving"; Routing.mode_label := "Drive" |}
             (reply "driving") ]
  /\ (forall mode o,
        Routing.label (Routing.settledEntry mode o) = Routing.mode_label mode
        /\ (Routing.duration (Routing.settledEntry mode o) = None
            <-> Replies.gaveNoRoute o = true)).
Proof.
  intros Htok reply. split.
  - unfold Routing.getTravelTimes. rewrite (truthy_nonempty token Htok). cbn [negb].
    rewrite run_bind, run_loop. reflexivity.
  - intros mode o. split; [reflexivity|].
    unfold Routing.settledEntry, Replies.gaveNoRoute. simpl.
    destruct o as [|data]; [tauto|]. destruct (Routing.firstRoute data); split; congruence.
Qed.

Lemma travel_times_one_entry_per_profile_witness :
  option_map (List.map Routing.duration)
    (fst (Routing.run Samples.cyclingDown
            (Routing.getTravelTimes "pk.token" Samples.here Samples.there)))
  = Some [Some (Js.ofZ 5); None; Some (Js.ofZ 2)].
Proof.
  destruct (travel_times_one_entry_per_profile Samples.cyclingDown "pk.token"
              Samples.here Samples.there ltac:(discriminate)) as [E _].
  rewrite E. reflexivity.
Defined.

(** *** The rounding of the division *)

Section NumberFacts.

Lemma pow2_pos (e : Z) : (0 < Js.pow2 e)%Q.
Proof. apply Qpower_0_lt. reflexivity. Qed.

Lemma pow2_le (a b : Z) : a <= b -> (Js.pow2 a <= Js.pow2 b)%Q.
Proof. intros H. apply Qpower_le_compat_l; [exact H | discriminate]. Qed.

Lemma pow2_add (a b : Z) : (Js.pow2 (a + b) == Js.pow2 a * Js.pow2 b)%Q.
Proof. apply Qpower_plus. discriminate. Qed.

Lemma pow2_quot (x y : Z) :
  0 <= x -> 0 <= y -> (Js.pow2 (x - y) == 2 ^ x # Z.to_pos (2 ^ y))%Q.
Proof.
  intros Hx Hy. unfold Z.sub. rewrite pow2_add. unfold Js.pow2 at 2. rewrite Qpower_opp.
  unfold Js.pow2. rewrite <- !(Zpower_Qpower 2) by assumption.
  rewrite (Qmake_Qdiv (2 ^ x)). rewrite Z2Pos.id by (apply Z.pow_pos_nonneg; lia).
  reflexivity.
Qed.

(** [binade] finds the power of two at or below a positive rational,
    however the rational is written. *)
Lemma binade_spec (a : Q) :
  (0 < a)%Q -> (Js.pow2 (Js.binade a) <= a)%Q /\ (a < Js.pow2 (Js.binade a + 1))%Q.
Proof.
  destruct a as [n d]. intros Ha.
  assert (0 < n) as Hn by (unfold Qlt in Ha; simpl in Ha; lia).
  unfold Js.binade. cbn [Qnum Qden].
  destruct (Z.log2_spec n Hn) as [Hn1 Hn2].
  destruct (Z.log2_spec (Z.pos d) (Pos2Z.is_pos d)) as [Hd1 Hd2].
  pose proof (Z.log2_nonneg n) as Ln. pose proof (Z.log2_nonneg (Z.pos d)) as Ld.
  set (ln := Z.log2 n) in *. set (ld := Z.log2 (Z.pos d)) in *.
  rewrite Z.pow_succ_r in Hn2, Hd2 by assumption.
  assert (0 < 2 ^ ln) as Pn by (apply Z.pow_pos_nonneg; lia).
  assert (0 < 2 ^ ld) as Pd by (apply Z.pow_pos_nonneg; lia).
  destruct (Qle_bool (Js.pow2 (ln - ld)) (n # d)) eqn:E.
  - split; [apply Qle_bool_iff, E|].
    replace (ln - ld + 1) with ((ln + 1) - ld) by lia.
    rewrite pow2_quot by lia. unfold Qlt. cbn [Qnum Qden].
    rewrite Z2Pos.id by assumption. rewrite Z.pow_add_r by lia.
    change (2 ^ 1) with 2. nia.
  - split.
    + replace (ln - ld - 1) with (ln - (ld + 1)) by lia.
      rewrite pow2_quot by lia. unfold Qle. cbn [Qnum Qden].
      rewrite Z2Pos.id by (apply Z.pow_pos_nonneg; lia). rewrite Z.pow_add_r by lia.
      change (2 ^ 1) with 2. nia.
    + replace (ln - ld - 1 + 1) with (ln - ld) by lia.
      apply Qnot_le_lt. intros H. apply Qle_bool_iff in H. congruence.
Qed.

Lemma roundHalfEven_near (t : Q) :
  (t - (1 # 2) <= inject_Z (Js.roundHalfEven t))%Q
  /\ (inject_Z (Js.roundHalfEven t) <= t + (1 # 2))%Q.
Proof.
  unfold Js.roundHalfEven.
  pose proof (Qfloor_le t) as Hle. pose proof (Qlt_floor t) as Hlt.
  rewrite inject_Z_plus in Hlt. change (inject_Z 1) with 1%Q in Hlt.
  destruct (Qcompare_spec (t - inject_Z (Qfloor t)) (1 # 2)) as [H|H|H].
  - destruct (Z.even (Qfloor t)); rewrite ?inject_Z_plus; change (inject_Z 1) with 1%Q;
      split; lra.
  - split; lra.
  - rewrite inject_Z_plus. change (inject_Z 1) with 1%Q. split; lra.
Qed.

Lemma inject_Z_nonneg (m : Z) : (- (1 # 2) <= inject_Z m)%Q -> 0 <= m.
Proof. unfold Qle. simpl. lia. Qed.

(** The binary64 value of a positive rational below [2^1023] is finite and
    not negative; it is within the relative error [2^-53] of the rational,
    unless the rational is below [2^-1022], where the value is at most
    [2^-1021]. *)
Lemma binary64_near (x : Q) :
  (0 < x)%Q -> (x < Js.pow2 1023)%Q ->
  exists r : Q,
    Js.binary64 x = Js.Finite r /\ (0 <= r)%Q
    /\ ((x - x * Js.unitRoundoff <= r /\ r <= x + x * Js.unitRoundoff)%Q
        \/ (x < Js.pow2 (-1022) /\ r <= Js.pow2 (-1021))%Q).
Proof.
  intros Hx Hb. unfold Js.binary64.
  assert ((x ?= 0)%Q = Gt) as Hc by (apply Qgt_alt; exact Hx).
  rewrite Hc.
  assert (Qabs x == x)%Q as Ha by (apply Qabs_pos; lra).
  assert (0 < Qabs x)%Q as Hpos by (rewrite Ha; exact Hx).
  destruct (binade_spec (Qabs x) Hpos) as [Hlo Hhi].
  set (a := Qabs x) in *.
  set (e := Z.max (Js.binade a) (-1022)).
  pose proof (pow2_pos (e - 52)) as Hu.
  set (ulp := Js.pow2 (e - 52)) in *.
  destruct (roundHalfEven_near (a / ulp)) as [Hm1 Hm2].
  set (m := Js.roundHalfEven (a / ulp)) in *.
  assert (a / ulp * ulp == a)%Q as Hau by (field; lra).
  assert (a - ulp * (1 # 2) <= inject_Z m * ulp)%Q as Hr1.
  { apply (Qmult_le_compat_r _ _ ulp) in Hm1; [|lra]. lra. }
  assert (inject_Z m * ulp <= a + ulp * (1 # 2))%Q as Hr2.
  { apply (Qmult_le_compat_r _ _ ulp) in Hm2; [|lra]. lra. }
  assert (0 <= m) as Hm0.
  { apply inject_Z_nonneg.
    assert (0 <= a / ulp)%Q by (apply Qle_shift_div_l; lra). lra. }
  assert (0 <= inject_Z m * ulp)%Q as Hr0.
  { apply Qmult_le_0_compat; [|lra]. change (inject_Z 0 <= inject_Z m)%Q.
    rewrite <- Zle_Qle. exact Hm0. }
  assert (Js.binade a < 1023) as He.
  { apply (Qpower_lt_compat_l_inv (2 # 1)); [|reflexivity].
    apply Qle_lt_trans with a; [exact Hlo|]. rewrite Ha. exact Hb. }
  assert ((ulp * (1 # 2) <= a * Js.unitRoundoff)%Q
          \/ (Js.binade a < -1022 /\ (ulp == Js.pow2 (-1074))%Q)) as Hulp.
  { destruct (Z_lt_le_dec (Js.binade a) (-1022)) as [Hs|Hn].
    - right. split; [exact Hs|]. unfold ulp, e. rewrite Z.max_r by lia. reflexivity.
    - left. unfold ulp, e. rewrite Z.max_l by lia.
      replace (Js.binade a - 52) with (Js.binade a + (-52)) by lia. rewrite pow2_add.
      assert (Js.pow2 (-52) * (1 # 2) == Js.unitRoundoff)%Q as Hk by reflexivity.
      rewrite <- Qmult_assoc, Hk.
      apply Qmult_le_compat_r; [exact Hlo|]. discriminate. }
  assert (inject_Z m * ulp < Js.pow2 1024)%Q as Hfin.
  { destruct Hulp as [Hn|[Hs Hv]].
    - apply Qle_lt_trans with (a + a * Js.unitRoundoff)%Q; [lra|].
      rewrite Ha.
      apply Qlt_le_trans with (Js.pow2 1023 + Js.pow2 1023 * Js.unitRoundoff)%Q.
      + assert (0 < Js.unitRoundoff)%Q by reflexivity. nra.
      + vm_compute. discriminate.
    - apply Qle_lt_trans with (a + ulp * (1 # 2))%Q; [exact Hr2|].
      rewrite Hv, Ha.
      apply Qlt_le_trans with (Js.pow2 1023 + Js.pow2 (-1074) * (1 # 2))%Q; [lra|].
      vm_compute. discriminate. }
  assert (Qle_bool (Js.pow2 1024) (inject_Z m * ulp) = false) as Hov.
  { destruct (Qle_bool (Js.pow2 1024) (inject_Z m * ulp)) eqn:E; [|reflexivity].
    apply Qle_bool_iff in E. lra. }
  rewrite Hov. eexists. split; [reflexivity|]. rewrite Qred_correct.
  split; [exact Hr0|].
  destruct Hulp as [Hn|[Hs Hv]].
  - left. rewrite <- Ha. split; lra.
  - right. assert (a < Js.pow2 (-1022))%Q as Hsmall.
    { apply Qlt_le_trans with (Js.pow2 (Js.binade a + 1)); [exact Hhi|]. apply pow2_le. lia. }
    split; [rewrite <- Ha; exact Hsmall|].
    apply Qle_trans with (a + ulp * (1 # 2))%Q; [exact Hr2|]. rewrite Hv.
    apply Qle_trans with (Js.pow2 (-1022) + Js.pow2 (-1074) * (1 # 2))%Q; [lra|].
    vm_compute. discriminate.
Qed.

End NumberFacts.

Example binary64_of_a_third :
  Js.binary64 (1 # 3) = Js.Finite (6004799503160661 # 18014398509481984).
Proof. vm_compute. reflexivity. Qed.

Example binary64_limits :
  Js.binary64 (inject_Z (2 ^ 1024 - 2 ^ 970)) = Js.Infinity false
  /\ Js.isFinite (Js.binary64 (inject_Z (2 ^ 1024 - 2 ^ 970 - 1))) = true
  /\ Js.binary64 (1 # Z.to_pos (2 ^ 1075)) = Js.Finite 0
  /\ Js.binary64 (3 # Z.to_pos (2 ^ 1076)) = Js.Finite (1 # Z.to_pos (2 ^ 1074)).
Proof. vm_compute. auto. Qed.

(** X7.  The minutes reported for a route are a whole number within half
    a minute of the route's duration, up to the rounding of the division:
    for a duration of [q] seconds, not negative and below [2^1024], the
    entry holds an integer [n], not negative, with
    [q - q * 2^-53 - 30 < 60 n <= q + q * 2^-53 + 30]. *)
Theorem travel_minutes_are_nearest (mode : Routing.Mode) (data : Routing.Directions)
    (route : Routing.Route) (q : Q) :
  Routing.firstRoute data = Some route ->
  Routing.route_duration route = Js.Finite q ->
  (0 <= q)%Q -> (q < Js.pow2 1024)%Q ->
  exists n : Z,
    Routing.duration (Routing.settledEntry mode (Routing.Responds data))
    = Some (Js.Finite (inject_Z n))
    /\ 0 <= n
    /\ (q - q * Js.unitRoundoff - 30 < inject_Z (60 * n))%Q
    /\ (inject_Z (60 * n) <= q + q * Js.unitRoundoff + 30)%Q.
Proof.
  intros Hr Hq H0 Hb. unfold Routing.settledEntry. simpl. rewrite Hr, Hq. simpl.
  assert (Js.pow2 1024 == 60 * Js.pow2 1023 - 58 * Js.pow2 1023)%Q as Hp
    by (vm_compute; reflexivity).
  pose proof (pow2_pos 1023) as Hp0.
  assert (Js.pow2 (-1022) <= 1 # 4)%Q as Ht1 by (vm_compute; discriminate).
  assert (Js.pow2 (-1021) <= 1 # 4)%Q as Ht2 by (vm_compute; discriminate).
  change Js.unitRoundoff with (1 # 9007199254740992)%Q.
  destruct (Qle_lt_or_eq _ _ H0) as [Hpos|Hz].
  - assert (q == 60 * (q / inject_Z 60))%Q as Hy by (field; discriminate).
    destruct (binary64_near (q / inject_Z 60)) as (r & E & Hr0 & Hnear).
    { apply Qlt_shift_div_l; [reflexivity|]. lra. }
    { lra. }
    rewrite E. cbn [Js.Math_round].
    pose proof (Qfloor_le (r + (1 # 2))) as Hle. pose proof (Qlt_floor (r + (1 # 2))) as Hlt.
    set (n := Qfloor (r + (1 # 2))) in *.
    assert (0 <= n) as Hn.
    { apply inject_Z_nonneg. rewrite inject_Z_plus in Hlt.
      change (inject_Z 1) with 1%Q in Hlt. lra. }
    exists n. split; [reflexivity|]. split; [exact Hn|].
    rewrite inject_Z_mult. change (inject_Z 60) with 60%Q in *.
    change Js.unitRoundoff with (1 # 9007199254740992)%Q in Hnear.
    destruct Hnear as [[L U]|[S T]].
    + rewrite inject_Z_plus in Hlt. change (inject_Z 1) with 1%Q in Hlt.
      revert Hy L U. generalize (q / 60)%Q. intros y Hy L U. split; lra.
    + assert (n < 1) as Hn1.
      { rewrite Zlt_Qlt. change (inject_Z 1) with 1%Q. lra. }
      assert (n = 0) as -> by lia. change (inject_Z 0) with 0%Q.
      revert Hy S. generalize (q / 60)%Q. intros y Hy S. split; lra.
  - assert ((q / inject_Z 60 ?= 0)%Q = Eq) as Hc.
    { apply Qeq_alt. rewrite <- Hz. reflexivity. }
    unfold Js.binary64. rewrite Hc. exists 0. split; [reflexivity|]. split; [lia|].
    change (inject_Z (60 * 0)) with 0%Q. split; lra.
Qed.

Lemma travel_minutes_are_nearest_witness :
  exists n : Z,
    Routing.duration
      (Routing.settledEntry {| Routing.profile := "walking"; Routing.mode_label := "Walk" |}
         (Routing.Responds (Samples.oneRoute 290)))
    = Some (Js.Finite (inject_Z n))
    /\ 0 <= n
    /\ (inject_Z 290 - inject_Z 290 * Js.unitRoundoff - 30 < inject_Z (60 * n))%Q
    /\ (inject_Z (60 * n) <= inject_Z 290 + inject_Z 290 * Js.unitRoundoff + 30)%Q.
Proof.
  apply (travel_minutes_are_nearest
           {| Routing.profile := "walking"; Routing.mode_label := "Walk" |}
           (Samples.oneRoute 290) (Samples.route 290) (inject_Z 290));
    [reflexivity | reflexivity | vm_compute; discriminate | vm_compute; reflexivity].
Defined.

(** A duration of [2^60 + 256] seconds: the quotient is rounded to a
    multiple of four, and sixty times the minutes reported is 32 seconds
    away from the duration. *)
Example travel_minutes_of_a_long_route :
  Routing.duration
    (Routing.settledEntry {| Routing.profile := "driving"; Routing.mode_label := "Drive" |}
       (Routing.Responds (Samples.oneRoute (2 ^ 60 + 256))))
  = Some (Js.ofZ 19215358410114120)
  /\ 2 ^ 60 + 256 - 60 * 19215358410114120 = 32.
Proof. vm_compute. auto. Qed.

(** ** Asking for directions *)

Lemma exec_loop_length (token : string) (from to : Follow.LatLng)
    (net : Routing.Request -> option Routing.Outcome) (todo : list Routing.Mode)
    (results : list Routing.TravelTime) :
  forall r, fst (Routing.exec net (Routing.travelTimesLoop token from to todo results)) = Some r ->
            length r = (length results + length todo)%nat.
Proof.
  revert results. induction todo as [|mode rest IH]; intros results r.
  - simpl. intros [= <-]. lia.
  - rewrite exec_loop_cons.
    destruct (net _) as [o|]; simpl; [|discriminate].
    intros H. apply IH in H. rewrite H, length_app. simpl. lia.
Qed.

(** X8.  Without a user position, or before the map exists, asking for
    directions sends no routing request and draws nothing: it opens Google
    Maps once for the destination, in a new tab, and shows the Directions
    toast for three seconds. *)
Theorem directions_fall_back_to_google_maps (net : Routing.Request -> option Routing.Outcome)
    (userLocation : option Follow.LatLng) (mapReady : bool) (mapboxToken : string)
    (location : Clusters.CampusLocation) (u : Routing.Shell) :
  userLocation = None \/ mapReady = false ->
  Routing.exec net (Routing.handleGetDirections userLocation mapReady mapboxToken location u)
  = (Some {| Routing.toasts :=
               Routing.toasts u
               ++ [{| Routing.title := "Directions";
                      Routing.description := Routing.Text "Opening directions in Google Maps";
                      Routing.toast_duration := 3000 |}];
             Routing.opened :=
               Routing.opened u
               ++ [{| Routing.destination_lat := Clusters.latitude location;
                      Routing.destination_lng := Clusters.longitude location;
                      Routing.target := "_blank" |}];
             Routing.detached := Routing.detached u |}, []).
Proof.
  intros [-> | ->]; unfold Routing.handleGetDirections; [reflexivity|].
  destruct userLocation; reflexivity.
Qed.

Lemma directions_fall_back_to_google_maps_witness :
  option_map (fun u => List.map Routing.title (Routing.toasts u))
    (fst (Routing.exec Samples.walkingPending
            (Routing.handleGetDirections None true "pk.token" Samples.library
               {| Routing.toasts := []; Routing.opened := []; Routing.detached := [] |})))
  = Some ["Directions"].
Proof.
  rewrite (directions_fall_back_to_google_maps Samples.walkingPending None true "pk.token"
             Samples.library _ (or_introl eq_refl)).
  reflexivity.
Defined.

(** X9.  With a user position, the map and a token, asking for directions
    starts the driving request of [drawRoute] without waiting for it, then
    awaits the three travel-time requests one after the other; it opens no
    window.  It shows one toast, holding three travel times, once all three
    requests have settled, and shows nothing as long as one of them has not. *)
Theorem directions_toast_after_all_replies (net : Routing.Request -> option Routing.Outcome)
    (me : Follow.LatLng) (mapboxToken : string) (location : Clusters.CampusLocation)
    (u : Routing.Shell) :
  mapboxToken <> "" ->
  let dest := {| Follow.lat := Clusters.latitude location;
                 Follow.lng := Clusters.longitude location |} in
  let url profile := Routing.directionsUrl profile me dest mapboxToken in
  let done := Routing.exec net
                (Routing.handleGetDirections (Some me) true mapboxToken location u) in
  (fst done <> None
   <-> net (url "walking") <> None /\ net (url "cycling") <> None /\ net (url "driving") <> None)
  /\ (forall u', fst done = Some u' ->
        exists times,
          length times = 3%nat
          /\ Routing.toasts u'
             = Routing.toasts u
               ++ [{| Routing.title := "Estimated Travel Times";
                      Routing.description := Routing.TravelTimesText times;
                      Routing.toast_duration := 7000 |}]
          /\ Routing.detached u' = Routing.detached u ++ [url "driving"]
          /\ Routing.opened u' = Routing.opened u).
Proof.
  intros Htok dest url done. subst done url dest.
  unfold Routing.handleGetDirections, Routing.getTravelTimes, Routing.drawRoute.
  rewrite (truthy_nonempty mapboxToken Htok). cbn [negb orb Routing.detach].
  rewrite !exec_bind.
  set (dest := {| Follow.lat := Clusters.latitude location;
                  Follow.lng := Clusters.longitude location |}).
  pose proof (exec_loop_returns mapboxToken me dest net Routing.modes []) as Hret.
  pose proof (exec_loop_length mapboxToken me dest net Routing.modes []) as Hlen.
  set (loop := Routing.travelTimesLoop mapboxToken me dest Routing.modes []) in *.
  destruct (Routing.exec net loop) as [[results|] t]; cbn [fst snd] in Hret, Hlen; simpl.
  - split.
    + split; [|discriminate]. intros _. assert (Hall := proj1 Hret ltac:(discriminate)).
      split; [|split].
      * apply (Hall {| Routing.profile := "walking"; Routing.mode_label := "Walk" |}); simpl; auto.
      * apply (Hall {| Routing.profile := "cycling"; Routing.mode_label := "Cycle" |}); simpl; auto.
      * apply (Hall {| Routing.profile := "driving"; Routing.mode_label := "Drive" |}); simpl; auto.
    + intros u' [= <-]. exists results. simpl. split; [now apply (Hlen results)|auto].
  - split; [|discriminate]. split; [congruence|].
    intros (Hw & Hc & Hd). exfalso. apply (proj2 Hret); [|reflexivity].
    intros m Hm. simpl in Hm. destruct Hm as [<-|[<-|[<-|[]]]]; assumption.
Qed.

Lemma directions_toast_after_all_replies_witness :
  fst (Routing.exec Samples.walkingPending
         (Routing.handleGetDirections (Some Samples.here) true "pk.token" Samples.library
            {| Routing.toasts := []; Routing.opened := []; Routing.detached := [] |}))
  = None.
Proof.
  destruct (directions_toast_after_all_replies Samples.walkingPending Samples.here "pk.token"
              Samples.library
              {| Routing.toasts := []; Routing.opened := []; Routing.detached := [] |}
              ltac:(discriminate)) as [[H _] _].
  destruct (fst _) eqn:E; [|reflexivity].
  exfalso. destruct (H ltac:(discriminate)) as [Hw _]. now apply Hw.
Defined.

(** ** The route overlay over successive replies *)

Section OverlayFacts.

Lemma settleAll_snoc (os : list Routing.Outcome) (o : Routing.Outcome) (m : Mapbox.Map) :
  Replies.settleAll (os ++ [o]) m = Routing.drawRouteSettled o (Replies.settleAll os m).
Proof. unfold Replies.settleAll. now rewrite fold_left_app. Qed.

Lemma lastRoute_snoc (os : list Routing.Outcome) (o : Routing.Outcome) :
  Replies.lastRoute (os ++ [o])
  = match o with
    | Routing.Responds data =>
        match Routing.firstRoute data with
        | Some r => Some r
        | None => Replies.lastRoute os
        end
    | Routing.Throws => Replies.lastRoute os
    end.
Proof. unfold Replies.lastRoute. now rewrite fold_left_app. Qed.

(** One reply with a route, on any map. *)
Lemma drawRouteThen_state (m : Mapbox.Map) (data : Routing.Directions) (route : Routing.Route) :
  Routing.firstRoute data = Some route ->
  Mapbox.sources (Routing.drawRouteThen data m)
  = <["route" := Routing.route_geometry route]> (Mapbox.sources m)
  /\ Mapbox.layers (Routing.drawRouteThen data m)
     = <["route" := Routing.routeLayer]> (Mapbox.layers m)
  /\ Mapbox.markers (Routing.drawRouteThen data m) = Mapbox.markers m.
Proof.
  intros Hroute. unfold Routing.drawRouteThen. rewrite Hroute.
  unfold Mapbox.getLayer, Mapbox.getSource.
  destruct (Mapbox.layers m !! "route") as [l|] eqn:El; simpl;
    destruct (Mapbox.sources m !! "route") as [g|] eqn:Es; simpl;
    rewrite ?El, ?Es; simpl; rewrite ?insert_delete_eq; auto.
Qed.

End OverlayFacts.

(** X10.  After any sequence of replies to [drawRoute] requests, applied
    in the order they arrive, the map shows the route of the last reply that
    had one, as the single source and layer named route, whichever request
    that reply answers; replies that threw or had no route change nothing;
    and the markers are untouched throughout. *)
Theorem overlay_shows_last_route (os : list Routing.Outcome) (m : Mapbox.Map) :
  Mapbox.sources (Replies.settleAll os m)
  = match Replies.lastRoute os with
    | Some route => <["route" := Routing.route_geometry route]> (Mapbox.sources m)
    | None => Mapbox.sources m
    end
  /\ Mapbox.layers (Replies.settleAll os m)
     = match Replies.lastRoute os with
       | Some _ => <["route" := Routing.routeLayer]> (Mapbox.layers m)
       | None => Mapbox.layers m
       end
  /\ Mapbox.markers (Replies.settleAll os m) = Mapbox.markers m.
Proof.
  induction os as [|o os IH] using rev_ind; [auto|].
  destruct IH as (Es & El & Ek).
  rewrite settleAll_snoc, lastRoute_snoc.
  destruct o as [|data]; simpl; [auto|].
  destruct (Routing.firstRoute data) as [route|] eqn:Hr.
  - destruct (drawRouteThen_state (Replies.settleAll os m) data route Hr) as (Fs & Fl & Fk).
    rewrite Fs, Fl, Fk, Es, El, Ek.
    destruct (Replies.lastRoute os); rewrite ?insert_insert_eq; auto.
  - unfold Routing.drawRouteThen. rewrite Hr. auto.
Qed.

Example overlay_after_three_replies :
  Mapbox.sources
    (Replies.settleAll [Routing.Responds (Samples.oneRoute 95); Routing.Throws;
                        Routing.Responds {| Routing.routes := Some [] |}] Samples.emptyMap)
  !! "route" = Some (Routing.route_geometry (Samples.route 95)).
Proof.
  destruct (overlay_shows_last_route
              [Routing.Responds (Samples.oneRoute 95); Routing.Throws;
               Routing.Responds {| Routing.routes := Some [] |}] Samples.emptyMap) as [E _].
  rewrite E. simpl. apply lookup_insert_eq.
Qed.

(** ** The shared location while the user moves *)

Section SharedViewFacts.


End SharedViewFacts.


Example shared_marker_piles_up :
  option_map (fun m => length (Mapbox.markers m))
    (SharedView.showOnEachPosition (Some Samples.there)
       [Samples.here; Samples.here; Samples.here] (Some Samples.emptyMap))
  = Some 3%nat.
Proof. reflexivity. Qed.

(** ** Searching the catalogue *)

Section SearchFacts.

Import Search.

Lemma append_cons (c : ascii) (s t : string) :
  String.append (String c s) t = String c (String.append s t).
Proof. reflexivity. Qed.

Lemma append_nil_l (t : string) : String.append "" t = t.
Proof. reflexivity. Qed.

Lemma append_assoc (s t u : string) :
  String.append (String.append s t) u = String.append s (String.append t u).
Proof.
  induction s as [|c s IH]; [reflexivity|]. now rewrite !append_cons, IH.
Qed.

Lemma prefix_cons (c d : ascii) (p s : string) :
  String.prefix (String c p) (String d s) = (Ascii.eqb c d && String.prefix p s)%bool.
Proof.
  simpl. destruct (Ascii.ascii_dec c d) as [->|Hne].
  - now rewrite Ascii.eqb_refl.
  - apply Ascii.eqb_neq in Hne. now rewrite Hne.
Qed.

Lemma prefix_iff (p s : string) :
  String.prefix p s = true <-> exists post, s = String.append p post.
Proof.
  revert s. induction p as [|c p IH]; intros s.
  - split; [intros _; now exists s|intros _; now destruct s].
  - destruct s as [|d s].
    + simpl. split; [discriminate|]. intros (post & H). rewrite append_cons in H. discriminate.
    + rewrite prefix_cons, Bool.andb_true_iff, Ascii.eqb_eq, IH. split.
      * intros (-> & post & ->). now exists post.
      * intros (post & H). rewrite append_cons in H. injection H as -> ->. eauto.
Qed.

(** [includes] is the substring relation. *)
Lemma includes_iff (s sub : string) :
  includes s sub = true
  <-> exists pre post, s = String.append pre (String.append sub post).
Proof.
  induction s as [|c s IH].
  - cbn [includes]. rewrite Bool.orb_false_r. split.
    + destruct sub; [|discriminate]. intros _. now exists "", "".
    + intros (pre & post & H). destruct pre; [|discriminate].
      rewrite append_nil_l in H. destruct sub; [reflexivity|discriminate].
  - cbn [includes]. rewrite Bool.orb_true_iff, prefix_iff, IH. split.
    + intros [(post & ->) | (pre & post & ->)].
      * now exists "", post.
      * now exists (String c pre), post.
    + intros (pre & post & H). destruct pre as [|d pre].
      * left. exists post. now rewrite append_nil_l in H.
      * right. rewrite append_cons in H. injection H as -> ->. eauto.
Qed.

Lemma asciiLowerCase_append (s t : string) :
  asciiLowerCase (String.append s t) = String.append (asciiLowerCase s) (asciiLowerCase t).
Proof.
  induction s as [|c s IH]; [reflexivity|].
  rewrite append_cons. simpl. now rewrite IH, append_cons.
Qed.

Lemma lowerChar_idem (c : ascii) : lowerChar (lowerChar c) = lowerChar c.
Proof.
  unfold lowerChar.
  destruct ((65 <=? nat_of_ascii c) && (nat_of_ascii c <=? 90))%nat eqn:E; [|now rewrite E].
  apply andb_prop in E as [E1 E2]. apply Nat.leb_le in E1, E2.
  rewrite nat_ascii_embedding by lia.
  replace ((nat_of_ascii c + 32 <=? 90)%nat) with false
    by (symmetry; apply Nat.leb_gt; lia).
  now rewrite Bool.andb_false_r.
Qed.

Lemma asciiLowerCase_idem (s : string) : asciiLowerCase (asciiLowerCase s) = asciiLowerCase s.
Proof. induction s as [|c s IH]; simpl; [reflexivity|]. now rewrite lowerChar_idem, IH. Qed.

Lemma lowerChar_ascii (c : ascii) :
  Js.isAsciiChar c = true -> Js.isAsciiChar (lowerChar c) = true.
Proof.
  unfold Js.isAsciiChar, lowerChar. intros H.
  destruct ((65 <=? nat_of_ascii c) && (nat_of_ascii c <=? 90))%nat eqn:E; [|exact H].
  apply andb_prop in E as [E1 E2]. apply Nat.leb_le in E1, E2.
  rewrite nat_ascii_embedding by lia. apply Nat.ltb_lt. lia.
Qed.

Lemma asciiLowerCase_ascii (s : string) :
  Js.isAscii s = true -> Js.isAscii (asciiLowerCase s) = true.
Proof.
  induction s as [|c s IH]; simpl; [auto|]. intros H. apply andb_prop in H as [H1 H2].
  now rewrite (lowerChar_ascii c H1), (IH H2).
Qed.

Lemma isAscii_append (s t : string) :
  Js.isAscii (String.append s t) = Js.isAscii s && Js.isAscii t.
Proof.
  induction s as [|c s IH]; [reflexivity|].
  rewrite append_cons. simpl. now rewrite IH, Bool.andb_assoc.
Qed.

Lemma includes_empty (s : string) : includes s "" = true.
Proof. destruct s; reflexivity. Qed.

Variable toLowerCase : string -> string.
Hypothesis toLowerCase_ascii : lowersAscii toLowerCase.

(** On ASCII names and queries the predicate of the filter is the one
    written with the ASCII case mapping. *)
Lemma matches_ascii (searchQuery : string) (activeCategory : option string)
    (l : Clusters.CampusLocation) :
  Js.isAscii searchQuery = true -> Js.isAscii (Clusters.name l) = true ->
  matches toLowerCase searchQuery activeCategory l
  = matches asciiLowerCase searchQuery activeCategory l.
Proof. intros Hq Hn. unfold matches. now rewrite !toLowerCase_ascii. Qed.

Lemma filteredLocations_ascii (searchQuery : string) (activeCategory : option string)
    (locations : list Clusters.CampusLocation) :
  Js.isAscii searchQuery = true -> asciiNames locations = true ->
  filteredLocations toLowerCase searchQuery activeCategory locations
  = filteredLocations asciiLowerCase searchQuery activeCategory locations.
Proof.
  intros Hq Hn. unfold filteredLocations, asciiNames in *.
  induction locations as [|l ls IH]; [reflexivity|].
  simpl in Hn. apply andb_prop in Hn as [H1 H2]. simpl.
  now rewrite (matches_ascii _ _ l Hq H1), (IH H2).
Qed.

End SearchFacts.

(** X12.  For a catalogue of ASCII names and an ASCII query, the search
    results are the catalogue entries, in catalogue order, whose name
    contains the query somewhere, letter case aside; the empty query with no
    category gives back the whole catalogue, and lowering the case of the
    query changes nothing. *)
Theorem search_ignores_case_and_keeps_order (toLowerCase : string -> string)
    (searchQuery : string) (locations : list Clusters.CampusLocation) :
  Search.lowersAscii toLowerCase ->
  Js.isAscii searchQuery = true ->
  Search.asciiNames locations = true ->
  (forall l, In l (Search.filteredLocations toLowerCase searchQuery None locations)
             <-> In l locations
                 /\ exists pre post,
                      Search.asciiLowerCase (Clusters.name l)
                      = String.append pre
                          (String.append (Search.asciiLowerCase searchQuery) post))
  /\ sublist (Search.filteredLocations toLowerCase searchQuery None locations) locations
  /\ Search.filteredLocations toLowerCase "" None locations = locations
  /\ Search.filteredLocations toLowerCase (toLowerCase searchQuery) None locations
     = Search.filteredLocations toLowerCase searchQuery None locations.
Proof.
  intros Hlow Hq Hn.
  assert (Js.isAscii (toLowerCase searchQuery) = true) as Hq'.
  { rewrite (Hlow _ Hq). now apply asciiLowerCase_ascii. }
  rewrite !(filteredLocations_ascii toLowerCase Hlow) by (assumption || reflexivity).
  rewrite (Hlow _ Hq).
  unfold Search.filteredLocations. split; [|split; [|split]].
  - intros l. rewrite List.filter_In. unfold Search.matches. simpl.
    rewrite Bool.andb_true_r, includes_iff. reflexivity.
  - clear Hn. induction locations as [|l ls IH]; simpl; [constructor|].
    destruct (Search.matches Search.asciiLowerCase searchQuery None l); now constructor.
  - clear Hn. induction locations as [|l ls IH]; simpl; [reflexivity|].
    unfold Search.matches at 1. simpl. rewrite includes_empty. simpl. now rewrite IH.
  - unfold Search.matches. now rewrite asciiLowerCase_idem.
Qed.

Lemma search_ignores_case_and_keeps_order_witness :
  Search.filteredLocations Search.asciiLowerCase "LIBRARY" None [Samples.library; Samples.union]
  = Search.filteredLocations Search.asciiLowerCase "library" None
      [Samples.library; Samples.union].
Proof.
  destruct (search_ignores_case_and_keeps_order Search.asciiLowerCase "LIBRARY"
              [Samples.library; Samples.union] (fun s _ => eq_refl) eq_refl eq_refl)
    as (_ & _ & _ & H).
  symmetry. exact H.
Defined.

(** X13.  For a catalogue of ASCII names, typing more never adds results:
    whenever a query occurs inside a longer ASCII query, every result of the
    longer query is a result of the shorter one, for the same category. *)
Theorem longer_query_narrows_results (toLowerCase : string -> string)
    (pre searchQuery post : string)
    (activeCategory : option string) (locations : list Clusters.CampusLocation)
    (l : Clusters.CampusLocation) :
  Search.lowersAscii toLowerCase ->
  Js.isAscii (String.append pre (String.append searchQuery post)) = true ->
  Search.asciiNames locations = true ->
  In l (Search.filteredLocations toLowerCase (String.append pre (String.append searchQuery post))
          activeCategory locations) ->
  In l (Search.filteredLocations toLowerCase searchQuery activeCategory locations).
Proof.
  intros Hlow Hlong Hn.
  assert (Js.isAscii searchQuery = true) as Hq.
  { rewrite !isAscii_append in Hlong. apply andb_prop in Hlong as [_ H].
    now apply andb_prop in H as [H _]. }
  rewrite !(filteredLocations_ascii toLowerCase Hlow) by assumption.
  unfold Search.filteredLocations. rewrite !List.filter_In. intros [Hin Hm].
  split; [exact Hin|]. unfold Search.matches in *.
  apply andb_prop in Hm as [Hm Hc]. rewrite Hc, Bool.andb_true_r.
  apply includes_iff in Hm as (a & b & Hm). apply includes_iff.
  rewrite !asciiLowerCase_append in Hm.
  exists (String.append a (Search.asciiLowerCase pre)),
         (String.append (Search.asciiLowerCase post) b).
  now rewrite Hm, !append_assoc.
Qed.

Lemma longer_query_narrows_results_witness :
  In Samples.library
     (Search.filteredLocations Search.asciiLowerCase "LIB" None [Samples.library; Samples.union]).
Proof.
  apply (longer_query_narrows_results Search.asciiLowerCase "main " "LIB" "rary" None
           [Samples.library; Samples.union] Samples.library (fun s _ => eq_refl) eq_refl eq_refl).
  left. reflexivity.
Defined.

(** ** Start-up *)

Section StartupFacts.

Import Startup.

Variable visibleRegion : Mapbox.LngLat -> Z -> Mapbox.Bbox.

Lemma addLocationMarkers_spec (mobile : bool) (ls : list Clusters.CampusLocation)
    (m : Mapbox.Map) (hs : list nat) :
  snd (fold_left (addLocationMarker mobile) ls (m, hs))
  = hs ++ seq (Mapbox.nextHandle m) (length ls)
  /\ Mapbox.calls (fst (fold_left (addLocationMarker mobile) ls (m, hs)))
     = Mapbox.calls m ++ List.map Mapbox.MarkerAddTo (seq (Mapbox.nextHandle m) (length ls))
  /\ Mapbox.markers (fst (fold_left (addLocationMarker mobile) ls (m, hs)))
     = Mapbox.markers m ++ locationMarkers mobile (Mapbox.nextHandle m) ls
  /\ Mapbox.viewZoom (fst (fold_left (addLocationMarker mobile) ls (m, hs))) = Mapbox.viewZoom m
  /\ Mapbox.viewBounds (fst (fold_left (addLocationMarker mobile) ls (m, hs)))
     = Mapbox.viewBounds m
  /\ Mapbox.nextHandle (fst (fold_left (addLocationMarker mobile) ls (m, hs)))
     = (Mapbox.nextHandle m + length ls)%nat.
Proof.
  revert m hs. induction ls as [|l ls IH]; intros m hs.
  - simpl. now rewrite !app_nil_r, Nat.add_0_r.
  - cbn [fold_left length seq].
    change (addLocationMarker mobile (m, hs) l)
      with (snd (Mapbox.addMarker
                   (Mapbox.LocationBlip (Clusters.id l) (Clusters.name l) (Clusters.category l) mobile)
                   {| Mapbox.lng := Clusters.longitude l; Mapbox.lat := Clusters.latitude l |}
                   None m),
            hs ++ [Mapbox.nextHandle m]).
    match goal with |- context [fold_left _ ls (?m1, ?h1)] =>
      destruct (IH m1 h1) as (E1 & E2 & E3 & E4 & E5 & E6) end.
    rewrite E1, E2, E3, E4, E5, E6. unfold locationMarkers. simpl.
    rewrite <- !app_assoc. simpl. repeat split; auto; lia.
Qed.

Lemma trimEnd_truthy (s : string) : Js.truthy (trimEnd s) = true -> Js.truthy s = true.
Proof. destruct s; [discriminate|reflexivity]. Qed.

Lemma trimStart_truthy (s : string) : Js.truthy (Js.trimStart s) = true -> Js.truthy s = true.
Proof. destruct s; [discriminate|reflexivity]. Qed.

Lemma trim_truthy (s : string) : Js.truthy (trim s) = true -> Js.truthy s = true.
Proof. intros H. now apply trimStart_truthy, trimEnd_truthy. Qed.

(** The effect, run on a state without a map whose container is rendered. *)
Lemma initializeEffect_settles (s : State) :
  loading s = false -> mapContainer s = negb (showTokenInput s) ->
  Clusters.mapCurrent (view s) = None -> Clusters.markersRef (view s) = [] ->
  settled visibleRegion (initializeEffect visibleRegion s)
  /\ (Clusters.mapCurrent (view (initializeEffect visibleRegion s)) <> None
      <-> showTokenInput s = false /\ Js.truthy (mapboxToken s) = true
          /\ Clusters.locations (view s) <> [])
  /\ Clusters.locations (view (initializeEffect visibleRegion s)) = Clusters.locations (view s)
  /\ showTokenInput (initializeEffect visibleRegion s) = showTokenInput s
  /\ mapboxToken (initializeEffect visibleRegion s) = mapboxToken s
  /\ userLocation (initializeEffect visibleRegion s) = userLocation s
  /\ Clusters.isMobile (view (initializeEffect visibleRegion s)) = Clusters.isMobile (view s).
Proof.
  intros Hl Hc Hm Hr.
  assert (settled visibleRegion s) as Hs.
  { unfold settled. now rewrite Hm. }
  unfold initializeEffect. rewrite Hl. cbn [negb andb].
  destruct (showTokenInput s) eqn:Ep; cbn [negb andb].
  { split; [exact Hs|]. split; [|auto]. rewrite Hm.
    split; [congruence|intros (A & B & C); congruence]. }
  destruct (Js.truthy (mapboxToken s)) eqn:Et; cbn [negb andb].
  2:{ split; [exact Hs|]. split; [|auto]. rewrite Hm.
      split; [congruence|intros (A & B & C); congruence]. }
  destruct (Clusters.locations (view s)) as [|l ls] eqn:El.
  { cbn. split; [exact Hs|]. split; [|rewrite El; auto]. rewrite Hm.
    split; [congruence|intros (A & B & C); congruence]. }
  cbn [length Nat.ltb Nat.leb]. rewrite Hm.
  unfold initializeMap. rewrite Hc, Et, El, Hr. cbn [negb orb].
  set (m0 := Mapbox.newMap _ _).
  destruct (addLocationMarkers_spec (Clusters.isMobile (view s)) (l :: ls) m0 [])
    as (E1 & E2 & E3 & E4 & E5 & E6).
  destruct (fold_left _ (l :: ls) (m0, [])) as [m' hs].
  cbn [fst snd] in E1, E2, E3, E4, E5, E6.
  unfold settled. cbn. rewrite El, Ep, Et, Hl.
  repeat split; auto; try discriminate.
Qed.

(** The first event: the fetches settle. *)
Lemma fetched_settles (mobile : bool) (position : option Follow.LatLng)
    (invoked : Settled TokenResponse) (selected : Settled Catalogue) :
  let s := step visibleRegion (initial mobile position) (Fetched invoked selected) in
  settled visibleRegion s
  /\ showTokenInput s = negb (fetchedWell invoked selected)
  /\ mapboxToken s = fetchedToken invoked
  /\ Clusters.locations (view s) = fetchedCatalogue invoked selected
  /\ userLocation s = position
  /\ Clusters.isMobile (view s) = mobile
  /\ (Clusters.mapCurrent (view s) <> None
      <-> fetchedWell invoked selected = true
          /\ Js.truthy (fetchedToken invoked) = true
          /\ fetchedCatalogue invoked selected <> []).
Proof.
  intros s. subst s. unfold step. cbn [enabled].
  set (after := fetchData invoked selected (initial mobile position)).
  assert (loading after = false) as Hl by (subst after; reflexivity).
  assert (Clusters.mapCurrent (view after) = None
          /\ Clusters.markersRef (view after) = []
          /\ showTokenInput after = negb (fetchedWell invoked selected)
          /\ mapboxToken after = fetchedToken invoked
          /\ Clusters.locations (view after) = fetchedCatalogue invoked selected
          /\ userLocation after = position
          /\ Clusters.isMobile (view after) = mobile) as (Hm & Hr & Hp & Ht & Hc & Hu & Hi).
  { subst after. destruct invoked as [|[|token]]; [repeat split| |];
      destruct selected as [|[|[data|]]]; repeat split. }
  unfold commit. rewrite Hl. cbn [initial loading Bool.eqb andb].
  destruct (initializeEffect_settles
              (setMapContainer (negb (showTokenInput after)) after))
    as (S1 & S2 & S3 & S4 & S5 & S6 & S7); try assumption; try reflexivity.
  cbn [view showTokenInput mapboxToken userLocation setMapContainer] in S2, S3, S4, S5, S6, S7.
  rewrite Hp, Ht, Hc in S2.
  split; [exact S1|].
  rewrite S3, S4, S5, S6, S7, Hp, Ht, Hc, Hu, Hi.
  do 5 (split; [reflexivity|]).
  etransitivity; [exact S2|].
  destruct (fetchedWell invoked selected); simpl; intuition congruence.
Qed.

(** Typing in the token field, while the prompt is shown. *)
Lemma typed_on_prompt (s : State) (text : string) :
  settled visibleRegion s -> showTokenInput s = true ->
  let s' := step visibleRegion s (TokenTyped text) in
  settled visibleRegion s' /\ showTokenInput s' = true /\ mapboxToken s' = text
  /\ view s' = view s /\ userLocation s' = userLocation s.
Proof.
  intros (Hl & Hc & Hm) Hp s'. subst s'. unfold step. cbn [enabled]. rewrite Hp.
  destruct (Clusters.mapCurrent (view s)) as [m|] eqn:Em; [destruct Hm; congruence|].
  unfold commit. cbn [setMapboxToken loading showTokenInput mapboxToken].
  rewrite !Bool.eqb_reflx, Hp. cbn [andb negb].
  assert (settled visibleRegion (setMapContainer false (setMapboxToken text s))) as Hs.
  { unfold settled. cbn. rewrite Hl, Hp, Em. auto. }
  destruct (String.eqb (mapboxToken s) text); cbn [andb].
  - split; [exact Hs|]. repeat split; auto.
  - unfold initializeEffect.
    cbn [setMapContainer setMapboxToken loading showTokenInput mapboxToken].
    rewrite Hl, Hp. cbn [negb andb]. split; [exact Hs|]. repeat split; auto.
Qed.

(** Submitting a token that is not blank, while the prompt is shown. *)
Lemma submitted_on_prompt (s : State) :
  settled visibleRegion s -> showTokenInput s = true ->
  Js.truthy (trim (mapboxToken s)) = true ->
  let s' := step visibleRegion s TokenSubmitted in
  settled visibleRegion s' /\ showTokenInput s' = false /\ mapboxToken s' = mapboxToken s
  /\ Clusters.locations (view s') = Clusters.locations (view s)
  /\ userLocation s' = userLocation s
  /\ Clusters.isMobile (view s') = Clusters.isMobile (view s)
  /\ (Clusters.mapCurrent (view s') <> None <-> Clusters.locations (view s) <> []).
Proof.
  intros (Hl & Hc & Hm) Hp Ht s'. subst s'. unfold step. cbn [enabled].
  rewrite Hp, Ht. cbn [andb].
  destruct (Clusters.mapCurrent (view s)) as [m|] eqn:Em; [destruct Hm; congruence|].
  unfold handleTokenSubmit. rewrite Ht.
  unfold initializeMap. rewrite Hc, Hp. cbn [negb orb].
  unfold commit. cbn [setShowTokenInput loading showTokenInput mapboxToken].
  rewrite Hp, Bool.eqb_reflx. cbn [Bool.eqb andb negb].
  destruct (initializeEffect_settles (setMapContainer true (setShowTokenInput false s)))
    as (S1 & S2 & S3 & S4 & S5 & S6 & S7); try assumption; try reflexivity.
  cbn [view showTokenInput mapboxToken userLocation setMapContainer setShowTokenInput]
    in S2, S3, S4, S5, S6, S7.
  split; [exact S1|]. do 5 (split; [assumption|]).
  etransitivity; [exact S2|]. split; [tauto|].
  intros H. repeat split; auto. now apply trim_truthy.
Qed.

(** Events other than the fetch keep a reached state reached, and keep the
    catalogue. *)
Lemma ui_step_settled (s : State) (e : Event) :
  settled visibleRegion s -> isFetched e = false ->
  settled visibleRegion (step visibleRegion s e)
  /\ Clusters.locations (view (step visibleRegion s e)) = Clusters.locations (view s).
Proof.
  intros Hs He.
  destruct (enabled s e) eqn:En; [|unfold step; rewrite En; auto].
  destruct e as [i c|text|]; [discriminate| |].
  - cbn [enabled] in En.
    destruct (typed_on_prompt s text Hs En) as (S1 & _ & _ & S4 & _).
    split; [exact S1|]. cbn zeta in S4. now rewrite S4.
  - cbn [enabled] in En. apply andb_prop in En as [En1 En2].
    destruct (submitted_on_prompt s Hs En1 En2) as (S1 & _ & _ & S4 & _).
    split; [exact S1|exact S4].
Qed.

Lemma ui_run_settled (es : list Event) (s : State) :
  settled visibleRegion s -> forallb (fun e => negb (isFetched e)) es = true ->
  settled visibleRegion (run visibleRegion es s)
  /\ Clusters.locations (view (run visibleRegion es s)) = Clusters.locations (view s).
Proof.
  revert s. induction es as [|e es IH]; intros s Hs Hes; simpl; [auto|].
  simpl in Hes. apply andb_prop in Hes as [He Hes]. apply Bool.negb_true_iff in He.
  destruct (ui_step_settled s e Hs He) as [S1 S2].
  destruct (IH _ S1 Hes) as [T1 T2]. split; [exact T1|congruence].
Qed.


End StartupFacts.


(** ** The tutorial *)

(** X17.  Whatever buttons are pressed, in whatever order, the step of
    the tutorial stays between 0 and 6, so the modal always finds the step it
    shows among the seven steps. *)
Theorem tutorial_step_stays_in_range (es : list Tutorial.Event) :
  let s := Tutorial.run es Tutorial.initial in
  0 <= Tutorial.tutorialStep s <= 6
  /\ exists shown, Tutorial.current s = Some shown.
Proof.
  intros s.
  assert (0 <= Tutorial.tutorialStep s <= 6) as H.
  { subst s. unfold Tutorial.run.
    assert (0 <= Tutorial.tutorialStep Tutorial.initial <= 6) as H0 by (simpl; lia).
    revert H0. generalize Tutorial.initial.
    induction es as [|e es IH]; intros s0 H0; simpl; [exact H0|].
    apply IH. unfold Tutorial.step.
    change (Z.of_nat (length Tutorial.tutorialSteps) - 1) with 6.
    destruct e; [cbn [Tutorial.tutorialStep]; lia| | |];
      (destruct (Tutorial.showTutorial s0); [|exact H0]).
    - cbn [Tutorial.tutorialStep]. lia.
    - cbn [Tutorial.tutorialStep]. lia.
    - destruct (Z.ltb_spec (Tutorial.tutorialStep s0) 6); cbn [Tutorial.tutorialStep]; lia. }
  split; [exact H|]. unfold Tutorial.current.
  destruct (Z.ltb_spec (Tutorial.tutorialStep s) 0); [lia|].
  destruct (nth_error Tutorial.tutorialSteps (Z.to_nat (Tutorial.tutorialStep s))) eqn:E; [eauto|].
  apply List.nth_error_None in E. simpl in E. lia.
Qed.

(** X18.  After Help, [n] presses of Next show step [n] as long as [n] is
    at most 6; the seventh press closes the tutorial, and further presses
    change nothing.  Help opens it again at the first step. *)
Theorem tutorial_next_walks_then_closes (n : nat) (before : list Tutorial.Event) :
  Tutorial.run (before ++ Tutorial.Help :: repeat Tutorial.Next n) Tutorial.initial
  = {| Tutorial.showTutorial := (n <=? 6)%nat;
       Tutorial.tutorialStep := Z.of_nat (Nat.min n 6) |}.
Proof.
  unfold Tutorial.run. rewrite fold_left_app. cbn [fold_left].
  generalize (fold_left Tutorial.step before Tutorial.initial). intros s0.
  change (Tutorial.step s0 Tutorial.Help)
    with {| Tutorial.showTutorial := true; Tutorial.tutorialStep := 0 |}.
  induction n as [|n IH]; [reflexivity|].
  cbn [repeat]. rewrite repeat_cons, fold_left_app, IH. cbn [fold_left].
  unfold Tutorial.step. cbn [Tutorial.tutorialStep Tutorial.showTutorial].
  change (Z.of_nat (length Tutorial.tutorialSteps) - 1) with 6.
  destruct (Z.ltb_spec (Z.of_nat (Nat.min n 6)) 6) as [Hlt|Hge].
  - assert (n < 6)%nat as Hn by lia.
    replace (Nat.min n 6) with n by lia. replace (Nat.min (S n) 6) with (S n) by lia.
    replace (n <=? 6)%nat with true by (symmetry; apply Nat.leb_le; lia).
    replace (S n <=? 6)%nat with true by (symmetry; apply Nat.leb_le; lia).
    f_equal. lia.
  - assert (6 <= n)%nat as Hn by lia.
    replace (Nat.min n 6) with 6%nat by lia. replace (Nat.min (S n) 6) with 6%nat by lia.
    replace (S n <=? 6)%nat with false by (symmetry; apply Nat.leb_gt; lia).
    destruct (n <=? 6)%nat; reflexivity.
Qed.

(** ** Start-up and clustering together *)

Section SessionFacts.

Variable visibleRegion : Mapbox.LngLat -> Z -> Mapbox.Bbox.
Variable getClusters :
  Clusters.Supercluster -> list Js.number -> Js.number -> list Clusters.Feature.

(** The effect that creates the map touches neither the index, nor the
    bounds, nor the clusters. *)
Lemma initializeEffect_index (s : Startup.State) :
  Clusters.supercluster (Startup.view (Startup.initializeEffect visibleRegion s))
  = Clusters.supercluster (Startup.view s)
  /\ Clusters.mapBounds (Startup.view (Startup.initializeEffect visibleRegion s))
     = Clusters.mapBounds (Startup.view s)
  /\ Clusters.clusters (Startup.view (Startup.initializeEffect visibleRegion s))
     = Clusters.clusters (Startup.view s)
  /\ Clusters.isMobile (Startup.view (Startup.initializeEffect visibleRegion s))
     = Clusters.isMobile (Startup.view s).
Proof.
  unfold Startup.initializeEffect, Startup.initializeMap.
  destruct (_ && _ && _ && _); [|auto].
  destruct (Clusters.mapCurrent (Startup.view s)).
  - destruct (fold_left _ _ _); simpl; auto.
  - destruct (_ || _); [auto|]. destruct (fold_left _ _ _); simpl; auto.
Qed.


(** Changing the index, the bounds or the clusters keeps a reached state
    of start-up reached. *)
Lemma settled_index (a : Startup.State) (v : Clusters.State) :
  Clusters.mapCurrent v = Clusters.mapCurrent (Startup.view a) ->
  Clusters.markersRef v = Clusters.markersRef (Startup.view a) ->
  Clusters.locations v = Clusters.locations (Startup.view a) ->
  Clusters.isMobile v = Clusters.isMobile (Startup.view a) ->
  Startup.settled visibleRegion a -> Startup.settled visibleRegion (Startup.setView v a).
Proof.
  intros H1 H2 H3 H4. unfold Startup.settled. simpl. now rewrite H1, H2, H3, H4.
Qed.

(** The first event on the path where the fetch commit creates no map. *)
Lemma fetched_unclustered (mobile : bool) (position : option Follow.LatLng)
    (invoked : Startup.Settled Startup.TokenResponse)
    (selected : Startup.Settled Startup.Catalogue) :
  ~ (Startup.fetchedWell invoked selected = true
     /\ Startup.fetchedToken invoked <> ""
     /\ Startup.fetchedCatalogue invoked selected <> []) ->
  Session.unclustered visibleRegion (Startup.fetchedCatalogue invoked selected) mobile
    (Session.step visibleRegion getClusters (Session.initial mobile position)
       (Session.Ui (Startup.Fetched invoked selected)))
  /\ Clusters.mapCurrent
       (Startup.view
          (Session.app
             (Session.step visibleRegion getClusters (Session.initial mobile position)
                (Session.Ui (Startup.Fetched invoked selected))))) = None.
Proof.
  intros Hno. unfold Session.step. cbn [Session.initial Session.app Session.moveendListener].
  destruct (fetched_settles visibleRegion mobile position invoked selected)
    as (Hs & _ & _ & Hc & _ & Hi & Hm).
  set (a := Startup.step visibleRegion (Startup.initial mobile position)
              (Startup.Fetched invoked selected)) in *.
  assert (Clusters.mapCurrent (Startup.view a) = None) as Hnone.
  { destruct (Clusters.mapCurrent (Startup.view a)); [|reflexivity].
    exfalso. apply Hno. rewrite <- truthy_iff. apply Hm. discriminate. }
  assert (Clusters.supercluster (Startup.view a) = None
          /\ Clusters.mapBounds (Startup.view a) = []
          /\ Clusters.clusters (Startup.view a) = []) as (Hx & Hb & Hk).
  { subst a. unfold Startup.step. cbn [Startup.enabled]. unfold Startup.commit.
    match goal with |- context [if ?b then _ else _] => destruct b end.
    - destruct invoked as [|[|token]]; [| |]; destruct selected as [|[|[data|]]]; auto.
    - match goal with |- context [Startup.initializeEffect _ ?r] =>
        destruct (initializeEffect_index r) as (A & B & C & _) end.
      rewrite A, B, C.
      destruct invoked as [|[|token]]; [| |]; destruct selected as [|[|[data|]]]; auto. }
  destruct (Startup.replacesLocations invoked selected).
  - unfold Session.indexCommits, Clusters.updateClustersEffect. rewrite Hnone.
    destruct (Clusters.locations (Startup.view a)) as [|l ls] eqn:El.
    + cbn [Session.app Session.moveendListener orb Startup.view Startup.setView].
      split; [|exact Hnone]. unfold Session.unclustered.
      cbn [Session.app Session.moveendListener Startup.view Startup.setView].
      rewrite Hb, Hk, Hnone, <- Hc. do 5 (split; [auto|]).
      apply settled_index; auto.
    + unfold Session.withSupercluster. cbn [Clusters.mapCurrent]. rewrite Hnone.
      cbn [Session.app Session.moveendListener orb Startup.view Startup.setView].
      split; [|reflexivity]. unfold Session.unclustered.
      cbn [Session.app Session.moveendListener Startup.view Startup.setView
           Clusters.mapCurrent Clusters.mapBounds Clusters.clusters Clusters.locations
           Clusters.isMobile].
      rewrite Hb, Hk, <- Hc, El, Hi. do 5 (split; [auto|]).
      apply settled_index; auto.
  - split; [|exact Hnone]. unfold Session.unclustered.
    cbn [Session.app Session.moveendListener].
    rewrite Hb, Hk, Hnone, <- Hc, Hi. do 5 (split; [auto|]). exact Hs.
Qed.








(** The cluster update effect keeps the map, if there is one. *)
Lemma update_keeps_map (v : Clusters.State) :
  Clusters.mapCurrent (Clusters.updateClustersEffect getClusters v) = None
  <-> Clusters.mapCurrent v = None.
Proof.
  unfold Clusters.updateClustersEffect.
  destruct (Clusters.mapCurrent v) as [m|] eqn:Em; [|now rewrite Em].
  destruct (Clusters.supercluster v); [|now rewrite Em].
  destruct (Clusters.mapBounds v); [now rewrite Em|].
  destruct (fold_left _ _ _); simpl. split; discriminate.
Qed.

(** What the commits that follow a new catalogue leave alone, and the
    index they build. *)
Lemma indexCommits_frame (v : Clusters.State) :
  (Clusters.mapCurrent (fst (Session.indexCommits getClusters v)) = None
   <-> Clusters.mapCurrent v = None)
  /\ Clusters.locations (fst (Session.indexCommits getClusters v)) = Clusters.locations v
  /\ Clusters.isMobile (fst (Session.indexCommits getClusters v)) = Clusters.isMobile v
  /\ Clusters.supercluster (fst (Session.indexCommits getClusters v))
     = match Clusters.locations v with
       | [] => Clusters.supercluster v
       | _ :: _ => Clusters.supercluster (Clusters.clusteringEffect v)
       end.
Proof.
  unfold Session.indexCommits.
  destruct (update_frame getClusters v) as (U1 & U2 & U3).
  pose proof (update_keeps_map v) as U4.
  set (u1 := Clusters.updateClustersEffect getClusters v) in *.
  destruct (Clusters.locations v) as [|l ls] eqn:El; [cbn [fst]; auto|].
  set (c2 := Session.withSupercluster _ u1).
  destruct (update_frame getClusters c2) as (V1 & V2 & V3).
  pose proof (update_keeps_map c2) as V4.
  set (u2 := Clusters.updateClustersEffect getClusters c2) in *.
  assert (Clusters.mapCurrent c2 = Clusters.mapCurrent u1) as M2 by reflexivity.
  destruct (Clusters.mapCurrent c2) as [m|] eqn:Em.
  - destruct (Clusters.supercluster c2) as [index|] eqn:Ei.
    + cbn [fst].
      set (c3 := Clusters.setMapBounds _ u2).
      destruct (update_frame getClusters c3) as (W1 & W2 & W3).
      pose proof (update_keeps_map c3) as W4.
      rewrite W1, W2, W3. cbn [c3 Clusters.setMapBounds Clusters.supercluster
                               Clusters.isMobile Clusters.locations].
      rewrite V1, V2, V3. split; [|auto].
      rewrite W4. cbn [c3 Clusters.setMapBounds Clusters.mapCurrent].
      rewrite V4. rewrite <- M2 in U4. rewrite <- U4. split; congruence.
    + cbn [fst]. rewrite V1, V2, V3. split; [|auto].
      rewrite V4. rewrite <- M2 in U4. rewrite <- U4. split; congruence.
  - cbn [fst]. rewrite V1, V2, V3. split; [|auto].
    rewrite V4. rewrite <- M2 in U4. rewrite <- U4. split; congruence.
Qed.

(** A camera movement keeps the map and the catalogue. *)
Lemma moveend_frame (listening : bool) (v : Clusters.State) (c : Mapbox.Bbox * Js.number) :
  Clusters.locations (Clusters.moveend getClusters listening v c) = Clusters.locations v
  /\ (Clusters.mapCurrent (Clusters.moveend getClusters listening v c) = None
      <-> Clusters.mapCurrent v = None).
Proof.
  unfold Clusters.moveend.
  destruct (Clusters.mapCurrent v) as [m|] eqn:Em.
  - destruct listening; cbn [Clusters.setMap Clusters.mapCurrent Clusters.locations].
    + match goal with |- context [Clusters.updateClustersEffect _ ?t] =>
        destruct (update_frame getClusters t) as (_ & _ & F);
        pose proof (update_keeps_map t) as G end.
      rewrite F. split; [reflexivity|]. rewrite G. simpl. split; discriminate.
    + split; [reflexivity|]. split; discriminate.
  - destruct listening; rewrite ?Em; tauto.
Qed.

(** The fields of the component the commits after the fetch do not touch. *)
Lemma session_fetch_fields (mobile : bool) (position : option Follow.LatLng)
    (invoked : Startup.Settled Startup.TokenResponse)
    (selected : Startup.Settled Startup.Catalogue) :
  let a := Startup.step visibleRegion (Startup.initial mobile position)
             (Startup.Fetched invoked selected) in
  let s := Session.step visibleRegion getClusters (Session.initial mobile position)
             (Session.Ui (Startup.Fetched invoked selected)) in
  Startup.showTokenInput (Session.app s) = Startup.showTokenInput a
  /\ Startup.mapboxToken (Session.app s) = Startup.mapboxToken a
  /\ Startup.loading (Session.app s) = Startup.loading a
  /\ Startup.mapContainer (Session.app s) = Startup.mapContainer a
  /\ Startup.userLocation (Session.app s) = Startup.userLocation a
  /\ (Clusters.mapCurrent (Startup.view (Session.app s)) = None
      <-> Clusters.mapCurrent (Startup.view a) = None)
  /\ Clusters.locations (Startup.view (Session.app s)) = Clusters.locations (Startup.view a)
  /\ Clusters.isMobile (Startup.view (Session.app s)) = Clusters.isMobile (Startup.view a)
  /\ Clusters.supercluster (Startup.view (Session.app s))
     = match Clusters.locations (Startup.view a) with
       | [] => Clusters.supercluster (Startup.view a)
       | _ :: _ => Clusters.supercluster (Clusters.clusteringEffect (Startup.view a))
       end.
Proof.
  intros a s. subst s. unfold Session.step. cbn [Session.initial Session.app]. fold a.
  destruct (Startup.replacesLocations invoked selected) eqn:Er.
  - destruct (indexCommits_frame (Startup.view a)) as (F1 & F2 & F3 & F4).
    destruct (Session.indexCommits getClusters (Startup.view a)) as [v listening].
    cbn [fst] in F1, F2, F3, F4.
    cbn [Session.app Startup.setView Startup.view Startup.showTokenInput Startup.mapboxToken
         Startup.loading Startup.mapContainer Startup.userLocation].
    repeat split; try assumption; try apply F1.
  - cbn [Session.app]. repeat split; try tauto.
    assert (Clusters.locations (Startup.view a) = []) as ->; [|reflexivity].
    destruct (fetched_settles visibleRegion mobile position invoked selected)
      as (_ & _ & _ & Hc & _).
    fold a in Hc. rewrite Hc.
    destruct invoked as [|[|token]]; try reflexivity;
      destruct selected as [|[|[data|]]]; try reflexivity; discriminate.
Qed.


(** The state after the fetch is a started one. *)
Lemma fetched_started (mobile : bool) (position : option Follow.LatLng)
    (invoked : Startup.Settled Startup.TokenResponse)
    (selected : Startup.Settled Startup.Catalogue) :
  Session.started visibleRegion (Startup.fetchedCatalogue invoked selected)
    (Session.step visibleRegion getClusters (Session.initial mobile position)
       (Session.Ui (Startup.Fetched invoked selected))).
Proof.
  destruct (session_fetch_fields mobile position invoked selected)
    as (F1 & F2 & _ & _ & _ & F6 & F7 & _).
  destruct (fetched_settles visibleRegion mobile position invoked selected)
    as (Hs & Hp & Ht & Hc & _ & _ & Hm).
  cbn zeta in F1, F2, F6, F7, Hs, Hp, Ht, Hc, Hm.
  set (a := Startup.step visibleRegion (Startup.initial mobile position)
              (Startup.Fetched invoked selected)) in *.
  set (s := Session.step visibleRegion getClusters (Session.initial mobile position)
              (Session.Ui (Startup.Fetched invoked selected))) in *.
  unfold Session.started. split; [congruence|].
  destruct (Clusters.mapCurrent (Startup.view (Session.app s))) as [m|] eqn:Em.
  - assert (Clusters.mapCurrent (Startup.view a) <> None) as Ha.
    { intros H. apply F6 in H. congruence. }
    apply Hm in Ha as (A & B & C).
    rewrite F1, F2, Hp, Ht, A. auto.
  - assert (Clusters.mapCurrent (Startup.view a) = None) as Ha by now apply F6.
    destruct (fetched_unclustered mobile position invoked selected) as [(_ & _ & _ & _ & _ & U) _].
    + intros (A & B & C). apply truthy_iff in B.
      assert (Clusters.mapCurrent (Startup.view a) <> None) by (apply Hm; auto). congruence.
    + fold s in U. now rewrite Em in U.
Qed.

Lemma started_step (catalogue : list Clusters.CampusLocation) (s : Session.State)
    (e : Session.Event) :
  Session.isFetched e = false ->
  Session.started visibleRegion catalogue s ->
  Session.started visibleRegion catalogue (Session.step visibleRegion getClusters s e).
Proof.
  intros He [Hc Hm]. destruct e as [e|v]; cbn [Session.isFetched] in He.
  - assert (Session.step visibleRegion getClusters s (Session.Ui e)
            = {| Session.app := Startup.step visibleRegion (Session.app s) e;
                 Session.moveendListener := Session.moveendListener s |}) as ->.
    { destruct e; [discriminate|reflexivity|reflexivity]. }
    unfold Session.started. cbn [Session.app].
    destruct (Clusters.mapCurrent (Startup.view (Session.app s))) as [m|] eqn:Em.
    + destruct Hm as (Hp & Ht & Hn).
      assert (Startup.step visibleRegion (Session.app s) e = Session.app s) as ->.
      { unfold Startup.step.
        destruct e; [discriminate| |]; cbn [Startup.enabled]; now rewrite Hp. }
      rewrite Em. auto.
    + destruct (ui_step_settled visibleRegion (Session.app s) e Hm He) as [Ts Tc].
      split; [congruence|].
      destruct (Clusters.mapCurrent
                  (Startup.view (Startup.step visibleRegion (Session.app s) e)))
        as [m|] eqn:Em'; [|exact Ts].
      destruct Ts as (_ & _ & Tm). rewrite Em' in Tm.
      destruct Tm as (A & B & C & _). rewrite Tc, Hc in C. auto.
  - unfold Session.step.
    destruct (Clusters.mapCurrent (Startup.view (Session.app s))) as [m|] eqn:Em;
      [|unfold Session.started; rewrite Em; auto].
    destruct (moveend_frame (Session.moveendListener s) (Startup.view (Session.app s)) v)
      as [F1 F2].
    unfold Session.started.
    cbn [Session.app Startup.setView Startup.view Startup.showTokenInput Startup.mapboxToken].
    rewrite F1. split; [exact Hc|].
    destruct (Clusters.mapCurrent (Clusters.moveend _ _ _ _)) eqn:Em'; [exact Hm|].
    pose proof (proj1 F2 eq_refl). congruence.
Qed.

Lemma started_run (catalogue : list Clusters.CampusLocation) (es : list Session.Event)
    (s : Session.State) :
  forallb (fun e => negb (Session.isFetched e)) es = true ->
  Session.started visibleRegion catalogue s ->
  Session.started visibleRegion catalogue (Session.run visibleRegion getClusters es s).
Proof.
  revert s. induction es as [|e es IH]; intros s Hes Hs; [exact Hs|].
  simpl in Hes. apply andb_prop in Hes as [He Hes]. apply Bool.negb_true_iff in He.
  apply (IH _ Hes). now apply started_step.
Qed.



End SessionFacts.



(** The same run does create a map, from the token typed at the prompt. *)
Example manual_start_shows_the_catalogue :
  let s := Session.run Cases.campusRegion Samples.leavesOnly
             [Session.Ui (Startup.Fetched (Startup.Returned Startup.TokenError)
                            (Startup.Returned (Startup.QueryData (Some Cases.catalogue))));
              Session.Ui (Startup.TokenTyped "pk.token");
              Session.Ui Startup.TokenSubmitted;
              Session.CameraMoved (Samples.downtown, Js.ofZ 12)]
             (Session.initial false None) in
  option_map (fun m => length (Mapbox.markers m))
    (Clusters.mapCurrent (Startup.view (Session.app s))) = Some 2%nat.
Proof. vm_compute. reflexivity. Qed.



(** X15.  Whatever the fetches gave, whatever is then typed and submitted
    on the token prompt and however the camera moves, the catalogue stays the
    one that was fetched, and the map exists only with a catalogue that is
    not empty and a token that is not empty, with the prompt hidden.  In
    particular, a failed or empty catalogue means no map, whatever token is
    entered.  (Stated for ASCII tokens, for which the guard of the submit
    button is modelled exactly.) *)
Theorem map_needs_token_and_catalogue
    (visibleRegion : Mapbox.LngLat -> Z -> Mapbox.Bbox)
    (getClusters : Clusters.Supercluster -> list Js.number -> Js.number -> list Clusters.Feature)
    (mobile : bool) (position : option Follow.LatLng)
    (invoked : Startup.Settled Startup.TokenResponse)
    (selected : Startup.Settled Startup.Catalogue) (es : list Session.Event) :
  forallb (fun e => negb (Session.isFetched e)) es = true ->
  Js.isAscii (Startup.fetchedToken invoked) = true ->
  forallb Session.typesAscii es = true ->
  let s := Session.run visibleRegion getClusters
             (Session.Ui (Startup.Fetched invoked selected) :: es)
             (Session.initial mobile position) in
  Clusters.locations (Startup.view (Session.app s)) = Startup.fetchedCatalogue invoked selected
  /\ (Clusters.mapCurrent (Startup.view (Session.app s)) <> None ->
      Startup.fetchedCatalogue invoked selected <> []
      /\ Startup.mapboxToken (Session.app s) <> ""
      /\ Startup.showTokenInput (Session.app s) = false)
  /\ (Startup.fetchedCatalogue invoked selected = [] ->
      Clusters.mapCurrent (Startup.view (Session.app s)) = None).
Proof.
  intros Hes _ _ s. subst s. cbn [Session.run fold_left].
  pose proof (fetched_started visibleRegion getClusters mobile position invoked selected) as H0.
  pose proof (started_run visibleRegion getClusters _ es _ Hes H0) as [Hc Hm].
  fold (Session.run visibleRegion getClusters es
          (Session.step visibleRegion getClusters (Session.initial mobile position)
             (Session.Ui (Startup.Fetched invoked selected)))).
  split; [exact Hc|].
  destruct (Clusters.mapCurrent _) as [m|]; [|split; congruence].
  destruct Hm as (A & B & C). apply truthy_iff in B. split; [auto|congruence].
Qed.

Lemma map_needs_token_and_catalogue_witness :
  Clusters.mapCurrent
    (Startup.view
       (Session.app
          (Session.run Cases.campusRegion Samples.leavesOnly
             [Session.Ui (Startup.Fetched Startup.Threw
                            (Startup.Returned (Startup.QueryData (Some Cases.catalogue))));
              Session.Ui (Startup.TokenTyped "pk.token"); Session.Ui Startup.TokenSubmitted;
              Session.CameraMoved (Samples.downtown, Js.ofZ 12)]
             (Session.initial false None))))
  = None.
Proof.
  destruct (map_needs_token_and_catalogue Cases.campusRegion Samples.leavesOnly false None
              Startup.Threw
              (Startup.Returned (Startup.QueryData (Some Cases.catalogue)))
              [Session.Ui (Startup.TokenTyped "pk.token"); Session.Ui Startup.TokenSubmitted;
               Session.CameraMoved (Samples.downtown, Js.ofZ 12)] eq_refl eq_refl eq_refl)
    as (_ & _ & H).
  apply H. reflexivity.
Defined.



(** ** The index and coordinates out of range *)



(** With the token fetched, the same catalogue makes the creation of the
    second marker throw, and no index is built. *)
Example out_of_range_latitude_is_refused_by_the_renderer :
  Refusals.fetchCommits Cases.campusRegion Samples.leavesOnly false None
    (Startup.Returned (Startup.TokenData "pk.token"))
    (Startup.Returned (Startup.QueryData (Some [Samples.library; Samples.misplaced])))
  = Mapbox.Refused.
Proof. reflexivity. Qed.

(** A longitude out of range is refused nowhere: the map is created, the
    marker is placed and the point is indexed, at longitude 200. *)
Example out_of_range_longitude_is_indexed :
  option_map (fun s => option_map Clusters.points
                         (Clusters.supercluster (Startup.view (Session.app s))))
    match Refusals.fetchCommits Cases.campusRegion Samples.leavesOnly false None
            (Startup.Returned (Startup.TokenData "pk.token"))
            (Startup.Returned (Startup.QueryData (Some [Cases.offTheMap]))) with
    | Mapbox.Completed s => Some s
    | Mapbox.Refused => None
    end
  = Some (Some [Clusters.LocationPoint
                  {| Mapbox.lng := Js.ofZ 200; Mapbox.lat := Samples.decimal 407589 10000 |}
                  "off-the-map" "services" "Off the map"]).
Proof. reflexivity. Qed.
